(** * GeoGenocides: the CSV pipeline of [src/] as a shallow embedding

    The development follows the Python sources:
    - [src/config.py]         [REQUIRED_COLS]
    - [src/repository.py]     [CSVRepository._path], [load], [validate]
    - [src/services.py]       [CaseService.normalize], [quality_issues],
                              [filter], [table_display]
    - [src/map_builder.py]    [MapBuilder.minimal_map_df]
    - [src/view.py]           the slider bounds of [View.sidebar_filters]
    - [streamlit_app.py]      loading, [yr_min]/[yr_max]
    - [prototype/main.py]     the same year defaults, as the prototype has them

    and, around them:
    - [src/config.py]         [STATUS_COLOR], [DEFAULT_COLOR]
    - [src/models.py]         [Case], [Case.tooltip_html]
    - [src/repository.py]     [CSVRepository.to_cases]
    - [src/services.py]       [CaseService.colorize], [tooltipify]
    - [src/map_builder.py]    [MapBuilder.__init__], [build_layers], [deck]
    - [src/view.py]           [View.sidebar_filters], [sources_panel]
    - [streamlit_app.py]      the sidebar options, the first view, the deck
    - [prototype/main.py]     [load_csv]

    A pandas [DataFrame] is a column store: an index and named columns of
    cells.  Exceptions are values of [Result].  What pandas and Python decide
    about the *text* of a cell (number and date parsing, rendering) is the
    interface [Pandas]; everything the repository's own code does is defined
    here, line by line. *)

From Stdlib Require Import ZArith List String Ascii Bool Lia.
From Stdlib Require Import Floats.
Import ListNotations.

Local Open Scope string_scope.
Local Open Scope list_scope.

(* ===================================================================== *)
(** ** Exceptions *)
(* ===================================================================== *)

Inductive exn : Type :=
| KeyError (key : string)
| ValueError (msg : string)
| TypeError (msg : string)
| ParserError (msg : string)
| AttributeError (msg : string)
| StreamlitAPIException (msg : string).

Inductive Result (A : Type) : Type :=
| Ok (a : A)
| Raise (e : exn).

Arguments Ok {A} a.
Arguments Raise {A} e.

Definition bind {A B : Type} (m : Result A) (k : A -> Result B) : Result B :=
  match m with
  | Ok a => k a
  | Raise e => Raise e
  end.

Notation "x <- m ;; k" := (bind m (fun x => k))
  (at level 61, m at next level, right associativity).

(** [for x in xs: ...] where the body may raise. *)
Fixpoint mapM {A B : Type} (f : A -> Result B) (l : list A) : Result (list B) :=
  match l with
  | [] => Ok []
  | x :: l' => y <- f x ;; ys <- mapM f l' ;; Ok (y :: ys)
  end.

(* ===================================================================== *)
(** ** Python strings

    A character is a code point below 256; [str.isspace] and [str.lower]
    are Python's on that range. *)
(* ===================================================================== *)

Definition is_space (a : ascii) : bool :=
  let n := nat_of_ascii a in
  ((9 <=? n) && (n <=? 13) || (28 <=? n) && (n <=? 32)
   || (n =? 133) || (n =? 160))%nat.

Fixpoint lstrip (s : string) : string :=
  match s with
  | EmptyString => EmptyString
  | String a s' => if is_space a then lstrip s' else s
  end.

Fixpoint rstrip (s : string) : string :=
  match s with
  | EmptyString => EmptyString
  | String a s' =>
      match rstrip s' with
      | EmptyString => if is_space a then EmptyString else String a EmptyString
      | r => String a r
      end
  end.

(** [s.strip()] *)
Definition strip (s : string) : string := lstrip (rstrip s).

Definition lower_char (a : ascii) : ascii :=
  let n := nat_of_ascii a in
  if ((65 <=? n) && (n <=? 90)
      || (192 <=? n) && (n <=? 222) && negb (n =? 215))%nat
  then ascii_of_nat (n + 32) else a.

(** [s.lower()] *)
Fixpoint lower (s : string) : string :=
  match s with
  | EmptyString => EmptyString
  | String a s' => String (lower_char a) (lower s')
  end.

(** [sep.join(l)] *)
Fixpoint join (sep : string) (l : list string) : string :=
  match l with
  | [] => ""
  | [x] => x
  | x :: l' => x ++ sep ++ join sep l'
  end.

(** Truthiness of a [str]: a non-empty string is true. *)
Definition str_truthy (s : string) : bool :=
  match s with EmptyString => false | _ => true end.

(** Truthiness of a [list]. *)
Definition list_truthy {A : Type} (l : list A) : bool :=
  match l with [] => false | _ => true end.

(** [x in l] for a list of strings; [Series.isin] on strings agrees. *)
Definition str_in (x : string) (l : list string) : bool :=
  existsb (String.eqb x) l.

(** [s.split(sep)] for a separator of one character: the pieces between
    the separators, always at least one. *)
Fixpoint split (sep : ascii) (s : string) : list string :=
  match s with
  | EmptyString => [EmptyString]
  | String a s' =>
      if Ascii.eqb a sep then EmptyString :: split sep s'
      else match split sep s' with
           | piece :: rest => String a piece :: rest
           | [] => [String a EmptyString]
           end
  end.

(** [s.replace(old, "")] for a non-empty [old], read from the left:
    [skip] counts the characters of an occurrence still to drop. *)
Fixpoint remove_from (old : string) (skip : nat) (s : string) : string :=
  match s with
  | EmptyString => EmptyString
  | String a s' =>
      match skip with
      | S k => remove_from old k s'
      | O => if String.prefix old s
             then remove_from old (String.length old - 1) s'
             else String a (remove_from old 0 s')
      end
  end.

Definition remove (old s : string) : string := remove_from old 0 s.

(** U+2014, the dash of the tooltip and of the expander titles, as its
    three UTF-8 bytes; nothing here looks inside it. *)
Definition EM_DASH : string :=
  String (ascii_of_nat 226) (String (ascii_of_nat 128)
    (String (ascii_of_nat 148) EmptyString)).

(** [d.get(k, default)] on a [dict] with string keys. *)
Fixpoint dict_get {A : Type} (d : list (string * A)) (k : string) (default : A) : A :=
  match d with
  | [] => default
  | (k', v) :: d' => if String.eqb k k' then v else dict_get d' k default
  end.

(** [sorted(l)] on strings: insertion into a sorted list, by code points. *)
Fixpoint insert_sorted (x : string) (l : list string) : list string :=
  match l with
  | [] => [x]
  | y :: l' => if String.leb x y then x :: l else y :: insert_sorted x l'
  end.

Fixpoint sorted (l : list string) : list string :=
  match l with
  | [] => []
  | x :: l' => insert_sorted x (sorted l')
  end.

(** [Series.unique()]: the values in the order they first appear. *)
Fixpoint unique (l : list string) : list string :=
  match l with
  | [] => []
  | x :: l' => x :: List.filter (fun y => negb (String.eqb y x)) (unique l')
  end.

(* ===================================================================== *)
(** ** Cells

    The cells that [pd.read_csv] and [CaseService.normalize] leave in the
    columns of this data set: text, [float64] numbers ([nan] is the missing
    value; an [int64] cell is its float), [datetime.date] objects as
    [Series.dt.date] produces them, and [NaT]. *)
(* ===================================================================== *)

Record date : Type := mkDate { year : Z; month : Z; day : Z }.

Inductive value : Type :=
| VNaT
| VFloat (f : float)
| VStr (s : string)
| VDate (d : date).

(** What [pandas] and Python decide about text, numbers and dates (the
    prototype pins pandas 2.2.2).  The repository never looks inside these;
    the theorems hold for every instance.  With [errors="coerce"] the two
    coercions do not raise: a cell they cannot read becomes [nan] or [NaT].
    [pd.to_datetime] returns a [datetime64] Series unless the texts it reads
    carry different UTC offsets: pandas 2 then returns an [object] Series of
    [datetime] objects, which has no [.dt] accessor. *)
Class Pandas : Type := {
  (** [pd.to_numeric(_, errors="coerce")] on one text cell; [nan] when the
      text is not a number. *)
  str_to_numeric : string -> float;
  (** The builtin [float(s)]; [None] is [ValueError]. *)
  float_of_str : string -> option float;
  (** [str(x)] for a float that is not [nan]. *)
  repr_float : float -> string;
  (** [str(d)] for a [datetime.date]. *)
  date_isoformat : date -> string;
  (** [pd.to_datetime] infers one format for a whole Series (pandas 2) and
      then reads each text cell with it. *)
  dt_format : Type;
  guess_datetime_format : list value -> dt_format;
  (** One text cell under a format; [None] is [NaT] ([errors="coerce"]). *)
  str_to_datetime : dt_format -> string -> option date;
  (** The UTC offset, in minutes, of the timestamp a text cell is read as;
      [None] when the cell is read as [NaT] or as a timestamp without an
      offset. *)
  utc_offset : dt_format -> string -> option Z;
  (** A number that is not [nan], read as nanoseconds since the epoch. *)
  float_to_datetime : float -> option date
}.

Section Scalars.
Context `{Pandas}.

(** [pd.isna(x)] for [x = row.get(c)]: [None] stands for Python's [None],
    which [Series.get] returns for a label the row does not have. *)
Definition isna (x : option value) : bool :=
  match x with
  | None => true
  | Some VNaT => true
  | Some (VFloat f) => is_nan f
  | Some (VStr _) => false
  | Some (VDate _) => false
  end.

Definition notna_cell (v : value) : bool := negb (isna (Some v)).

(** [str(x)] / [Series.astype(str)] on one cell. *)
Definition str_value (v : value) : string :=
  match v with
  | VNaT => "NaT"
  | VFloat f => if is_nan f then "nan" else repr_float f
  | VStr s => s
  | VDate d => date_isoformat d
  end.

(** [Series.astype(str)] *)
Definition astype_str (s : list value) : list string := map str_value s.

(** [Series.isin(values)] on a Series of strings. *)
Definition isin (s : list string) (values : list string) : list bool :=
  map (fun x => str_in x values) s.

(** The builtin [float(x)] on a cell. *)
Definition py_float (v : value) : Result float :=
  match v with
  | VFloat f => Ok f
  | VStr s =>
      match float_of_str s with
      | Some f => Ok f
      | None => Raise (ValueError "could not convert string to float")
      end
  | VNaT => Raise (TypeError "float() argument must be a string or a real number")
  | VDate _ => Raise (TypeError "float() argument must be a string or a real number")
  end.

(** [pd.to_numeric(_, errors="coerce")] on one cell. *)
Definition to_numeric_scalar (v : value) : value :=
  match v with
  | VFloat f => VFloat f
  | VStr s => VFloat (str_to_numeric s)
  | VNaT => VFloat nan
  | VDate _ => VFloat nan
  end.

(** [pd.to_numeric(s, errors="coerce")] *)
Definition to_numeric (s : list value) : list value := map to_numeric_scalar s.

(** One cell of [pd.to_datetime(_, errors="coerce")] under the format
    inferred for its Series; [None] is [NaT]. *)
Definition to_datetime_scalar (fmt : dt_format) (v : value) : option date :=
  match v with
  | VNaT => None
  | VDate d => Some d
  | VFloat f => if is_nan f then None else float_to_datetime f
  | VStr s => str_to_datetime fmt s
  end.

(** [pd.to_datetime(s, errors="coerce")]: a [datetime64] Series. *)
Definition to_datetime (s : list value) : list (option date) :=
  map (to_datetime_scalar (guess_datetime_format s)) s.

(** The UTC offsets [pd.to_datetime] finds in the text cells of a Series. *)
Definition utc_offsets (s : list value) : list Z :=
  flat_map (fun v =>
              match v with
              | VStr t =>
                  match utc_offset (guess_datetime_format s) t with
                  | Some offset => [offset]
                  | None => []
                  end
              | _ => []
              end) s.

(** [pd.to_datetime(s, errors="coerce")] is an [object] Series: two of its
    timestamps have different UTC offsets. *)
Definition mixed_offsets (s : list value) : bool :=
  match utc_offsets s with
  | [] => false
  | offset :: rest => negb (forallb (Z.eqb offset) rest)
  end.

(** [pd.to_datetime(s, errors="coerce").dt]: the accessor of a [datetime64]
    Series; [AttributeError] on an [object] Series. *)
Definition to_datetime_dt (s : list value) : Result (list (option date)) :=
  if mixed_offsets s
  then Raise (AttributeError "Can only use .dt accessor with datetimelike values")
  else Ok (to_datetime s).

(** [Series.dt.date] *)
Definition dt_date (s : list (option date)) : list value :=
  map (fun o => match o with Some d => VDate d | None => VNaT end) s.

(** [Series.dt.year]; [None] is the [nan] of a missing date. *)
Definition dt_year (s : list (option date)) : list (option Z) :=
  map (option_map year) s.

(** [s >= k] and [s <= k] on a Series of years: comparisons with [nan]
    are false. *)
Definition series_ge (s : list (option Z)) (k : Z) : list bool :=
  map (fun o => match o with Some y => (k <=? y)%Z | None => false end) s.

Definition series_le (s : list (option Z)) (k : Z) : list bool :=
  map (fun o => match o with Some y => (y <=? k)%Z | None => false end) s.

(** [a & b] on two boolean Series over the same index. *)
Fixpoint series_and (a b : list bool) : list bool :=
  match a, b with
  | x :: a', y :: b' => (x && y) :: series_and a' b'
  | _, _ => []
  end.

End Scalars.

(* ===================================================================== *)
(** ** DataFrame *)
(* ===================================================================== *)

(** A row as [iterrows] yields it: labels and cells, in column order. *)
Definition Series : Type := list (string * value).

Record DataFrame : Type := mkDataFrame {
  index : list Z;
  columns : list (string * list value)
}.

(** [df.columns] *)
Definition column_names (df : DataFrame) : list string := map fst (columns df).

(** [c in df.columns] *)
Definition has_column (df : DataFrame) (c : string) : bool :=
  str_in c (column_names df).

(** pandas keeps every column as long as the index. *)
Definition wf (df : DataFrame) : Prop :=
  Forall (fun col => List.length (snd col) = List.length (index df)) (columns df).

(** [df.copy()]: a frame is a value here, so the copy is the frame. *)
Definition copy (df : DataFrame) : DataFrame := df.

(** [df.empty] *)
Definition empty (df : DataFrame) : bool :=
  match index df, columns df with
  | [], _ => true
  | _, [] => true
  | _, _ => false
  end.

Fixpoint lookup {A : Type} (c : string) (l : list (string * A)) : option A :=
  match l with
  | [] => None
  | (k, v) :: l' => if String.eqb c k then Some v else lookup c l'
  end.

(** [df[c]]: raises [KeyError] for a column the frame does not have.  This is
    [df[c]] for a label the frame has once; for a label it has twice pandas
    returns a [DataFrame], which no cell list stands for, and the statements
    that depend on it ask for distinct labels. *)
Definition getitem (df : DataFrame) (c : string) : Result (list value) :=
  match lookup c (columns df) with
  | Some col => Ok col
  | None => Raise (KeyError c)
  end.

Fixpoint replace_column (c : string) (vs : list value)
    (cols : list (string * list value)) : list (string * list value) :=
  match cols with
  | [] => [(c, vs)]
  | (k, old) :: cols' =>
      if String.eqb c k then (k, vs) :: cols'
      else (k, old) :: replace_column c vs cols'
  end.

(** [df[c] = vs]: replaces the column in place, or appends a new one. *)
Definition setitem (df : DataFrame) (c : string) (vs : list value) : DataFrame :=
  mkDataFrame (index df) (replace_column c vs (columns df)).

(** [df[names]] for a list of labels. *)
Definition getitem_list (df : DataFrame) (names : list string) : Result DataFrame :=
  cols <- mapM (fun c => col <- getitem df c ;; Ok (c, col)) names ;;
  Ok (mkDataFrame (index df) cols).

(** Selection by a boolean mask over the same positions. *)
Fixpoint mask_select {A : Type} (m : list bool) (l : list A) : list A :=
  match m, l with
  | b :: m', x :: l' => if b then x :: mask_select m' l' else mask_select m' l'
  | _, _ => []
  end.

(** [df[mask]] for a boolean Series over the frame's own index. *)
Definition getitem_mask (df : DataFrame) (m : list bool) : DataFrame :=
  mkDataFrame (mask_select m (index df))
              (map (fun col => (fst col, mask_select m (snd col))) (columns df)).

Definition heads (cols : list (string * list value)) : Series :=
  map (fun col => (fst col, hd VNaT (snd col))) cols.

Definition tails (cols : list (string * list value)) : list (string * list value) :=
  map (fun col => (fst col, tl (snd col))) cols.

Fixpoint rows_of (idx : list Z) (cols : list (string * list value))
    : list (Z * Series) :=
  match idx with
  | [] => []
  | i :: idx' => (i, heads cols) :: rows_of idx' (tails cols)
  end.

(** [df.iterrows()] *)
Definition iterrows (df : DataFrame) : list (Z * Series) :=
  rows_of (index df) (columns df).

(** [row.get(c)]; [None] is Python's [None]. *)
Definition get (row : Series) (c : string) : option value := lookup c row.

(** [row.get(c, default)] *)
Definition get_default (row : Series) (c : string) (default : value) : value :=
  match lookup c row with
  | Some v => v
  | None => default
  end.

(** [df.dropna(subset=cs)]: keeps the rows whose cells in all of [cs] are
    present; [KeyError] for a missing label. *)
Definition dropna (df : DataFrame) (subset : list string) : Result DataFrame :=
  cols <- mapM (getitem df) subset ;;
  let present :=
    fold_left (fun m col => series_and m (map notna_cell col)) cols
              (map (fun _ => true) (index df)) in
  Ok (getitem_mask df present).

(** [Series.dropna()] *)
Definition series_dropna (s : list value) : list value :=
  List.filter notna_cell s.

(** [Series.str.lower()] *)
Definition str_lower (s : list string) : list string := map lower s.

(** [text + s] and [s + text] for a Series of strings [s]. *)
Definition radd (text : string) (s : list string) : list string :=
  map (fun x => String.append text x) s.

Definition add_text (s : list string) (text : string) : list string :=
  map (fun x => String.append x text) s.

(** [a + b] on two Series of strings over the same index. *)
Fixpoint add (a b : list string) : list string :=
  match a, b with
  | x :: a', y :: b' => String.append x y :: add a' b'
  | _, _ => []
  end.

(** A frame with a [color] column.  Its cells are Python lists, which are
    no [value]; the column is held beside the other columns, which are
    [base] (without a former column of that name). *)
Record ColoredFrame : Type := mkColored {
  base : DataFrame;
  color : list (list Z)
}.

(** The columns of a frame but [c]. *)
Definition drop_column (df : DataFrame) (c : string) : DataFrame :=
  mkDataFrame (index df)
              (List.filter (fun col => negb (String.eqb (fst col) c)) (columns df)).

(* ===================================================================== *)
(** ** [src/config.py] *)
(* ===================================================================== *)

Definition REQUIRED_COLS : list string :=
  [ "id"; "name"; "country"; "region"; "latitude"; "longitude";
    "start_date"; "status"; "perpetrators"; "targeted_group";
    "est_deaths"; "last_verified"; "sources"; "summary" ].

Definition STATUS_COLOR : list (string * list Z) :=
  [ ("ongoing", [220; 20; 60]%Z);
    ("escalating", [255; 140; 0]%Z);
    ("at-risk", [255; 215; 0]%Z) ].

Definition DEFAULT_COLOR : list Z := [100; 149; 237]%Z.

(* ===================================================================== *)
(** ** The files behind [pd.read_csv] *)
(* ===================================================================== *)

(** What a path holds: nothing, a file [pd.read_csv] raises on, or a file it
    reads into a frame. *)
Inductive file : Type :=
| NoFile
| Unreadable (e : exn)
| Csv (df : DataFrame).

Definition Path : Type := string.

Definition FileSystem : Type := Path -> file.

(** [Path.exists()] *)
Definition exists_ (fs : FileSystem) (p : Path) : bool :=
  match fs p with NoFile => false | _ => true end.

(** [pd.read_csv(path)] *)
Definition read_csv (fs : FileSystem) (p : Path) : Result DataFrame :=
  match fs p with
  | Csv df => Ok df
  | Unreadable e => Raise e
  | NoFile => Raise (ValueError "FileNotFoundError")
  end.

(* ===================================================================== *)
(** ** [src/models.py]: [class Case] *)
(* ===================================================================== *)

Module Case.

Record t : Type := mk {
  id : string;
  name : string;
  country : string;
  region : string;
  latitude : float;
  longitude : float;
  start_date : string;
  status : string;
  perpetrators : string;
  targeted_group : string;
  est_deaths : option float;
  last_verified : string;
  sources : string;
  summary : string
}.

Definition tooltip_html (self : t) : string :=
  "<b>" ++ name self ++ "</b><br>"
  ++ country self ++ " " ++ EM_DASH ++ " " ++ region self ++ "<br>"
  ++ "Status: " ++ status self ++ "<br>"
  ++ "Targeted: " ++ targeted_group self ++ "<br>"
  ++ "Perpetrators: " ++ perpetrators self ++ "<br>"
  ++ "Since: " ++ start_date self ++ "<br>"
  ++ "Last verified: " ++ last_verified self.

End Case.

(* ===================================================================== *)
(** ** [src/repository.py]: [class CSVRepository] *)
(* ===================================================================== *)

Module CSVRepository.

Record t : Type := __init__ { preferred : Path; fallback : Path }.

Definition _path (self : t) (fs : FileSystem) : option Path :=
  if exists_ fs (preferred self) then Some (preferred self)
  else if exists_ fs (fallback self) then Some (fallback self)
  else None.

(** [df.columns = [c.strip().lower() for c in df.columns]] *)
Definition rename_columns (df : DataFrame) : DataFrame :=
  mkDataFrame (index df)
              (map (fun col => (lower (strip (fst col)), snd col)) (columns df)).

(** [load]: [Ok None] is the returned [None]; [Raise] is the exception
    [pd.read_csv] raised, which nothing here catches. *)
Definition load (self : t) (fs : FileSystem) : Result (option DataFrame) :=
  let path := _path self fs in
  match path with
  | None => Ok None
  | Some path =>
      df <- read_csv fs path ;;
      let df := rename_columns df in
      Ok (Some df)
  end.

Definition validate (df : DataFrame) : list string :=
  let missing := List.filter (fun c => negb (has_column df c)) REQUIRED_COLS in
  missing.

Section WithPandas.
Context `{Pandas}.

(** The [Case(...)] of one row.  The keyword arguments are evaluated in
    order; [str()] never raises, [float()] may, at latitude, longitude or
    est_deaths. *)
Definition case_of_row (r : Series) : Result Case.t :=
  latitude <- py_float (get_default r "latitude" (VFloat nan)) ;;
  longitude <- py_float (get_default r "longitude" (VFloat nan)) ;;
  est_deaths <-
    (if negb (String.eqb (strip (str_value (get_default r "est_deaths" (VStr ""))))
                         "")
     then match get r "est_deaths" with
          | Some v => x <- py_float v ;; Ok (Some x)
          | None => Raise (TypeError "float() argument must be a string or a real number")
          end
     else Ok None) ;;
  Ok (Case.mk
        (str_value (get_default r "id" (VStr "")))
        (str_value (get_default r "name" (VStr "")))
        (str_value (get_default r "country" (VStr "")))
        (str_value (get_default r "region" (VStr "")))
        latitude
        longitude
        (str_value (get_default r "start_date" (VStr "")))
        (str_value (get_default r "status" (VStr "")))
        (str_value (get_default r "perpetrators" (VStr "")))
        (str_value (get_default r "targeted_group" (VStr "")))
        est_deaths
        (str_value (get_default r "last_verified" (VStr "")))
        (str_value (get_default r "sources" (VStr "")))
        (str_value (get_default r "summary" (VStr "")))).

(** [to_cases]: the cases a caller gets by running the generator to its
    end, or the exception of the first row that raises. *)
Definition to_cases (df : DataFrame) : Result (list Case.t) :=
  mapM (fun item => case_of_row (snd item)) (iterrows df).

End WithPandas.

End CSVRepository.

(* ===================================================================== *)
(** ** [src/services.py]: [class CaseService] *)
(* ===================================================================== *)

Module CaseService.
Section WithPandas.
Context `{Pandas}.

Definition _coerce_date (s : list value) : Result (list value) :=
  sd <- to_datetime_dt s ;;
  Ok (dt_date sd).

Definition normalize (df : DataFrame) : Result DataFrame :=
  let df := copy df in
  lat <- getitem df "latitude" ;;
  let df := setitem df "latitude" (to_numeric lat) in
  lon <- getitem df "longitude" ;;
  let df := setitem df "longitude" (to_numeric lon) in
  deaths <- getitem df "est_deaths" ;;
  let df := setitem df "est_deaths" (to_numeric deaths) in
  sd <- getitem df "start_date" ;;
  sd <- _coerce_date sd ;;
  let df := setitem df "start_date" sd in
  lv <- getitem df "last_verified" ;;
  lv <- _coerce_date lv ;;
  let df := setitem df "last_verified" lv in
  Ok df.

(** [float(x)] for [x = row.get(c)]. *)
Definition float_ (x : option value) : Result float :=
  match x with
  | Some v => py_float v
  | None => Raise (TypeError "float() argument must be a string or a real number")
  end.

(** [-90 <= float(lat) <= 90 and -180 <= float(lon) <= 180]: [float(lon)]
    is evaluated only when the latitude test holds. *)
Definition coords_in_range (lat lon : option value) : Result bool :=
  x <- float_ lat ;;
  if (PrimFloat.leb (-90) x && PrimFloat.leb x 90)%bool then
    y <- float_ lon ;;
    Ok (PrimFloat.leb (-180) y && PrimFloat.leb y 180)%bool
  else Ok false.

(** The body of the loop of [quality_issues] up to [if msgs]: the reasons
    of one row, in the order they are appended. *)
Definition row_msgs (row : Series) : list string :=
  let msgs := [] in
  let lat := get row "latitude" in
  let lon := get row "longitude" in
  let msgs :=
    if (isna lat || isna lon)%bool then
      msgs ++ ["lat/lon missing or invalid"]
    else
      match coords_in_range lat lon with
      | Ok true => msgs
      | Ok false => msgs ++ ["lat/lon out of range"]
      | Raise _ => msgs ++ ["lat/lon invalid type"]
      end in
  let msgs :=
    if negb (str_truthy (strip (str_value (get_default row "sources" (VStr "")))))
    then msgs ++ ["missing sources"]
    else msgs in
  msgs.

(** The loop's variables: the frame it reads and the list it appends to. *)
Record loop_state : Type := mkLoop {
  frame : DataFrame;
  problems : list (Z * string)
}.

Definition loop_body (st : loop_state) (item : Z * Series) : loop_state :=
  let '(idx, row) := item in
  let msgs := row_msgs row in
  if list_truthy msgs
  then mkLoop (frame st) (problems st ++ [(idx, join "; " msgs)])
  else st.

Definition quality_issues_loop (df : DataFrame) : loop_state :=
  fold_left loop_body (iterrows df) (mkLoop df []).

Definition quality_issues (df : DataFrame) : list (Z * string) :=
  problems (quality_issues_loop df).

(** [sd.dt.year] is read off the timestamps of [sd]: the script gives
    [filter] the table [normalize] returned, whose start_date holds dates and
    [NaT], and [pd.to_datetime] makes a [datetime64] Series of those. *)
Definition filter (df : DataFrame) (regions statuses : list string)
    (year_min year_max : Z) : Result DataFrame :=
  let fdf := copy df in
  fdf <- (if list_truthy regions then
            col <- getitem fdf "region" ;;
            Ok (getitem_mask fdf (isin (astype_str col) regions))
          else Ok fdf) ;;
  fdf <- (if list_truthy statuses then
            col <- getitem fdf "status" ;;
            Ok (getitem_mask fdf (isin (astype_str col) statuses))
          else Ok fdf) ;;
  col <- getitem fdf "start_date" ;;
  let sd := to_datetime col in
  let mask_year :=
    series_and (series_ge (dt_year sd) year_min)
               (series_le (dt_year sd) year_max) in
  Ok (getitem_mask fdf mask_year).

Definition table_display (df : DataFrame) : Result DataFrame :=
  let cols :=
    [ "id"; "name"; "country"; "region"; "status";
      "targeted_group"; "perpetrators"; "start_date"; "last_verified";
      "est_deaths" ] in
  let have := List.filter (has_column df) cols in
  getitem_list df have.

Definition colorize (df : DataFrame) : Result ColoredFrame :=
  let fdf := copy df in
  status <- getitem fdf "status" ;;
  let colors :=
    map (fun s => dict_get STATUS_COLOR s DEFAULT_COLOR)
        (str_lower (astype_str status)) in
  Ok (mkColored (drop_column fdf "color") colors).

Definition tooltipify (df : DataFrame) : Result DataFrame :=
  let fdf := copy df in
  name <- getitem fdf "name" ;;
  country <- getitem fdf "country" ;;
  region <- getitem fdf "region" ;;
  status <- getitem fdf "status" ;;
  targeted_group <- getitem fdf "targeted_group" ;;
  perpetrators <- getitem fdf "perpetrators" ;;
  start_date <- getitem fdf "start_date" ;;
  last_verified <- getitem fdf "last_verified" ;;
  let t := radd "<b>" (astype_str name) in
  let t := add_text t "</b><br>" in
  let t := add t (astype_str country) in
  let t := add_text t (" " ++ EM_DASH ++ " ")%string in
  let t := add t (astype_str region) in
  let t := add_text t "<br>" in
  let t := add_text t "Status: " in
  let t := add t (astype_str status) in
  let t := add_text t "<br>" in
  let t := add_text t "Targeted: " in
  let t := add t (astype_str targeted_group) in
  let t := add_text t "<br>" in
  let t := add_text t "Perpetrators: " in
  let t := add t (astype_str perpetrators) in
  let t := add_text t "<br>" in
  let t := add_text t "Since: " in
  let t := add t (astype_str start_date) in
  let t := add_text t "<br>" in
  let t := add_text t "Last verified: " in
  let tooltip := add t (astype_str last_verified) in
  Ok (setitem fdf "tooltip" (map VStr tooltip)).

End WithPandas.
End CaseService.

(* ===================================================================== *)
(** ** [src/map_builder.py]: [class MapBuilder] *)
(* ===================================================================== *)

Module MapBuilder.
Section WithPandas.
Context `{Pandas}.

Definition minimal_map_df (df : DataFrame) : Result DataFrame :=
  let cols := [ "longitude"; "latitude"; "color"; "tooltip"; "name" ] in
  let keep := List.filter (has_column df) cols in
  m <- getitem_list df keep ;;
  let m := copy m in
  lon <- getitem m "longitude" ;;
  let m := setitem m "longitude" (to_numeric lon) in
  lat <- getitem m "latitude" ;;
  let m := setitem m "latitude" (to_numeric lat) in
  m <- dropna m [ "longitude"; "latitude" ] ;;
  Ok m.

End WithPandas.

Record t : Type := mkMapBuilder { mapbox_token : string }.

(** [self.mapbox_token = mapbox_token or ""] *)
Definition __init__ (mapbox_token : option string) : t :=
  mkMapBuilder
    (match mapbox_token with
     | Some token => if str_truthy token then token else ""
     | None => ""
     end).

(** A [pdk.Layer]: its type, its data (a frame, or the tile URL) and its
    other keyword arguments as written. *)
Inductive layer_data : Type :=
| Frame (df : DataFrame)
| Url (url : string).

Record Layer : Type := mkLayer {
  layer_type : string;
  data : layer_data;
  kwargs : list (string * string)
}.

Definition build_layers (self : t) (df_map : DataFrame) (show_labels : bool)
    : list Layer :=
  let layers := [] in
  let layers :=
    layers ++ [ mkLayer "ScatterplotLayer" (Frame df_map)
                  [ ("get_position", "[longitude, latitude]");
                    ("get_fill_color", "color");
                    ("get_radius", "200000");
                    ("pickable", "True");
                    ("auto_highlight", "True") ] ] in
  let layers :=
    if (show_labels && negb (empty df_map))%bool then
      layers ++ [ mkLayer "TextLayer" (Frame df_map)
                    [ ("get_position", "[longitude, latitude]");
                      ("get_text", "name");
                      ("get_size", "16");
                      ("get_color", "[0, 0, 0]");
                      ("get_angle", "0");
                      ("get_alignment_baseline", "bottom") ] ]
    else layers in
  layers.

(** A [pdk.Deck], with the [pdk.settings.mapbox_api_key] that [deck] leaves
    behind ([None] when it does not set it). *)
Record Deck : Type := mkDeck {
  map_style : option string;
  layers : list Layer;
  mapbox_api_key : option string
}.

Definition deck (self : t) (df_map : DataFrame) : Deck :=
  let base_layers := [] in
  if str_truthy (mapbox_token self) then
    mkDeck (Some "mapbox://styles/mapbox/light-v10") base_layers
           (Some (mapbox_token self))
  else
    let base_layers :=
      base_layers ++ [ mkLayer "TileLayer"
                         (Url "https://{s}.tile.openstreetmap.org/{z}/{x}/{y}.png")
                         [ ("min_zoom", "0"); ("max_zoom", "19");
                           ("tile_size", "256") ] ] in
    mkDeck None base_layers None.

End MapBuilder.

(* ===================================================================== *)
(** ** [src/view.py]: [class View] *)
(* ===================================================================== *)

Module View.

(** The [min_value] and [max_value] that [sidebar_filters] gives
    [st.slider]; it gives the same pair as [value]. *)
Definition slider_bounds (yr_min yr_max : Z) : Z * Z :=
  (Z.max 1900 yr_min, Z.max yr_max yr_min).

(** [st.slider(label, min_value=lo, max_value=hi, value=(lo, hi))] while the
    user has not moved it (Streamlit 1.39, which the prototype pins): equal
    bounds are refused, and a pair given in reverse comes back swapped. *)
Definition slider (min_value max_value : Z) : Result (Z * Z) :=
  if (min_value =? max_value)%Z then
    Raise (StreamlitAPIException
             "Slider `min_value` must be less than the `max_value`.")
  else if (max_value <? min_value)%Z then Ok (max_value, min_value)
  else Ok (min_value, max_value).

(** What [sidebar_filters] returns while the user has not touched the
    widgets: every widget returns its default. *)
Definition sidebar_filters (regions statuses : list string) (yr_min yr_max : Z)
    : Result (list string * list string * (Z * Z) * bool) :=
  let sel_regions := regions in
  let sel_status := statuses in
  let '(min_value, max_value) := slider_bounds yr_min yr_max in
  year_range <- slider min_value max_value ;;
  let show_labels := false in
  Ok (sel_regions, sel_status, year_range, show_labels).

(** What a call writes on the page. *)
Inductive element : Type :=
| Markdown (text : string)
| Write (v : value).

Inductive widget : Type :=
| Info (text : string)
| Expander (title : string) (body : list element).

Section WithPandas.
Context `{Pandas}.

(** The inner loop of [sources_panel]: one line for each piece of the
    sources text that is not blank. *)
Definition source_links (sources : string) : list element :=
  flat_map
    (fun raw =>
       let url := strip raw in
       if negb (str_truthy url) then []
       else
         let label := remove "http://" (remove "https://" url) in
         [Markdown ("- [" ++ label ++ "](" ++ url ++ ")")%string])
    (split ";" sources).

Definition sources_panel (df : DataFrame) : Result (list widget) :=
  if empty df then Ok [Info "No cases match the current filters."]
  else
    mapM (fun item =>
            let row := snd item in
            name <- match get row "name" with
                    | Some v => Ok v
                    | None => Raise (KeyError "name")
                    end ;;
            let links :=
              source_links (str_value (get_default row "sources" (VStr ""))) in
            let summary :=
              if str_truthy (strip (str_value (get_default row "summary" (VStr ""))))
              then [Write (get_default row "summary" (VStr ""))]
              else [] in
            Ok (Expander (str_value name ++ " " ++ EM_DASH ++ " Sources")%string
                         (links ++ summary)))
         (iterrows df).

End WithPandas.

End View.

(* ===================================================================== *)
(** ** [streamlit_app.py] *)
(* ===================================================================== *)

(** [Series.min()] and [Series.max()] skip missing values; [None] is the
    [nan] they return when nothing is left. *)
Definition series_min (s : list (option Z)) : option Z :=
  fold_left (fun acc o =>
               match acc, o with
               | Some a, Some y => Some (Z.min a y)
               | Some a, None => Some a
               | None, _ => o
               end) s None.

Definition series_max (s : list (option Z)) : option Z :=
  fold_left (fun acc o =>
               match acc, o with
               | Some a, Some y => Some (Z.max a y)
               | Some a, None => Some a
               | None, _ => o
               end) s None.

(** [int(x)]: [ValueError] on [nan]. *)
Definition int_ (x : option Z) : Result Z :=
  match x with
  | Some z => Ok z
  | None => Raise (ValueError "cannot convert float NaN to integer")
  end.

(** What the top of the script leaves on the page after loading. *)
Inductive startup : Type :=
| NoCsvFound
| MissingRequiredColumns (missing : list string)
| Validated (df : DataFrame).

Section App.
Context `{Pandas}.

(** Lines 68-78.  [Raise e] is the exception leaving the script: no
    [try] surrounds [db.load()]. *)
Definition load_and_validate (db : CSVRepository.t) (fs : FileSystem)
    : Result startup :=
  df <- CSVRepository.load db fs ;;
  match df with
  | None => Ok NoCsvFound
  | Some df =>
      let missing := CSVRepository.validate df in
      if list_truthy missing then Ok (MissingRequiredColumns missing)
      else Ok (Validated df)
  end.

(** Line 91, on the table [normalize] returned (see [filter]). *)
Definition yr_min (df : DataFrame) : Result Z :=
  if negb (empty df) then
    col <- getitem df "start_date" ;;
    int_ (series_min (dt_year (to_datetime col)))
  else Ok 1900%Z.

(** Line 92. *)
Definition yr_max (df : DataFrame) : Result Z :=
  if negb (empty df) then
    col <- getitem df "start_date" ;;
    int_ (series_max (dt_year (to_datetime col)))
  else Ok 2025%Z.

(** [prototype/main.py], line 209: the same default with
    [datetime.now().year] for the empty table. *)
Definition prototype_yr_max (now_year : Z) (df : DataFrame) : Result Z :=
  if negb (empty df) then
    col <- getitem df "start_date" ;;
    int_ (series_max (dt_year (to_datetime col)))
  else Ok now_year.

(** Lines 91-94: the year range the sidebar starts with. *)
Definition default_year_range (df : DataFrame) : Result (Z * Z) :=
  lo <- yr_min df ;;
  hi <- yr_max df ;;
  let '(min_value, max_value) := View.slider_bounds lo hi in
  View.slider min_value max_value.

(** Line 89. *)
Definition regions (df : DataFrame) : Result (list string) :=
  col <- getitem df "region" ;;
  Ok (sorted (List.filter str_truthy (unique (astype_str (series_dropna col))))).

(** Line 90. *)
Definition statuses (df : DataFrame) : Result (list string) :=
  col <- getitem df "status" ;;
  Ok (sorted (List.filter str_truthy (unique (astype_str (series_dropna col))))).

(** Lines 89-98 on a first run: the options, the year defaults, the
    untouched sidebar, and the filter it leads to. *)
Definition first_view (df : DataFrame) : Result DataFrame :=
  regions <- regions df ;;
  statuses <- statuses df ;;
  yr_min <- yr_min df ;;
  yr_max <- yr_max df ;;
  chosen <- View.sidebar_filters regions statuses yr_min yr_max ;;
  let '(sel_regions, sel_status, (ymin, ymax), show_labels) := chosen in
  CaseService.filter df sel_regions sel_status ymin ymax.

(** Lines 105-115: the deck and the layers appended to it. *)
Definition final_deck (map_token : option string) (df_map : DataFrame)
    (show_labels : bool) : MapBuilder.Deck :=
  let mb := MapBuilder.__init__ map_token in
  let layers := MapBuilder.build_layers mb df_map show_labels in
  let deck := MapBuilder.deck mb df_map in
  fold_left (fun d lyr =>
               MapBuilder.mkDeck (MapBuilder.map_style d)
                                 (MapBuilder.layers d ++ [lyr])
                                 (MapBuilder.mapbox_api_key d))
            layers deck.

End App.

(* ===================================================================== *)
(** ** [prototype/main.py]: [load_csv]

    The single-file script the classes were split out of.  Its [load_csv]
    chooses the path, reads, renames, validates, cleans the types and checks
    the rows in one function. *)
(* ===================================================================== *)

Module Prototype.

Definition PREFERRED_PATH : Path := "../data/genocides.csv".
Definition FALLBACK_PATH : Path := "genocides.csv".

(** What [load_csv] puts on the page: the [st.error] about missing columns,
    or the expander with one line for each problem. *)
Inductive message : Type :=
| MissingColumns (path : Path) (missing : list string)
| QualityIssues (problems : list (Z * string)).

Section WithPandas.
Context `{Pandas}.

(** Lines 85-86. *)
Definition _coerce_date (s : list value) : Result (list value) :=
  sd <- to_datetime_dt s ;;
  Ok (dt_date sd).

(** [float(row[c]) if pd.notna(row[c]) else None], lines 115-116:
    [row[c]] raises [KeyError] for a label the row lacks. *)
Definition coordinate (row : Series) (c : string) : Result (option float) :=
  match get row c with
  | None => Raise (KeyError c)
  | Some v =>
      if notna_cell v then x <- py_float v ;; Ok (Some x) else Ok None
  end.

(** Lines 113-125: the reasons of one row.  Whatever the [try] raises, the
    [except] leaves both coordinates [None]. *)
Definition row_msgs (row : Series) : list string :=
  let msgs := [] in
  let '(lat, lon) :=
    match (lat <- coordinate row "latitude" ;;
           lon <- coordinate row "longitude" ;;
           Ok (lat, lon)) with
    | Ok coordinates => coordinates
    | Raise _ => (None, None)
    end in
  let msgs :=
    match lat, lon with
    | Some lat, Some lon =>
        if negb ((PrimFloat.leb (-90) lat && PrimFloat.leb lat 90)
                 && (PrimFloat.leb (-180) lon && PrimFloat.leb lon 180))
        then msgs ++ ["lat/lon out of range"]
        else msgs
    | _, _ => msgs ++ ["lat/lon missing or invalid"]
    end in
  let msgs :=
    if negb (str_truthy (strip (str_value (get_default row "sources" (VStr "")))))
    then msgs ++ ["missing sources"]
    else msgs in
  msgs.

(** Lines 111-127: the loop over the rows. *)
Definition row_checks (df : DataFrame) : list (Z * string) :=
  fold_left (fun problems item =>
               let '(idx, row) := item in
               let msgs := row_msgs row in
               if list_truthy msgs
               then problems ++ [(idx, join "; " msgs)]
               else problems)
            (iterrows df) [].

(** Lines 90-133.  The result is what the call wrote on the page and what
    it returned: [None], the empty [pd.DataFrame()] after the error about
    missing columns, or the cleaned table. *)
Definition load_csv (fs : FileSystem)
    : Result (list message * option DataFrame) :=
  let path :=
    if exists_ fs PREFERRED_PATH then Some PREFERRED_PATH
    else if exists_ fs FALLBACK_PATH then Some FALLBACK_PATH
    else None in
  match path with
  | None => Ok ([], None)
  | Some path =>
      df <- read_csv fs path ;;
      let df := CSVRepository.rename_columns df in
      let missing :=
        List.filter (fun c => negb (has_column df c)) REQUIRED_COLS in
      if list_truthy missing then
        Ok ([MissingColumns path missing], Some (mkDataFrame [] []))
      else
        lat <- getitem df "latitude" ;;
        let df := setitem df "latitude" (to_numeric lat) in
        lon <- getitem df "longitude" ;;
        let df := setitem df "longitude" (to_numeric lon) in
        deaths <- getitem df "est_deaths" ;;
        let df := setitem df "est_deaths" (to_numeric deaths) in
        sd <- getitem df "start_date" ;;
        sd <- _coerce_date sd ;;
        let df := setitem df "start_date" sd in
        lv <- getitem df "last_verified" ;;
        lv <- _coerce_date lv ;;
        let df := setitem df "last_verified" lv in
        let problems := row_checks df in
        Ok ((if list_truthy problems then [QualityIssues problems] else []),
            Some df)
  end.

End WithPandas.

End Prototype.

(* ===================================================================== *)
(** ** A reference instance of [Pandas]

    Plain decimal literals and ISO dates, the forms the sample CSV of the
    application uses.  It gives the closed examples below something to run
    on; no theorem depends on it. *)
(* ===================================================================== *)

Module Reference.

Definition digit (a : ascii) : option Z :=
  let n := nat_of_ascii a in
  if ((48 <=? n) && (n <=? 57))%nat then Some (Z.of_nat (n - 48)) else None.

(** The digits at the front of [s], as a number, their count, and the rest. *)
Fixpoint digits (s : string) (acc : Z) (n : nat) : Z * nat * string :=
  match s with
  | EmptyString => (acc, n, s)
  | String a s' =>
      match digit a with
      | Some d => digits s' (10 * acc + d)%Z (S n)
      | None => (acc, n, s)
      end
  end.

Definition float_of_Z (z : Z) : float :=
  if (z <? 0)%Z then PrimFloat.opp (PrimFloat.of_uint63 (Uint63.of_Z (- z)))
  else PrimFloat.of_uint63 (Uint63.of_Z z).

(** [sign digits [. digits]], at most fifteen digits: the mantissa and the
    power of ten are then exact floats and one division rounds correctly. *)
Definition decimal (s : string) : option float :=
  let s := strip s in
  let '(neg, body) :=
    match s with
    | String "-" r => (true, r)
    | String "+" r => (false, r)
    | _ => (false, s)
    end in
  let '(ip, n1, rest) := digits body 0%Z 0%nat in
  let '(mant, n2, rest) :=
    match rest with
    | String "." r => digits r ip 0%nat
    | _ => (ip, 0%nat, rest)
    end in
  match rest with
  | EmptyString =>
      if ((1 <=? n1 + n2) && (n1 + n2 <=? 15))%nat then
        let q := PrimFloat.div (float_of_Z mant) (float_of_Z (10 ^ Z.of_nat n2)) in
        Some (if neg then PrimFloat.opp q else q)
      else None
  | _ => None
  end.

Definition is_leap (y : Z) : bool :=
  ((y mod 4 =? 0) && (negb (y mod 100 =? 0) || (y mod 400 =? 0)))%Z.

Definition days_in_month (y m : Z) : Z :=
  if (m =? 2)%Z then (if is_leap y then 29 else 28)%Z
  else if ((m =? 4) || (m =? 6) || (m =? 9) || (m =? 11))%Z then 30%Z
  else 31%Z.

(** [YYYY-MM-DD], a real calendar day a [Timestamp] can hold. *)
Definition iso_date (s : string) : option date :=
  let s := strip s in
  match digits s 0%Z 0%nat with
  | (y, 4%nat, String "-" r1) =>
      match digits r1 0%Z 0%nat with
      | (m, 2%nat, String "-" r2) =>
          match digits r2 0%Z 0%nat with
          | (d, 2%nat, EmptyString) =>
              if ((1678 <=? y) && (y <=? 2261) && (1 <=? m) && (m <=? 12)
                  && (1 <=? d) && (d <=? days_in_month y m))%Z
              then Some (mkDate y m d) else None
          | _ => None
          end
      | _ => None
      end
  | _ => None
  end.

Fixpoint decimal_digits (fuel : nat) (z : Z) (acc : string) : string :=
  match fuel with
  | O => acc
  | S fuel' =>
      let acc' := String (ascii_of_nat (48 + Z.to_nat (z mod 10))) acc in
      if (z / 10 =? 0)%Z then acc' else decimal_digits fuel' (z / 10)%Z acc'
  end.

(** [str(z)] for an integer [0 <= z]. *)
Definition str_Z (z : Z) : string := decimal_digits 40 z "".

Definition pad (width : nat) (s : string) : string :=
  let fix zeros (n : nat) : string :=
    match n with O => s | S n' => String "0" (zeros n') end in
  zeros (width - String.length s)%nat.

Definition isoformat (d : date) : string :=
  pad 4 (str_Z (year d)) ++ "-" ++ pad 2 (str_Z (month d)) ++ "-"
  ++ pad 2 (str_Z (day d)).

(** The civil date of a day count from 1970-01-01. *)
Definition civil_from_days (z : Z) : date :=
  let z := (z + 719468)%Z in
  let era := (z / 146097)%Z in
  let doe := (z - era * 146097)%Z in
  let yoe := ((doe - doe / 1460 + doe / 36524 - doe / 146096) / 365)%Z in
  let doy := (doe - (365 * yoe + yoe / 4 - yoe / 100))%Z in
  let mp := ((5 * doy + 2) / 153)%Z in
  let d := (doy - (153 * mp + 2) / 5 + 1)%Z in
  let m := (if mp <? 10 then mp + 3 else mp - 9)%Z in
  mkDate (if m <=? 2 then yoe + era * 400 + 1 else yoe + era * 400)%Z m d.

(** The integer part of a finite float, rounded down. *)
Definition floor (f : float) : option Z :=
  match Prim2SF f with
  | S754_zero _ => Some 0%Z
  | S754_finite s m e =>
      let n := (if 0 <=? e then Z.pos m * 2 ^ e else Z.pos m / 2 ^ (- e))%Z in
      let exact := (if 0 <=? e then true else Z.pos m mod 2 ^ (- e) =? 0)%Z in
      Some (if s then (if exact then - n else - n - 1)%Z else n)
  | _ => None
  end.

(** Nanoseconds since the epoch, within the reach of a [Timestamp]. *)
Definition epoch_ns (f : float) : option date :=
  match floor f with
  | Some ns =>
      if (Z.abs ns <? 2 ^ 63)%Z
      then Some (civil_from_days (ns / 86400000000000)%Z) else None
  | None => None
  end.

(** [str(x)], exact for a float whose value is an integer below [10^16]
    (91.0 prints as "91.0"), the only floats the examples render as text; a
    fraction is cut off. *)
Definition repr (f : float) : string :=
  match floor f with
  | Some z => (if (z <? 0)%Z then "-" else "") ++ str_Z (Z.abs z) ++ ".0"
  | None => if PrimFloat.ltb f 0 then "-inf" else "inf"
  end.

(** Two digits and the rest. *)
Definition two_digits (s : string) : option (Z * string) :=
  match s with
  | String a (String b rest) =>
      match digit a, digit b with
      | Some x, Some y => Some ((10 * x + y)%Z, rest)
      | _, _ => None
      end
  | _ => None
  end.

(** [YYYY-MM-DDTHH:MM:SS+HH:MM] (or [-HH:MM]): the day and the UTC offset in
    minutes. *)
Definition iso_timestamp (s : string) : option (date * Z) :=
  let s := strip s in
  match iso_date (String.substring 0 10 s),
        String.substring 10 (String.length s - 10) s with
  | Some d, String "T" r =>
      match two_digits r with
      | Some (h, String ":" r) =>
          match two_digits r with
          | Some (m, String ":" r) =>
              match two_digits r with
              | Some (sec, String sign r) =>
                  match two_digits r with
                  | Some (oh, String ":" r) =>
                      match two_digits r with
                      | Some (om, EmptyString) =>
                          if ((h <? 24) && (m <? 60) && (sec <? 60)
                              && (oh <? 24) && (om <? 60))%Z
                          then
                            if Ascii.eqb sign "+" then Some (d, (60 * oh + om)%Z)
                            else if Ascii.eqb sign "-"
                                 then Some (d, (- (60 * oh + om))%Z)
                                 else None
                          else None
                      | _ => None
                      end
                  | _ => None
                  end
              | _ => None
              end
          | _ => None
          end
      | _ => None
      end
  | _, _ => None
  end.

(** The two formats of the examples. *)
Inductive format : Type :=
| DateOnly
| TimestampWithOffset.

(** pandas guesses the format from the first text cell. *)
Fixpoint guess (s : list value) : format :=
  match s with
  | [] => DateOnly
  | VStr t :: _ =>
      match iso_timestamp t with
      | Some _ => TimestampWithOffset
      | None => DateOnly
      end
  | _ :: s' => guess s'
  end.

#[export] Instance pandas : Pandas := {
  str_to_numeric := fun s => match decimal s with Some f => f | None => nan end;
  float_of_str := decimal;
  repr_float := repr;
  date_isoformat := isoformat;
  dt_format := format;
  guess_datetime_format := guess;
  str_to_datetime := fun fmt s =>
    match fmt with
    | DateOnly => iso_date s
    | TimestampWithOffset => option_map fst (iso_timestamp s)
    end;
  utc_offset := fun fmt s =>
    match fmt with
    | DateOnly => None
    | TimestampWithOffset => option_map snd (iso_timestamp s)
    end;
  float_to_datetime := epoch_ns
}.

End Reference.

(* ===================================================================== *)
(** ** Sample data

    [cases]: the two rows that the application's "Create sample CSV" button
    writes, as [pd.read_csv] returns them, and two rows with defects: one out
    of the geographic range with blank sources, one with an empty latitude,
    an impossible date, an untrimmed name and empty country and sources
    cells. *)
(* ===================================================================== *)

Definition cases : DataFrame :=
  mkDataFrame [0; 1; 2; 3]%Z
    [ ("id", [VStr "EX-001"; VStr "EX-002"; VStr "EX-003"; VStr "EX-004"]);
      ("name", [VStr "Example Case"; VStr "Escalating Violence";
                VStr "Polar Case"; VStr " Darfur "]);
      ("country", [VStr "Exampleland"; VStr "Samplestan"; VStr "Northland";
                   VFloat nan]);
      ("region", [VStr "Example Region"; VStr "Asia"; VStr "Asia";
                  VStr "Africa"]);
      ("latitude", [VFloat 34; VFloat 35.5; VFloat 91; VFloat nan]);
      ("longitude", [VFloat 71.5; VFloat 51.25; VFloat 10; VFloat 20]);
      ("start_date", [VStr "2024-01-01"; VStr "2025-04-20"; VStr "2023-06-01";
                      VStr "2024-13-40"]);
      ("status", [VStr "ongoing"; VStr "escalating"; VStr "ongoing";
                  VStr "at-risk"]);
      ("perpetrators", [VStr "Example Security Forces";
                        VStr "Paramilitary Group X"; VStr "Unknown";
                        VStr "Militia"]);
      ("targeted_group", [VStr "Example Minority"; VStr "Group Y";
                          VStr "Group Z"; VStr "Group W"]);
      ("est_deaths", [VFloat 1200; VFloat nan; VFloat 15; VFloat nan]);
      ("last_verified", [VStr "2025-11-01"; VStr "2025-10-15";
                         VStr "2025-09-30"; VStr "2025-08-01"]);
      ("sources", [VStr "https://example.org/report; https://another.org/article";
                   VStr "https://ngo.example/briefing"; VStr "  "; VFloat nan]);
      ("summary", [VStr "Short placeholder summary."; VStr "Risks increasing.";
                   VStr "Coordinates mistyped."; VStr "No sources yet."]) ].

(** [cases] without its last row: every record has a start date. *)
Definition dated_cases : DataFrame :=
  getitem_mask cases [true; true; true; false].

(** The two sample records with their start dates written as timestamps in
    two time zones. *)
Definition two_time_zones : DataFrame :=
  setitem (getitem_mask cases [true; true; false; false]) "start_date"
          [VStr "2024-01-01T00:00:00+01:00"; VStr "2025-04-20T00:00:00+02:00"].

(** The first sample record alone. *)
Definition single_case : DataFrame :=
  getitem_mask cases [true; false; false; false].

(** A CSV that has the header line and no record. *)
Definition header_only : DataFrame :=
  mkDataFrame [] (map (fun c => (c, [])) REQUIRED_COLS).

(** One record whose latitude is text that is not a number, in a table that
    was not normalized. *)
Definition raw_text_latitude : DataFrame :=
  mkDataFrame [0]%Z
    [ ("latitude", [VStr "north"]); ("longitude", [VStr "10"]);
      ("sources", [VStr "https://example.org/report"]) ].

(** One record at latitude 91, longitude 10. *)
Definition polar : DataFrame :=
  mkDataFrame [0]%Z
    [ ("name", [VStr "Polar Case"]); ("latitude", [VFloat 91]);
      ("longitude", [VFloat 10]); ("sources", [VStr "https://example.org"]) ].

(** The same record with its cells as text, before [normalize]. *)
Definition polar_text : DataFrame :=
  mkDataFrame [0]%Z
    [ ("name", [VStr "Polar Case"]); ("latitude", [VStr "91"]);
      ("longitude", [VStr "10"]); ("start_date", [VStr "2023-06-01"]);
      ("est_deaths", [VStr ""]); ("last_verified", [VStr "2025-09-30"]);
      ("sources", [VStr "https://example.org"]) ].

(** The preferred file exists and is not delimited text. *)
Definition broken_preferred : FileSystem :=
  fun p => if String.eqb p "data/genocides.csv"
           then Unreadable (ParserError "Error tokenizing data")
           else NoFile.

Definition db : CSVRepository.t :=
  CSVRepository.__init__ "data/genocides.csv" "genocides.csv".

(** The sample records in the fallback file and nothing at the preferred
    paths. *)
Definition cases_in_fallback : FileSystem :=
  fun p => if String.eqb p "genocides.csv" then Csv cases else NoFile.

(** Only the fallback file exists; its header row is in capitals and has
    stray blanks. *)
Definition capital_headers : FileSystem :=
  fun p => if String.eqb p "genocides.csv"
           then Csv (mkDataFrame [0]%Z
                       [ (" Name", [VStr "Example Case"]);
                         ("LATITUDE ", [VFloat 34]) ])
           else NoFile.

(* ===================================================================== *)
(** ** The vocabulary of the statements

    Row predicates in the words of the specification, and the names the
    lemmas below share. *)
(* ===================================================================== *)

Section Vocabulary.
Context `{Pandas}.

(** The region of a row, as a string. *)
Definition region_str (row : Series) : option string :=
  option_map str_value (get row "region").

Definition status_str (row : Series) : option string :=
  option_map str_value (get row "status").

(** The year of the row's start date; [None] when the date is absent. *)
Definition start_year (fmt : dt_format) (row : Series) : option Z :=
  match get row "start_date" with
  | Some v => option_map year (to_datetime_scalar fmt v)
  | None => None
  end.

(** The test a mask makes on column [c], read on a row. *)
Definition row_test (c : string) (f : value -> bool) (row : Series) : bool :=
  match get row c with
  | Some v => f v
  | None => false
  end.

(** "[row[c]], as a string, is a member of [L] (or [L] is empty)" *)
Definition member_or_all (c : string) (L : list string) (row : Series) : bool :=
  match L with
  | [] => true
  | _ => match option_map str_value (get row c) with
         | Some s => str_in s L
         | None => false
         end
  end.

(** "its region string is in R (or R is empty)" *)
Definition passes_region (R : list string) (row : Series) : bool :=
  match R with
  | [] => true
  | _ => match region_str row with
         | Some s => str_in s R
         | None => false
         end
  end.

Definition passes_status (S : list string) (row : Series) : bool :=
  match S with
  | [] => true
  | _ => match status_str row with
         | Some s => str_in s S
         | None => false
         end
  end.

(** "its start_date year lies within [year_min, year_max] inclusive" *)
Definition passes_year (fmt : dt_format) (year_min year_max : Z)
    (row : Series) : bool :=
  match start_year fmt row with
  | Some y => ((year_min <=? y) && (y <=? year_max))%Z
  | None => false
  end.

Definition passes (fmt : dt_format) (R S : list string)
    (year_min year_max : Z) (row : Series) : bool :=
  passes_region R row && passes_status S row
  && passes_year fmt year_min year_max row.

(** The cells of column [c] in a list of rows. *)
Definition column_of (rows : list (Z * Series)) (c : string) : list value :=
  map (fun r => get_default (snd r) c VNaT) rows.

(** The date format pandas infers in [filter]: that of the start dates of
    the rows left by the region and status selections.  It matters for text
    cells only; dates and [NaT] read the same under every format. *)
Definition filter_format (df : DataFrame) (R S : list string) : dt_format :=
  guess_datetime_format
    (column_of (List.filter (fun r => passes_region R (snd r)
                                      && passes_status S (snd r))
                            (iterrows df))
               "start_date").

(** One line [df[c] = g(df[c])]. *)
Definition coerce_column (c : string) (g : list value -> list value)
    (df : DataFrame) : Result DataFrame :=
  col <- getitem df c ;; Ok (setitem df c (g col)).

(** Column [c] already holds what [g] makes of it. *)
Definition settled (c : string) (g : list value -> list value)
    (df : DataFrame) : Prop :=
  exists col, getitem df c = Ok col /\ g col = col.

(** The columns [normalize] assigns to. *)
Definition COERCED_COLS : list string :=
  [ "latitude"; "longitude"; "est_deaths"; "start_date"; "last_verified" ].

(** What [_coerce_date] returns when it returns. *)
Definition coerced_dates (s : list value) : list value :=
  dt_date (to_datetime s).

(** One line [df[c] = _coerce_date(df[c])]. *)
Definition coerce_date_column (c : string) (df : DataFrame) : Result DataFrame :=
  col <- getitem df c ;;
  col <- CaseService._coerce_date col ;;
  Ok (setitem df c col).

(** The table has column [c], and its texts carry different UTC offsets. *)
Definition mixed_column (df : DataFrame) (c : string) : bool :=
  match getitem df c with
  | Ok col => mixed_offsets col
  | Raise _ => false
  end.

(** What [.dt] raises on an [object] Series. *)
Definition NOT_DATETIMELIKE : exn :=
  AttributeError "Can only use .dt accessor with datetimelike values".

(** No label names two columns. *)
Definition unique_labels (df : DataFrame) : Prop :=
  NoDup (column_names df).

(** A coordinate cell after [pd.to_numeric]: a number that is present. *)
Definition numeric_present (x : option value) : bool :=
  match x with
  | Some v => notna_cell (to_numeric_scalar v)
  | None => false
  end.

(** Latitude within -90..90 and longitude within -180..180. *)
Definition in_geographic_range (x y : float) : bool :=
  (PrimFloat.leb (-90) x && PrimFloat.leb x 90)
  && (PrimFloat.leb (-180) y && PrimFloat.leb y 180).

(** Text made of white space only (the empty text included). *)
Fixpoint all_space (s : string) : bool :=
  match s with
  | EmptyString => true
  | String a s' => is_space a && all_space s'
  end.

(** The sources of a row as [quality_issues] reads them. *)
Definition sources_text (row : Series) : string :=
  str_value (get_default row "sources" (VStr "")).

(** The entry [quality_issues] appends for a row that has reasons. *)
Definition issue_of (item : Z * Series) : Z * string :=
  (fst item, join "; " (CaseService.row_msgs (snd item))).

Definition has_issue (item : Z * Series) : bool :=
  list_truthy (CaseService.row_msgs (snd item)).

(** Both coordinates of a row are numbers after [pd.to_numeric]. *)
Definition on_map (row : Series) : bool :=
  numeric_present (get row "longitude") && numeric_present (get row "latitude").

(** "a trimmed string": text with no white space at either end. *)
Definition is_trimmed_text (v : value) : bool :=
  match v with
  | VStr s => String.eqb (strip s) s
  | _ => false
  end.

(** Column [c] holds what [g] returned on some Series. *)
Definition produced (c : string) (g : list value -> list value)
    (df : DataFrame) : Prop :=
  exists col, getitem df c = Ok (g col).

(** A [float64] cell ([nan] included). *)
Definition is_float_cell (v : value) : bool :=
  match v with VFloat _ => true | _ => false end.

(** A [datetime.date] or [NaT]. *)
Definition is_date_cell (v : value) : bool :=
  match v with VDate _ | VNaT => true | _ => false end.

(** A number that is present: a float that is not [nan]. *)
Definition is_number_cell (v : value) : bool :=
  match v with VFloat f => negb (is_nan f) | _ => false end.

(** The first of [names] that the table does not have. *)
Definition first_missing (df : DataFrame) (names : list string) : option string :=
  List.find (fun c => negb (has_column df c)) names.


(** The columns [tooltipify] reads, in the order it reads them. *)
Definition TOOLTIP_COLS : list string :=
  [ "name"; "country"; "region"; "status"; "targeted_group";
    "perpetrators"; "start_date"; "last_verified" ].

(** The columns [table_display] shows and [minimal_map_df] keeps. *)
Definition DISPLAY_COLS : list string :=
  [ "id"; "name"; "country"; "region"; "status";
    "targeted_group"; "perpetrators"; "start_date"; "last_verified";
    "est_deaths" ].

Definition MAP_COLS : list string :=
  [ "longitude"; "latitude"; "color"; "tooltip"; "name" ].

(** The two coordinates of a row are absent, as [quality_issues] tests. *)
Definition coordinate_missing (row : Series) : bool :=
  isna (get row "latitude") || isna (get row "longitude").

(** The text of field [c] of a row, as [str(row.get(c, ""))]. *)
Definition field_text (row : Series) (c : string) : string :=
  str_value (get_default row c (VStr "")).

(** The tooltip of one row, field by field. *)
Definition row_tooltip (row : Series) : string :=
  ("<b>" ++ field_text row "name" ++ "</b><br>"
   ++ field_text row "country" ++ " " ++ EM_DASH ++ " "
   ++ field_text row "region" ++ "<br>"
   ++ "Status: " ++ field_text row "status" ++ "<br>"
   ++ "Targeted: " ++ field_text row "targeted_group" ++ "<br>"
   ++ "Perpetrators: " ++ field_text row "perpetrators" ++ "<br>"
   ++ "Since: " ++ field_text row "start_date" ++ "<br>"
   ++ "Last verified: " ++ field_text row "last_verified")%string.

(** The color of a status text: the entry of [STATUS_COLOR] for its lower
    case, or the default. *)
Definition status_color (status : string) : list Z :=
  dict_get STATUS_COLOR (lower status) DEFAULT_COLOR.


(** The options a column offers: the texts of its present cells, but the
    empty text. *)
Definition offered (col : list value) (s : string) : Prop :=
  s <> "" /\ exists v, In v col /\ notna_cell v = true /\ str_value v = s.

(** Each string is at most the next, by code points. *)
Fixpoint ascending (l : list string) : Prop :=
  match l with
  | [] => True
  | x :: l' =>
      match l' with
      | [] => True
      | y :: _ => String.leb x y = true
      end /\ ascending l'
  end.

(** The year range the first view filters by, for the smallest and the
    largest start year [lo] and [hi] of a table whose slider takes them:
    the slider is given [max(1900, lo)] and [hi], and swaps them when every
    record is from before 1900. *)
Definition first_years (lo hi : Z) : Z * Z :=
  if (hi <? 1900)%Z then (hi, 1900%Z) else (Z.max 1900 lo, hi).

(** The options the sidebar offers for a column, as lines 89 and 90
    compute them. *)
Definition options_of (col : list value) : list string :=
  sorted (List.filter str_truthy (unique (astype_str (series_dropna col)))).

End Vocabulary.

(* ===================================================================== *)
(** ** Lists, masks and rows *)
(* ===================================================================== *)

Lemma bind_ok {A B : Type} (m : Result A) (k : A -> Result B) (a : A) :
  m = Ok a -> bind m k = k a.
Proof. intros ->. reflexivity. Qed.

Lemma mask_select_map_self {A : Type} (f : A -> bool) (l : list A) :
  mask_select (map f l) l = List.filter f l.
Proof.
  induction l as [|x l IH]; simpl; [reflexivity|].
  rewrite IH. reflexivity.
Qed.

Lemma mask_select_length_eq {A B : Type} (m : list bool) :
  forall (l1 : list A) (l2 : list B),
    List.length l1 = List.length l2 ->
    List.length (mask_select m l1) = List.length (mask_select m l2).
Proof.
  induction m as [|b m IH]; intros [|x l1] [|y l2] Hlen; simpl in *;
    try reflexivity; try discriminate.
  injection Hlen as Hlen. destruct b; simpl; auto.
Qed.

Lemma mask_select_In {A : Type} (m : list bool) :
  forall (l : list A) (x : A), In x (mask_select m l) -> In x l.
Proof.
  induction m as [|b m IH]; intros [|y l] x Hin; simpl in *; try contradiction.
  destruct b; simpl in Hin.
  - destruct Hin as [->|Hin]; [now left | right; now apply IH].
  - right; now apply IH.
Qed.

Lemma mask_select_NoDup {A : Type} (m : list bool) :
  forall l : list A, NoDup l -> NoDup (mask_select m l).
Proof.
  induction m as [|b m IH]; intros [|y l] Hnd; simpl; try constructor.
  inversion Hnd as [|? ? Hnotin Hnd']; subst.
  destruct b; [constructor|]; auto.
  intro Hin. apply Hnotin. eapply mask_select_In; eassumption.
Qed.

Lemma series_and_length (a b : list bool) :
  List.length (series_and a b) = Nat.min (List.length a) (List.length b).
Proof.
  revert b. induction a as [|x a IH]; intros [|y b]; simpl; auto.
Qed.

Lemma series_and_map {A : Type} (f g : A -> bool) (l : list A) :
  series_and (map f l) (map g l) = map (fun x => f x && g x) l.
Proof.
  induction l as [|x l IH]; simpl; [reflexivity|]. now rewrite IH.
Qed.

Lemma lookup_map_snd {A B : Type} (g : A -> B) (c : string)
    (l : list (string * A)) :
  lookup c (map (fun col => (fst col, g (snd col))) l)
  = option_map g (lookup c l).
Proof.
  induction l as [|[k v] l IH]; simpl; [reflexivity|].
  destruct (String.eqb c k); [reflexivity | exact IH].
Qed.

Lemma lookup_In {A : Type} (c : string) (l : list (string * A)) (v : A) :
  lookup c l = Some v -> exists k, In (k, v) l.
Proof.
  induction l as [|[k w] l IH]; simpl; [discriminate|].
  destruct (String.eqb c k).
  - intros [= ->]. exists k. now left.
  - intros Hl. destruct (IH Hl) as [k' Hin]. exists k'. now right.
Qed.

Lemma str_in_lookup {A : Type} (c : string) (l : list (string * A)) :
  str_in c (map fst l) = true <-> exists v, lookup c l = Some v.
Proof.
  unfold str_in. induction l as [|[k v] l IH]; simpl.
  - split; [discriminate | intros [v Hv]; discriminate].
  - destruct (String.eqb c k); simpl.
    + split; [intros _; now exists v | reflexivity].
    + exact IH.
Qed.

Lemma has_column_getitem (df : DataFrame) (c : string) :
  has_column df c = true <-> exists col, getitem df c = Ok col.
Proof.
  unfold has_column, column_names, getitem. rewrite str_in_lookup.
  split; intros [col Hc]; exists col.
  - now rewrite Hc.
  - destruct (lookup c (columns df)); congruence.
Qed.

Lemma getitem_length (df : DataFrame) (c : string) (col : list value) :
  wf df -> getitem df c = Ok col -> List.length col = List.length (index df).
Proof.
  unfold wf, getitem. intros Hwf Hget.
  destruct (lookup c (columns df)) as [col'|] eqn:Hl; [|discriminate].
  injection Hget as ->. destruct (lookup_In _ _ _ Hl) as [k Hin].
  rewrite Forall_forall in Hwf. exact (Hwf _ Hin).
Qed.

Lemma rows_of_fst (idx : list Z) :
  forall cols, map fst (rows_of idx cols) = idx.
Proof.
  induction idx as [|i idx IH]; intros cols; simpl; [reflexivity|].
  now rewrite IH.
Qed.

Lemma index_iterrows (df : DataFrame) : map fst (iterrows df) = index df.
Proof. apply rows_of_fst. Qed.

Lemma length_iterrows (df : DataFrame) :
  List.length (iterrows df) = List.length (index df).
Proof. rewrite <- (length_map fst (iterrows df)). now rewrite index_iterrows. Qed.

Lemma Forall_tails (n : nat) (cols : list (string * list value)) :
  Forall (fun col => List.length (snd col) = S n) cols ->
  Forall (fun col => List.length (snd col) = n) (tails cols).
Proof.
  unfold tails. intros Hall. rewrite Forall_map.
  eapply Forall_impl; [|exact Hall].
  intros [k [|v vs]] Hlen; simpl in *; [discriminate | now injection Hlen].
Qed.

Lemma mask_columns_cons (b : bool) (m : list bool) (n : nat)
    (cols : list (string * list value)) :
  Forall (fun col => List.length (snd col) = S n) cols ->
  map (fun col => (fst col, mask_select (b :: m) (snd col))) cols
  = if b
    then map (fun col => (fst col, hd VNaT (snd col)
                                   :: mask_select m (tl (snd col)))) cols
    else map (fun col => (fst col, mask_select m (tl (snd col)))) cols.
Proof.
  intros Hall. rewrite Forall_forall in Hall.
  destruct b; apply map_ext_in; intros [k vs] Hin;
    specialize (Hall _ Hin); simpl in *;
    destruct vs; simpl in *; try discriminate; reflexivity.
Qed.

Lemma rows_of_mask (m : list bool) :
  forall idx cols,
    Forall (fun col => List.length (snd col) = List.length idx) cols ->
    rows_of (mask_select m idx)
            (map (fun col => (fst col, mask_select m (snd col))) cols)
    = mask_select m (rows_of idx cols).
Proof.
  induction m as [|b m IH]; intros idx cols Hall; [reflexivity|].
  destruct idx as [|i idx]; [reflexivity|].
  rewrite (mask_columns_cons b m _ cols Hall).
  pose proof (Forall_tails _ _ Hall) as Htl.
  specialize (IH idx (tails cols) Htl). unfold tails in IH.
  rewrite map_map in IH. cbn [fst snd] in IH.
  cbn [mask_select rows_of]. destruct b; cbn [rows_of].
  - f_equal.
    + f_equal. unfold heads. rewrite map_map. reflexivity.
    + unfold tails at 1. rewrite map_map. cbn [fst snd tl]. exact IH.
  - exact IH.
Qed.

Lemma rows_of_column (c : string) :
  forall idx cols col,
    Forall (fun col => List.length (snd col) = List.length idx) cols ->
    lookup c cols = Some col ->
    map (fun r => lookup c (snd r)) (rows_of idx cols) = map Some col.
Proof.
  induction idx as [|i idx IH]; intros cols col Hall Hl.
  - destruct (lookup_In _ _ _ Hl) as [k Hin].
    rewrite Forall_forall in Hall. specialize (Hall _ Hin). simpl in Hall.
    destruct col; [reflexivity | discriminate].
  - simpl. pose proof (Forall_tails _ _ Hall) as Htl.
    destruct (lookup_In _ _ _ Hl) as [k Hin].
    rewrite Forall_forall in Hall. specialize (Hall _ Hin). simpl in Hall.
    destruct col as [|v col]; [discriminate|].
    unfold heads at 1. rewrite lookup_map_snd, Hl. simpl. f_equal.
    apply IH; [exact Htl|].
    unfold tails. rewrite lookup_map_snd, Hl. reflexivity.
Qed.

Lemma column_mask_rows (df : DataFrame) (c : string) (col : list value)
    (f : value -> bool) :
  wf df -> getitem df c = Ok col ->
  map f col = map (fun r => row_test c f (snd r)) (iterrows df).
Proof.
  intros Hwf Hget. unfold getitem in Hget.
  destruct (lookup c (columns df)) as [col'|] eqn:Hl; [|discriminate].
  injection Hget as ->.
  pose proof (rows_of_column c _ _ _ Hwf Hl) as Hrows.
  fold (iterrows df) in Hrows.
  apply (f_equal (map (fun o => match o with Some v => f v | None => false end)))
    in Hrows.
  rewrite !map_map in Hrows. symmetry. exact Hrows.
Qed.

Lemma column_of_iterrows (df : DataFrame) (c : string) (col : list value) :
  wf df -> getitem df c = Ok col -> column_of (iterrows df) c = col.
Proof.
  intros Hwf Hget. unfold getitem in Hget.
  destruct (lookup c (columns df)) as [col'|] eqn:Hl; [|discriminate].
  injection Hget as ->.
  pose proof (rows_of_column c _ _ _ Hwf Hl) as Hrows.
  fold (iterrows df) in Hrows.
  apply (f_equal (map (fun o => match o with Some v => v | None => VNaT end)))
    in Hrows.
  rewrite !map_map, map_id in Hrows. exact Hrows.
Qed.

Lemma wf_getitem_mask (df : DataFrame) (m : list bool) :
  wf df -> wf (getitem_mask df m).
Proof.
  unfold wf, getitem_mask. simpl. intros Hwf. rewrite Forall_map. simpl.
  eapply Forall_impl; [|exact Hwf].
  intros col Hlen. now apply mask_select_length_eq.
Qed.

Lemma iterrows_getitem_mask (df : DataFrame) (m : list bool) :
  wf df -> iterrows (getitem_mask df m) = mask_select m (iterrows df).
Proof. intros Hwf. unfold iterrows, getitem_mask. simpl. now apply rows_of_mask. Qed.

Lemma getitem_getitem_mask (df : DataFrame) (m : list bool) (c : string) :
  getitem (getitem_mask df m) c
  = (col <- getitem df c ;; Ok (mask_select m col)).
Proof.
  unfold getitem, getitem_mask. simpl. rewrite lookup_map_snd.
  destruct (lookup c (columns df)); reflexivity.
Qed.

(** Selecting by a mask computed from one column keeps the rows that pass
    the column's test, in order. *)
Lemma select_by_column (df : DataFrame) (c : string) (col : list value)
    (f : value -> bool) :
  wf df -> getitem df c = Ok col ->
  iterrows (getitem_mask df (map f col))
  = List.filter (fun r => row_test c f (snd r)) (iterrows df).
Proof.
  intros Hwf Hget. rewrite iterrows_getitem_mask by exact Hwf.
  rewrite (column_mask_rows df c col f Hwf Hget).
  apply mask_select_map_self.
Qed.

Lemma filter_twice {A : Type} (p q : A -> bool) (l : list A) :
  List.filter q (List.filter p l) = List.filter (fun x => p x && q x) l.
Proof.
  induction l as [|x l IH]; simpl; [reflexivity|].
  destruct (p x); simpl; [destruct (q x)|]; now rewrite IH.
Qed.


Lemma column_names_getitem_mask (df : DataFrame) (m : list bool) :
  column_names (getitem_mask df m) = column_names df.
Proof.
  unfold column_names, getitem_mask. simpl. rewrite map_map. reflexivity.
Qed.

Lemma has_column_getitem_mask (df : DataFrame) (m : list bool) (c : string) :
  has_column (getitem_mask df m) c = has_column df c.
Proof. unfold has_column. now rewrite column_names_getitem_mask. Qed.

(* ===================================================================== *)
(** ** [CaseService.filter] *)
(* ===================================================================== *)

Section FilterFacts.
Context `{Pandas}.

(** One of the two [if selection: fdf = fdf[fdf[c].astype(str).isin(selection)]]. *)
Lemma selection_stage (df : DataFrame) (c : string) (L : list string) :
  wf df -> has_column df c = true ->
  exists out,
    (if list_truthy L then
       col <- getitem df c ;;
       Ok (getitem_mask df (isin (astype_str col) L))
     else Ok df) = Ok out
    /\ wf out
    /\ (forall c', has_column out c' = has_column df c')
    /\ iterrows out
       = List.filter (fun r => member_or_all c L (snd r)) (iterrows df).
Proof.
  intros Hwf Hcol. destruct L as [|x L].
  - exists df. simpl. repeat split; auto.
    induction (iterrows df) as [|r l IH]; simpl; congruence.
  - apply has_column_getitem in Hcol. destruct Hcol as [col Hget].
    exists (getitem_mask df (isin (astype_str col) (x :: L))).
    cbn [list_truthy]. rewrite Hget. cbn [bind].
    split; [reflexivity|]. split; [now apply wf_getitem_mask|].
    split; [intros c'; apply has_column_getitem_mask|].
    unfold isin, astype_str. rewrite map_map.
    rewrite (select_by_column df c col _ Hwf Hget).
    apply filter_ext. intros [i row]. unfold row_test, member_or_all. simpl.
    destruct (get row c); reflexivity.
Qed.

Lemma year_mask (fmt : dt_format) (col : list value) (year_min year_max : Z) :
  series_and (series_ge (dt_year (map (to_datetime_scalar fmt) col)) year_min)
             (series_le (dt_year (map (to_datetime_scalar fmt) col)) year_max)
  = map (fun v => match option_map year (to_datetime_scalar fmt v) with
                  | Some y => ((year_min <=? y) && (y <=? year_max))%Z
                  | None => false
                  end) col.
Proof.
  unfold series_ge, series_le, dt_year. rewrite !map_map, series_and_map.
  apply map_ext. intros v.
  destruct (option_map year (to_datetime_scalar fmt v)); reflexivity.
Qed.

(** The three selections of [filter] are one selection by [passes]. *)
Lemma filter_rows (df : DataFrame) (R S : list string) (year_min year_max : Z) :
  wf df ->
  has_column df "region" = true ->
  has_column df "status" = true ->
  has_column df "start_date" = true ->
  exists out,
    CaseService.filter df R S year_min year_max = Ok out
    /\ wf out
    /\ iterrows out
       = List.filter
           (fun r => passes (filter_format df R S) R S year_min year_max (snd r))
           (iterrows df).
Proof.
  intros Hwf Hreg Hsta Hsd. unfold CaseService.filter, copy.
  destruct (selection_stage df "region" R Hwf Hreg)
    as (fdf1 & -> & Hwf1 & Hcols1 & Hrows1).
  cbn [bind].
  assert (Hsta1 : has_column fdf1 "status" = true) by now rewrite Hcols1.
  destruct (selection_stage fdf1 "status" S Hwf1 Hsta1)
    as (fdf2 & -> & Hwf2 & Hcols2 & Hrows2).
  cbn [bind].
  assert (Hsd2 : has_column fdf2 "start_date" = true)
    by now rewrite Hcols2, Hcols1.
  apply has_column_getitem in Hsd2. destruct Hsd2 as [col Hget].
  rewrite Hget. cbn [bind].
  eexists. split; [reflexivity|]. split; [now apply wf_getitem_mask|].
  unfold to_datetime. rewrite year_mask.
  rewrite (select_by_column fdf2 "start_date" col _ Hwf2 Hget).
  rewrite Hrows1, filter_twice in Hrows2.
  assert (Hfmt : guess_datetime_format col = filter_format df R S).
  { unfold filter_format. f_equal.
    rewrite <- (column_of_iterrows fdf2 "start_date" col Hwf2 Hget).
    now rewrite Hrows2. }
  rewrite Hfmt, Hrows2, filter_twice.
  apply filter_ext. intros [i row].
  unfold passes, passes_region, passes_status, passes_year, start_year,
    region_str, status_str, member_or_all, row_test. cbn [snd].
  destruct (get row "start_date"); reflexivity.
Qed.


End FilterFacts.

Lemma wf_cases : wf cases.
Proof. unfold wf, cases. simpl. repeat constructor. Qed.

Section FilterTheorems.
Context {P : Pandas}.



End FilterTheorems.


Lemma wf_dated_cases : wf dated_cases.
Proof. apply wf_getitem_mask, wf_cases. Qed.


(* ===================================================================== *)
(** ** Column assignment *)
(* ===================================================================== *)

Lemma lookup_replace_same (c : string) (vs : list value)
    (cols : list (string * list value)) :
  lookup c (replace_column c vs cols) = Some vs.
Proof.
  induction cols as [|[k old] cols IH]; simpl.
  - now rewrite String.eqb_refl.
  - destruct (String.eqb c k) eqn:E; simpl; rewrite E; [reflexivity | exact IH].
Qed.

Lemma lookup_replace_other (c c' : string) (vs : list value)
    (cols : list (string * list value)) :
  String.eqb c' c = false ->
  lookup c' (replace_column c vs cols) = lookup c' cols.
Proof.
  intros Hne. induction cols as [|[k old] cols IH]; simpl.
  - now rewrite Hne.
  - destruct (String.eqb c k) eqn:E; simpl.
    + apply String.eqb_eq in E. subst k. now rewrite Hne.
    + now rewrite IH.
Qed.

Lemma replace_same_value (c : string) (vs : list value)
    (cols : list (string * list value)) :
  lookup c cols = Some vs -> replace_column c vs cols = cols.
Proof.
  induction cols as [|[k old] cols IH]; simpl; [discriminate|].
  destruct (String.eqb c k).
  - now intros [= ->].
  - intros Hl. now rewrite IH.
Qed.

Lemma replace_keeps_names (c : string) (vs old : list value)
    (cols : list (string * list value)) :
  lookup c cols = Some old ->
  map fst (replace_column c vs cols) = map fst cols.
Proof.
  induction cols as [|[k w] cols IH]; simpl; [discriminate|].
  destruct (String.eqb c k); simpl; [reflexivity|].
  intros Hl. now rewrite IH.
Qed.

Lemma Forall_replace (Q : string * list value -> Prop) (c : string)
    (vs : list value) (cols : list (string * list value)) :
  (forall k, Q (k, vs)) -> Forall Q cols -> Forall Q (replace_column c vs cols).
Proof.
  intros Hvs. induction cols as [|[k w] cols IH]; simpl; intros Hall.
  - constructor; [apply Hvs | constructor].
  - inversion Hall; subst. destruct (String.eqb c k); constructor; auto.
Qed.

Lemma getitem_setitem_same (df : DataFrame) (c : string) (vs : list value) :
  getitem (setitem df c vs) c = Ok vs.
Proof. unfold getitem, setitem. simpl. now rewrite lookup_replace_same. Qed.

Lemma getitem_setitem_other (df : DataFrame) (c c' : string) (vs : list value) :
  String.eqb c' c = false ->
  getitem (setitem df c vs) c' = getitem df c'.
Proof.
  intros Hne. unfold getitem, setitem. simpl.
  now rewrite lookup_replace_other.
Qed.

Lemma setitem_same_value (df : DataFrame) (c : string) (vs : list value) :
  getitem df c = Ok vs -> setitem df c vs = df.
Proof.
  unfold getitem, setitem. destruct df as [idx cols]. simpl.
  destruct (lookup c cols) as [col|] eqn:Hl; [|discriminate].
  intros [= ->]. now rewrite replace_same_value.
Qed.

Lemma setitem_facts (df : DataFrame) (c : string) (col vs : list value) :
  wf df -> getitem df c = Ok col -> List.length vs = List.length col ->
  wf (setitem df c vs)
  /\ index (setitem df c vs) = index df
  /\ column_names (setitem df c vs) = column_names df.
Proof.
  intros Hwf Hget Hlen.
  pose proof (getitem_length df c col Hwf Hget) as Hcol.
  unfold getitem in Hget.
  destruct (lookup c (columns df)) as [col'|] eqn:Hl; [|discriminate].
  injection Hget as ->. split; [|split].
  - unfold wf, setitem. simpl. apply Forall_replace; [|exact Hwf].
    intros k. simpl. congruence.
  - reflexivity.
  - unfold column_names, setitem. simpl. eapply replace_keeps_names; eassumption.
Qed.

Lemma filter_nil {A : Type} (f : A -> bool) (l : list A) :
  List.filter f l = [] -> forall x, In x l -> f x = false.
Proof.
  induction l as [|y l IH]; simpl; [contradiction|].
  destruct (f y) eqn:E; [discriminate|].
  intros Hnil x [<-|Hin]; auto.
Qed.

(** A table that [validate] accepts has every required column. *)
Lemma validated_has_column (df : DataFrame) (c : string) :
  CSVRepository.validate df = [] -> In c REQUIRED_COLS ->
  has_column df c = true.
Proof.
  unfold CSVRepository.validate. intros Hnil Hin.
  pose proof (filter_nil _ _ Hnil c Hin) as Hc. simpl in Hc.
  now apply negb_false_iff in Hc.
Qed.

(* ===================================================================== *)
(** ** [CaseService.normalize] *)
(* ===================================================================== *)

Section NormalizeFacts.
Context {P : Pandas}.

Lemma normalize_steps (df : DataFrame) :
  CaseService.normalize df
  = (df <- coerce_column "latitude" to_numeric df ;;
     df <- coerce_column "longitude" to_numeric df ;;
     df <- coerce_column "est_deaths" to_numeric df ;;
     df <- coerce_date_column "start_date" df ;;
     coerce_date_column "last_verified" df).
Proof.
  unfold CaseService.normalize, coerce_column, coerce_date_column, copy.
  repeat match goal with
         | |- context [getitem ?d ?c] =>
             destruct (getitem d c); cbn [bind]; try reflexivity
         | |- context [CaseService._coerce_date ?col] =>
             destruct (CaseService._coerce_date col); cbn [bind];
             try reflexivity
         end.
Qed.

(** [_coerce_date] raises on an [object] Series and on nothing else. *)
Lemma coerce_date_outcome (s : list value) :
  CaseService._coerce_date s
  = if mixed_offsets s then Raise NOT_DATETIMELIKE else Ok (coerced_dates s).
Proof.
  unfold CaseService._coerce_date, to_datetime_dt, coerced_dates.
  destruct (mixed_offsets s); reflexivity.
Qed.

Lemma coerce_date_column_pure (c : string) (df : DataFrame) :
  mixed_column df c = false ->
  coerce_date_column c df = coerce_column c coerced_dates df.
Proof.
  unfold mixed_column, coerce_date_column, coerce_column.
  destruct (getitem df c) as [col|e]; cbn [bind]; [|reflexivity].
  intros Hmix. now rewrite coerce_date_outcome, Hmix.
Qed.

Lemma coerce_date_column_mixed (c : string) (df : DataFrame) :
  mixed_column df c = true ->
  coerce_date_column c df = Raise NOT_DATETIMELIKE.
Proof.
  unfold mixed_column, coerce_date_column.
  destruct (getitem df c) as [col|e]; cbn [bind]; [|discriminate].
  intros Hmix. now rewrite coerce_date_outcome, Hmix.
Qed.

Lemma coerce_date_column_ok (c : string) (df out : DataFrame) :
  coerce_date_column c df = Ok out ->
  mixed_column df c = false /\ coerce_column c coerced_dates df = Ok out.
Proof.
  intros Hrun. destruct (mixed_column df c) eqn:Hmix.
  - rewrite (coerce_date_column_mixed c df Hmix) in Hrun. discriminate.
  - split; [reflexivity|]. now rewrite <- coerce_date_column_pure.
Qed.

(** A run of [normalize] that returns is a run of the five coercions. *)
Lemma normalize_returned (df out : DataFrame) :
  CaseService.normalize df = Ok out ->
  (df <- coerce_column "latitude" to_numeric df ;;
   df <- coerce_column "longitude" to_numeric df ;;
   df <- coerce_column "est_deaths" to_numeric df ;;
   df <- coerce_column "start_date" coerced_dates df ;;
   coerce_column "last_verified" coerced_dates df) = Ok out.
Proof.
  rewrite normalize_steps.
  destruct (coerce_column "latitude" to_numeric df) as [d1|]; cbn [bind];
    [|discriminate].
  destruct (coerce_column "longitude" to_numeric d1) as [d2|]; cbn [bind];
    [|discriminate].
  destruct (coerce_column "est_deaths" to_numeric d2) as [d3|]; cbn [bind];
    [|discriminate].
  destruct (coerce_date_column "start_date" d3) as [d4|] eqn:E4; cbn [bind];
    [|discriminate].
  apply coerce_date_column_ok in E4. destruct E4 as [_ E4].
  rewrite E4. cbn [bind]. intros E5.
  now apply coerce_date_column_ok in E5.
Qed.

(** Dates and [NaT] carry no UTC offset. *)
Lemma coerced_dates_not_mixed (s : list value) :
  mixed_offsets (coerced_dates s) = false.
Proof.
  unfold mixed_offsets, utc_offsets, coerced_dates, dt_date.
  set (fmt := guess_datetime_format _). clearbody fmt.
  induction (to_datetime s) as [|[d|] l IH]; simpl; auto.
Qed.

Lemma to_numeric_length (s : list value) :
  List.length (to_numeric s) = List.length s.
Proof. apply length_map. Qed.

Lemma coerce_date_length (s : list value) :
  List.length (coerced_dates s) = List.length s.
Proof.
  unfold coerced_dates, dt_date, to_datetime.
  now rewrite !length_map.
Qed.

Lemma to_numeric_idempotent (s : list value) :
  to_numeric (to_numeric s) = to_numeric s.
Proof.
  unfold to_numeric. rewrite map_map. apply map_ext.
  intros [|f|str|d]; reflexivity.
Qed.

Lemma coerce_date_idempotent (s : list value) :
  coerced_dates (coerced_dates s) = coerced_dates s.
Proof.
  unfold coerced_dates, to_datetime, dt_date.
  set (fmt2 := guess_datetime_format _). clearbody fmt2.
  rewrite !map_map. apply map_ext. intros v.
  destruct (to_datetime_scalar (guess_datetime_format s) v); reflexivity.
Qed.

(** A coercion keeps the shape of the table. *)
Lemma coerce_column_shape (c : string) (g : list value -> list value)
    (df : DataFrame) :
  (forall s, List.length (g s) = List.length s) ->
  wf df -> has_column df c = true ->
  exists out,
    coerce_column c g df = Ok out
    /\ wf out /\ index out = index df /\ column_names out = column_names df.
Proof.
  intros Hg Hwf Hcol. apply has_column_getitem in Hcol.
  destruct Hcol as [col Hget]. unfold coerce_column. rewrite Hget. cbn [bind].
  eexists. split; [reflexivity|].
  exact (setitem_facts df c col (g col) Hwf Hget (Hg col)).
Qed.

Lemma coerce_column_settles (c : string) (g : list value -> list value)
    (df out : DataFrame) :
  (forall s, g (g s) = g s) ->
  coerce_column c g df = Ok out -> settled c g out.
Proof.
  intros Hg. unfold coerce_column.
  destruct (getitem df c) as [col|e]; cbn [bind]; [|discriminate].
  intros [= <-]. exists (g col). split; [apply getitem_setitem_same | apply Hg].
Qed.

Lemma coerce_column_keeps_settled (c c' : string)
    (g g' : list value -> list value) (df out : DataFrame) :
  String.eqb c c' = false ->
  settled c g df -> coerce_column c' g' df = Ok out -> settled c g out.
Proof.
  intros Hne [col [Hget Hfix]]. unfold coerce_column.
  destruct (getitem df c') as [col'|e]; cbn [bind]; [|discriminate].
  intros [= <-]. exists col. split; [|exact Hfix].
  now rewrite getitem_setitem_other.
Qed.

Lemma coerce_column_settled (c : string) (g : list value -> list value)
    (df : DataFrame) :
  settled c g df -> coerce_column c g df = Ok df.
Proof.
  intros [col [Hget Hfix]]. unfold coerce_column. rewrite Hget. cbn [bind].
  rewrite Hfix. now rewrite setitem_same_value.
Qed.

Lemma coerce_column_other (c c' : string) (g : list value -> list value)
    (df out : DataFrame) :
  String.eqb c' c = false ->
  coerce_column c g df = Ok out -> getitem out c' = getitem df c'.
Proof.
  intros Hne. unfold coerce_column.
  destruct (getitem df c) as [col|e]; cbn [bind]; [|discriminate].
  intros [= <-]. now apply getitem_setitem_other.
Qed.

Lemma coerce_column_index (c : string) (g : list value -> list value)
    (df out : DataFrame) :
  coerce_column c g df = Ok out -> index out = index df.
Proof.
  unfold coerce_column.
  destruct (getitem df c) as [col|e]; cbn [bind]; [|discriminate].
  now intros [= <-].
Qed.

Lemma coerce_date_column_settled (c : string) (df : DataFrame) :
  settled c coerced_dates df -> coerce_date_column c df = Ok df.
Proof.
  intros Hs. pose proof Hs as [col [Hget Hfix]].
  rewrite coerce_date_column_pure; [now apply coerce_column_settled|].
  unfold mixed_column. rewrite Hget, <- Hfix. apply coerced_dates_not_mixed.
Qed.

(** Coercing one column leaves the offsets of another as they were. *)
Lemma mixed_column_coerce (c c' : string) (g : list value -> list value)
    (df out : DataFrame) :
  String.eqb c' c = false ->
  coerce_column c g df = Ok out -> mixed_column out c' = mixed_column df c'.
Proof.
  intros Hne Hrun. unfold mixed_column.
  now rewrite (coerce_column_other c c' g df out Hne Hrun).
Qed.

End NormalizeFacts.

Ltac settle :=
  first
    [ eapply coerce_column_settles;
      [ first [ apply to_numeric_idempotent | apply coerce_date_idempotent ]
      | eassumption ]
    | eapply coerce_column_keeps_settled; cycle 2;
      [ eassumption | reflexivity | settle ] ].

Ltac run_step Hstep out Hwf Hidx Hnames :=
  match goal with
  | Hwf0 : wf ?d |- context [coerce_column ?c ?g ?d] =>
      let Hlen := fresh in
      assert (Hlen : forall s, List.length (g s) = List.length s)
        by (first [ exact to_numeric_length | exact coerce_date_length ]);
      let Hc := fresh in
      assert (Hc : has_column d c = true)
        by (unfold has_column; repeat match goal with
                                      | Hn : column_names _ = _ |- _ => rewrite Hn
                                      end; auto);
      destruct (coerce_column_shape c g d Hlen Hwf0 Hc)
        as (out & Hstep & Hwf & Hidx & Hnames);
      rewrite Hstep; cbn [bind]; clear Hlen Hc
  end.

Section NormalizeTheorems.
Context {P : Pandas}.

(** The five coercions on a table that has the five columns. *)
Lemma coercions_shape (df : DataFrame) :
  wf df ->
  (forall c, In c COERCED_COLS -> has_column df c = true) ->
  exists d3 out,
    (df <- coerce_column "latitude" to_numeric df ;;
     df <- coerce_column "longitude" to_numeric df ;;
     coerce_column "est_deaths" to_numeric df) = Ok d3
    /\ (df <- coerce_column "start_date" coerced_dates d3 ;;
        coerce_column "last_verified" coerced_dates df) = Ok out
    /\ mixed_column d3 "start_date" = mixed_column df "start_date"
    /\ (forall d4, coerce_column "start_date" coerced_dates d3 = Ok d4 ->
                   mixed_column d4 "last_verified"
                   = mixed_column df "last_verified")
    /\ index out = index df
    /\ column_names out = column_names df
    /\ wf out.
Proof.
  intros Hwf Hhas.
  assert (H1 : str_in "latitude" (column_names df) = true)
    by (apply Hhas; simpl; auto).
  assert (H2 : str_in "longitude" (column_names df) = true)
    by (apply Hhas; simpl; auto).
  assert (H3 : str_in "est_deaths" (column_names df) = true)
    by (apply Hhas; simpl; auto).
  assert (H4 : str_in "start_date" (column_names df) = true)
    by (apply Hhas; simpl; auto).
  assert (H5 : str_in "last_verified" (column_names df) = true)
    by (apply Hhas; simpl; auto 6).
  run_step E1 d1 Hwf1 Hidx1 Hn1.
  run_step E2 d2 Hwf2 Hidx2 Hn2.
  run_step E3 d3 Hwf3 Hidx3 Hn3.
  exists d3.
  run_step E4 d4 Hwf4 Hidx4 Hn4.
  run_step E5 d5 Hwf5 Hidx5 Hn5.
  exists d5. split; [reflexivity|]. split; [reflexivity|].
  split; [|split; [|split; [congruence|split; [congruence|exact Hwf5]]]].
  - rewrite (mixed_column_coerce "est_deaths" "start_date" _ _ _ eq_refl E3),
      (mixed_column_coerce "longitude" "start_date" _ _ _ eq_refl E2).
    exact (mixed_column_coerce "latitude" "start_date" _ _ _ eq_refl E1).
  - intros d4' E4'. injection E4' as <-.
    rewrite (mixed_column_coerce "start_date" "last_verified" _ _ _ eq_refl E4),
      (mixed_column_coerce "est_deaths" "last_verified" _ _ _ eq_refl E3),
      (mixed_column_coerce "longitude" "last_verified" _ _ _ eq_refl E2).
    exact (mixed_column_coerce "latitude" "last_verified" _ _ _ eq_refl E1).
Qed.

(** What [normalize] does on a table that has the five columns: it raises
    on the first date column whose texts carry different UTC offsets, and
    returns otherwise. *)
Lemma normalize_outcome (df : DataFrame) :
  wf df ->
  (forall c, In c COERCED_COLS -> has_column df c = true) ->
  if (mixed_column df "start_date" || mixed_column df "last_verified")%bool
  then CaseService.normalize df = Raise NOT_DATETIMELIKE
  else exists out,
         CaseService.normalize df = Ok out
         /\ index out = index df
         /\ column_names out = column_names df
         /\ wf out.
Proof.
  intros Hwf Hhas.
  destruct (coercions_shape df Hwf Hhas)
    as (d3 & out & E3 & E5 & Hsd & Hlv & Hidx & Hnames & Hwfo).
  rewrite normalize_steps.
  destruct (coerce_column "latitude" to_numeric df) as [d1|];
    cbn [bind] in E3 |- *; [|discriminate].
  destruct (coerce_column "longitude" to_numeric d1) as [d2|];
    cbn [bind] in E3 |- *; [|discriminate].
  rewrite E3. cbn [bind].
  destruct (coerce_column "start_date" coerced_dates d3) as [d4|] eqn:E4;
    cbn [bind] in E5; [|discriminate].
  specialize (Hlv d4 eq_refl).
  destruct (mixed_column df "start_date") eqn:Hmix1; cbn [orb].
  - now rewrite (coerce_date_column_mixed _ _ Hsd).
  - rewrite (coerce_date_column_pure _ _ Hsd), E4. cbn [bind].
    destruct (mixed_column df "last_verified") eqn:Hmix2.
    + exact (coerce_date_column_mixed _ _ Hlv).
    + rewrite (coerce_date_column_pure _ _ Hlv), E5.
      exists out. auto.
Qed.

(** C4, as the code has it.  On a table that has the fourteen required
    columns (the table [validate] finds nothing missing in), each under its
    own label, [CaseService.normalize] raises [AttributeError] when the texts
    of start_date or of last_verified carry different UTC offsets:
    [errors="coerce"] does not reach that case, [pd.to_datetime] returns an
    [object] Series and [.dt] refuses it.  On every other such table it
    raises nothing and returns a table with the same index, hence the same
    number of rows, and the same columns: no row is dropped. *)
Theorem normalize_raises_on_mixed_offsets (df : DataFrame) :
  wf df ->
  unique_labels df ->
  CSVRepository.validate df = [] ->
  if (mixed_column df "start_date" || mixed_column df "last_verified")%bool
  then CaseService.normalize df = Raise NOT_DATETIMELIKE
  else exists out,
         CaseService.normalize df = Ok out
         /\ index out = index df
         /\ List.length (iterrows out) = List.length (iterrows df)
         /\ column_names out = column_names df
         /\ wf out.
Proof.
  intros Hwf _ Hvalid.
  assert (Hhas : forall c, In c COERCED_COLS -> has_column df c = true).
  { intros c Hin. apply (validated_has_column df c Hvalid).
    unfold COERCED_COLS, REQUIRED_COLS in *. simpl in *. intuition. }
  pose proof (normalize_outcome df Hwf Hhas) as Hrun.
  destruct (mixed_column df "start_date" || mixed_column df "last_verified")%bool;
    [exact Hrun|].
  destruct Hrun as (out & Hrun & Hidx & Hnames & Hwfo).
  exists out. split; [exact Hrun|]. split; [exact Hidx|].
  split; [now rewrite !length_iterrows, Hidx|]. split; assumption.
Qed.

(** C8.  [normalize] is idempotent: normalizing the result of [normalize]
    gives that same table again (and a table that [normalize] raises on
    raises the same way), so a normalized table is a fixed point. *)
Theorem normalize_idempotent (df : DataFrame) :
  (out <- CaseService.normalize df ;; CaseService.normalize out)
  = CaseService.normalize df
  /\ (forall out, CaseService.normalize df = Ok out ->
                  CaseService.normalize out = Ok out).
Proof.
  assert (Hfix : forall out, CaseService.normalize df = Ok out ->
                             CaseService.normalize out = Ok out).
  { intros out Hrun. apply normalize_returned in Hrun.
    destruct (coerce_column "latitude" to_numeric df) as [d1|] eqn:E1;
      cbn [bind] in Hrun; [|discriminate].
    destruct (coerce_column "longitude" to_numeric d1) as [d2|] eqn:E2;
      cbn [bind] in Hrun; [|discriminate].
    destruct (coerce_column "est_deaths" to_numeric d2) as [d3|] eqn:E3;
      cbn [bind] in Hrun; [|discriminate].
    destruct (coerce_column "start_date" coerced_dates d3)
      as [d4|] eqn:E4; cbn [bind] in Hrun; [|discriminate].
    assert (S1 : settled "latitude" to_numeric out) by settle.
    assert (S2 : settled "longitude" to_numeric out) by settle.
    assert (S3 : settled "est_deaths" to_numeric out) by settle.
    assert (S4 : settled "start_date" coerced_dates out) by settle.
    assert (S5 : settled "last_verified" coerced_dates out) by settle.
    rewrite normalize_steps.
    rewrite (coerce_column_settled _ _ _ S1); cbn [bind].
    rewrite (coerce_column_settled _ _ _ S2); cbn [bind].
    rewrite (coerce_column_settled _ _ _ S3); cbn [bind].
    rewrite (coerce_date_column_settled _ _ S4); cbn [bind].
    exact (coerce_date_column_settled _ _ S5). }
  split; [|exact Hfix].
  destruct (CaseService.normalize df) as [out|e] eqn:Hrun; cbn [bind];
    [now apply Hfix | reflexivity].
Qed.

(** C5, as the code has it.  [normalize] leaves every field other than
    latitude, longitude, est_deaths, start_date and last_verified exactly as
    it was: the column of the result is the column of the input, cell for
    cell, so text keeps its white space and an absent value stays absent.
    The index is the input's too. *)
Theorem normalize_other_fields_unchanged (df out : DataFrame) (c : string) :
  CaseService.normalize df = Ok out ->
  str_in c COERCED_COLS = false ->
  getitem out c = getitem df c /\ index out = index df.
Proof.
  intros Hrun Hc. unfold str_in, COERCED_COLS in Hc. cbn [existsb] in Hc.
  repeat match type of Hc with
         | (_ || _)%bool = false => apply orb_false_iff in Hc;
                                    let H1 := fresh "Hne" in
                                    destruct Hc as [H1 Hc]
         end.
  apply normalize_returned in Hrun.
  destruct (coerce_column "latitude" to_numeric df) as [d1|] eqn:E1;
    cbn [bind] in Hrun; [|discriminate].
  destruct (coerce_column "longitude" to_numeric d1) as [d2|] eqn:E2;
    cbn [bind] in Hrun; [|discriminate].
  destruct (coerce_column "est_deaths" to_numeric d2) as [d3|] eqn:E3;
    cbn [bind] in Hrun; [|discriminate].
  destruct (coerce_column "start_date" coerced_dates d3)
    as [d4|] eqn:E4; cbn [bind] in Hrun; [|discriminate].
  split.
  - rewrite (coerce_column_other _ c _ _ _ Hne3 Hrun).
    rewrite (coerce_column_other _ c _ _ _ Hne2 E4).
    rewrite (coerce_column_other _ c _ _ _ Hne1 E3).
    rewrite (coerce_column_other _ c _ _ _ Hne0 E2).
    exact (coerce_column_other _ c _ _ _ Hne E1).
  - rewrite (coerce_column_index _ _ _ _ Hrun), (coerce_column_index _ _ _ _ E4),
      (coerce_column_index _ _ _ _ E3), (coerce_column_index _ _ _ _ E2).
    exact (coerce_column_index _ _ _ _ E1).
Qed.

End NormalizeTheorems.

Lemma wf_two_time_zones : wf two_time_zones.
Proof. unfold wf, two_time_zones, cases. simpl. repeat constructor. Qed.

Lemma unique_labels_two_time_zones : unique_labels two_time_zones.
Proof.
  unfold unique_labels, two_time_zones, cases. cbn.
  repeat (constructor; [cbn; intuition discriminate|]). constructor.
Qed.

Lemma normalize_raises_on_mixed_offsets_witness :
  wf two_time_zones
  /\ unique_labels two_time_zones
  /\ CSVRepository.validate two_time_zones = []
  /\ getitem two_time_zones "start_date"
     = Ok [VStr "2024-01-01T00:00:00+01:00"; VStr "2025-04-20T00:00:00+02:00"]
  /\ CaseService.normalize (H := Reference.pandas) two_time_zones
     = Raise (AttributeError "Can only use .dt accessor with datetimelike values").
Proof.
  split; [exact wf_two_time_zones|].
  split; [exact unique_labels_two_time_zones|].
  split; [reflexivity|]. split; [reflexivity|].
  exact (@normalize_raises_on_mixed_offsets Reference.pandas two_time_zones
           wf_two_time_zones unique_labels_two_time_zones eq_refl).
Defined.

Lemma normalize_other_fields_unchanged_witness :
  exists out,
    CaseService.normalize (H := Reference.pandas) cases = Ok out
    /\ getitem out "name" = getitem cases "name"
    /\ getitem out "sources" = getitem cases "sources".
Proof.
  destruct (CaseService.normalize (H := Reference.pandas) cases)
    as [out|e] eqn:Hrun; [|discriminate].
  exists out. split; [reflexivity|]. split.
  - exact (proj1 (@normalize_other_fields_unchanged Reference.pandas
                    cases out "name" Hrun eq_refl)).
  - exact (proj1 (@normalize_other_fields_unchanged Reference.pandas
                    cases out "sources" Hrun eq_refl)).
Defined.

(** C5 fails as stated: after [normalize] the name " Darfur " still has its
    white space, and the empty country cell is still [nan], not the empty
    string. *)
Lemma normalize_does_not_trim :
  exists out,
    CaseService.normalize (H := Reference.pandas) cases = Ok out
    /\ getitem out "name"
       = Ok [VStr "Example Case"; VStr "Escalating Violence";
             VStr "Polar Case"; VStr " Darfur "]
    /\ is_trimmed_text (VStr " Darfur ") = false
    /\ getitem out "country"
       = Ok [VStr "Exampleland"; VStr "Samplestan"; VStr "Northland";
             VFloat nan]
    /\ is_trimmed_text (VFloat nan) = false.
Proof.
  eexists. split; [reflexivity|]. repeat split; reflexivity.
Qed.

(* ===================================================================== *)
(** ** [CaseService.quality_issues] *)
(* ===================================================================== *)

Lemma rstrip_all_space (s : string) : all_space s = true -> rstrip s = "".
Proof.
  induction s as [|a s IH]; simpl; [reflexivity|].
  rewrite andb_true_iff. intros [Ha Hs]. now rewrite (IH Hs), Ha.
Qed.

Lemma strip_all_space (s : string) : all_space s = true -> strip s = "".
Proof. intros Hs. unfold strip. now rewrite rstrip_all_space. Qed.

Lemma str_truthy_false (s : string) : str_truthy s = false <-> s = "".
Proof. destruct s; simpl; split; congruence. Qed.

Section QualityFacts.
Context {P : Pandas}.

Lemma loop_run (rows : list (Z * Series)) :
  forall st,
    fold_left CaseService.loop_body rows st
    = CaseService.mkLoop
        (CaseService.frame st)
        (CaseService.problems st ++ map issue_of (List.filter has_issue rows)).
Proof.
  induction rows as [|[idx row] rows IH]; intros [fr ps]; simpl.
  - now rewrite app_nil_r.
  - rewrite IH. unfold has_issue at 2. cbn [snd].
    destruct (list_truthy (CaseService.row_msgs row)); simpl.
    + now rewrite <- app_assoc.
    + reflexivity.
Qed.

Lemma quality_issues_rows (df : DataFrame) :
  CaseService.quality_issues df
  = map issue_of (List.filter has_issue (iterrows df)).
Proof.
  unfold CaseService.quality_issues, CaseService.quality_issues_loop.
  now rewrite loop_run.
Qed.

Lemma coords_in_range_numbers (x y : float) :
  CaseService.coords_in_range (Some (VFloat x)) (Some (VFloat y))
  = Ok (in_geographic_range x y).
Proof.
  unfold CaseService.coords_in_range, in_geographic_range. cbn.
  destruct (PrimFloat.leb (-90) x && PrimFloat.leb x 90)%bool; reflexivity.
Qed.

End QualityFacts.

Ltac split_msgs :=
  unfold CaseService.row_msgs, sources_text;
  repeat match goal with
         | |- context [if ?b then _ else _] =>
             lazymatch b with
             | context [if _ then _ else _] => fail
             | _ => let E := fresh "E" in destruct b eqn:E
             end
         | |- context [match CaseService.coords_in_range ?a ?b with _ => _ end] =>
             let E := fresh "E" in
             destruct (CaseService.coords_in_range a b) as [[|]|?] eqn:E
         end;
  cbn [app In].

Ltac tidy_flags :=
  repeat match goal with
         | Hx : negb _ = true |- _ => apply negb_true_iff in Hx
         | Hx : negb _ = false |- _ => apply negb_false_iff in Hx
         | Hx : (_ || _)%bool = true |- _ => apply orb_true_iff in Hx
         | Hx : (_ || _)%bool = false |- _ =>
             apply orb_false_iff in Hx; destruct Hx
         end.

Ltac break_hyps :=
  repeat match goal with
         | Hx : _ \/ _ |- _ => destruct Hx
         | Hx : _ /\ _ |- _ => destruct Hx
         | Hx : exists _, _ |- _ => destruct Hx
         | Hx : False |- _ => contradiction
         end.

Section QualityTheorems.
Context {P : Pandas}.

(** The reasons of one row, flag by flag. *)
Lemma row_msgs_flags :
  forall row,
     (In "lat/lon missing or invalid" (CaseService.row_msgs row) <->
      isna (get row "latitude") = true \/ isna (get row "longitude") = true)
     /\ (In "lat/lon out of range" (CaseService.row_msgs row) <->
         isna (get row "latitude") = false
         /\ isna (get row "longitude") = false
         /\ CaseService.coords_in_range (get row "latitude")
                                        (get row "longitude") = Ok false)
     /\ (In "lat/lon invalid type" (CaseService.row_msgs row) <->
         isna (get row "latitude") = false
         /\ isna (get row "longitude") = false
         /\ exists e, CaseService.coords_in_range (get row "latitude")
                                                  (get row "longitude")
                      = Raise e)
     /\ (In "missing sources" (CaseService.row_msgs row) <->
         strip (sources_text row) = "").
Proof.
  intros row. rewrite <- str_truthy_false.
  split_msgs; tidy_flags;
    repeat split; intros; break_hyps;
    try discriminate; try congruence; try tauto; eauto.
Qed.


(** C10.  A row whose sources cell is absent ([nan], what an empty CSV cell
    is read as) is not flagged "missing sources": [str] turns the cell into
    the text "nan", which is not empty after trimming. *)
Theorem nan_sources_not_flagged (row : Series) (f : float) :
  get row "sources" = Some (VFloat f) ->
  is_nan f = true ->
  sources_text row = "nan"
  /\ strip (sources_text row) = "nan"
  /\ ~ In "missing sources" (CaseService.row_msgs row).
Proof.
  intros Hsrc Hnan.
  assert (Htext : sources_text row = "nan").
  { unfold sources_text, get_default. unfold get in Hsrc.
    rewrite Hsrc. cbn [str_value]. now rewrite Hnan. }
  split; [exact Htext|]. split; [now rewrite Htext|].
  intros Hin. apply (row_msgs_flags row) in Hin.
  rewrite Htext in Hin. discriminate.
Qed.

End QualityTheorems.


(** The issues of the sample table after [normalize]: the record at latitude
    91 with blank sources has two reasons in one message; the record with no
    latitude and an empty sources cell has one. *)
Example quality_issues_of_cases :
  (out <- CaseService.normalize (H := Reference.pandas) cases ;;
   Ok (CaseService.quality_issues (H := Reference.pandas) out))
  = Ok [ (2%Z, "lat/lon out of range; missing sources");
         (3%Z, "lat/lon missing or invalid") ].
Proof. reflexivity. Qed.

Lemma nan_sources_not_flagged_witness :
  let row := snd (nth 3 (iterrows cases) (0%Z, [])) in
  get row "sources" = Some (VFloat nan)
  /\ ~ In "missing sources" (CaseService.row_msgs (H := Reference.pandas) row).
Proof.
  cbv zeta. split; [reflexivity|].
  exact (proj2 (proj2 (@nan_sources_not_flagged Reference.pandas
                         (snd (nth 3 (iterrows cases) (0%Z, []))) nan
                         eq_refl eq_refl))).
Defined.

(* ===================================================================== *)
(** ** [MapBuilder.minimal_map_df] and [CaseService.table_display] *)
(* ===================================================================== *)

Lemma mask_select_map {A B : Type} (g : A -> B) (m : list bool) :
  forall l : list A, mask_select m (map g l) = map g (mask_select m l).
Proof.
  induction m as [|b m IH]; intros [|x l]; simpl; try reflexivity.
  destruct b; simpl; now rewrite IH.
Qed.

Lemma map_const_length {A B C : Type} (c : C) (l1 : list A) (l2 : list B) :
  List.length l1 = List.length l2 ->
  map (fun _ => c) l1 = map (fun _ => c) l2.
Proof.
  revert l2. induction l1 as [|x l1 IH]; intros [|y l2] Hlen; simpl in *;
    try reflexivity; try discriminate.
  f_equal. apply IH. now injection Hlen.
Qed.

Lemma NoDup_map_inj {A B : Type} (g : A -> B) (l : list A) (x y : A) :
  NoDup (map g l) -> In x l -> In y l -> g x = g y -> x = y.
Proof.
  induction l as [|z l IH]; simpl; [contradiction|].
  intros Hnd Hx Hy Heq. inversion Hnd as [|? ? Hnotin Hnd']; subst.
  destruct Hx as [->|Hx], Hy as [->|Hy]; auto.
  - exfalso. apply Hnotin. rewrite Heq. now apply in_map.
  - exfalso. apply Hnotin. rewrite <- Heq. now apply in_map.
Qed.

Lemma getitem_list_ok (df : DataFrame) (names : list string) :
  (forall c, In c names -> has_column df c = true) ->
  exists cols,
    getitem_list df names = Ok (mkDataFrame (index df) cols)
    /\ (forall c, In c names -> lookup c cols = lookup c (columns df))
    /\ (wf df ->
        Forall (fun col => List.length (snd col) = List.length (index df)) cols).
Proof.
  unfold getitem_list. induction names as [|c names IH]; intros Hall.
  - exists []. simpl. repeat split; [contradiction | constructor].
  - destruct IH as (cols & Hrun & Hlook & Hwf);
      [intros c' Hin; apply Hall; now right|].
    assert (Hc : has_column df c = true) by (apply Hall; now left).
    apply has_column_getitem in Hc. destruct Hc as [col Hget].
    exists ((c, col) :: cols). cbn [mapM]. rewrite Hget. cbn [bind].
    destruct (mapM (fun c0 => col0 <- getitem df c0 ;; Ok (c0, col0)) names)
      as [cols'|e]; cbn [bind] in *; [|discriminate].
    injection Hrun as <-. split; [reflexivity|]. split.
    + intros c' Hin. cbn [lookup].
      destruct (String.eqb c' c) eqn:E.
      * apply String.eqb_eq in E. subst c'. unfold getitem in Hget.
        destruct (lookup c (columns df)); congruence.
      * destruct Hin as [->|Hin]; [now rewrite String.eqb_refl in E|].
        now apply Hlook.
    + intros Hwfdf. constructor; [|now apply Hwf].
      simpl. exact (getitem_length df c col Hwfdf Hget).
Qed.

Section MapFacts.
Context {P : Pandas}.

Lemma isna_not_numeric (x : option value) :
  isna x = true -> numeric_present x = false.
Proof.
  destruct x as [[|f|s|d]|]; simpl; try discriminate; try reflexivity.
  unfold notna_cell. simpl. now intros ->.
Qed.

(** The rows [minimal_map_df] keeps are the rows whose coordinates are both
    numbers after coercion, in order. *)
Lemma minimal_map_df_index (df : DataFrame) :
  wf df ->
  has_column df "longitude" = true ->
  has_column df "latitude" = true ->
  exists m,
    MapBuilder.minimal_map_df df = Ok m
    /\ index m
       = map fst (List.filter (fun r => on_map (snd r)) (iterrows df)).
Proof.
  intros Hwf Hlon Hlat. unfold MapBuilder.minimal_map_df, copy.
  set (keep := List.filter (has_column df)
                 ["longitude"; "latitude"; "color"; "tooltip"; "name"]).
  assert (Hkeep : forall c, In c keep -> has_column df c = true)
    by (intros c Hin; apply filter_In in Hin; tauto).
  assert (Hin_lon : In "longitude" keep)
    by (apply filter_In; split; [simpl; tauto | exact Hlon]).
  assert (Hin_lat : In "latitude" keep)
    by (apply filter_In; split; [simpl; tauto | exact Hlat]).
  destruct (getitem_list_ok df keep Hkeep) as (cols & -> & Hlook & _).
  cbn [bind].
  apply has_column_getitem in Hlon, Hlat.
  destruct Hlon as [lon Hlon], Hlat as [lat Hlat].
  assert (Hlon0 : getitem (mkDataFrame (index df) cols) "longitude" = Ok lon)
    by (unfold getitem in *; simpl; now rewrite (Hlook _ Hin_lon)).
  assert (Hlat0 : getitem (mkDataFrame (index df) cols) "latitude" = Ok lat)
    by (unfold getitem in *; simpl; now rewrite (Hlook _ Hin_lat)).
  rewrite Hlon0. cbn [bind].
  rewrite getitem_setitem_other by reflexivity. rewrite Hlat0. cbn [bind].
  unfold dropna. cbn [mapM].
  rewrite getitem_setitem_other by reflexivity.
  rewrite !getitem_setitem_same. cbn [bind fold_left].
  eexists. split; [reflexivity|]. cbn [index getitem_mask setitem].
  unfold to_numeric. rewrite !map_map.
  rewrite (column_mask_rows df "longitude" lon _ Hwf Hlon).
  rewrite (column_mask_rows df "latitude" lat _ Hwf Hlat).
  rewrite (map_const_length true (index df) (iterrows df))
    by (symmetry; apply length_iterrows).
  rewrite !series_and_map.
  rewrite <- (index_iterrows df) at 1.
  rewrite mask_select_map, mask_select_map_self. reflexivity.
Qed.

Lemma table_display_index (df : DataFrame) :
  exists tbl, CaseService.table_display df = Ok tbl /\ index tbl = index df.
Proof.
  unfold CaseService.table_display.
  match goal with
  | |- context [getitem_list df ?names] =>
      destruct (getitem_list_ok df names) as (cols & Hrun & _)
  end.
  - intros c Hin. apply filter_In in Hin. tauto.
  - eexists. split; [exact Hrun | reflexivity].
Qed.

End MapFacts.

Section MapTheorems.
Context {P : Pandas}.

(** C3, as the code has it.  On a table with unique row labels and both
    coordinate columns, [table_display] keeps every row and
    [minimal_map_df] keeps exactly the rows whose longitude and latitude are
    both numbers after coercion.  So a record with a missing (or
    non-numeric) coordinate is in the table and not in the map frame; a
    record whose coordinates are numbers is in both, also when they are out
    of the geographic range: such a record is flagged "lat/lon out of range"
    and stays on the map. *)
Theorem map_drops_only_missing_coordinates (df : DataFrame) :
  wf df ->
  NoDup (index df) ->
  has_column df "longitude" = true ->
  has_column df "latitude" = true ->
  exists m tbl,
    MapBuilder.minimal_map_df df = Ok m
    /\ CaseService.table_display df = Ok tbl
    /\ index tbl = index df
    /\ index m = map fst (List.filter (fun r => on_map (snd r)) (iterrows df))
    /\ (forall r, In r (iterrows df) ->
          (In (fst r) (index m) <-> on_map (snd r) = true))
    /\ (forall r, In r (iterrows df) ->
          isna (get (snd r) "latitude") = true
          \/ isna (get (snd r) "longitude") = true ->
          In (fst r) (index tbl) /\ ~ In (fst r) (index m))
    /\ (forall r x y, In r (iterrows df) ->
          get (snd r) "latitude" = Some (VFloat x) ->
          get (snd r) "longitude" = Some (VFloat y) ->
          is_nan x = false -> is_nan y = false ->
          In (fst r) (index tbl)
          /\ In (fst r) (index m)
          /\ (in_geographic_range x y = false ->
              In "lat/lon out of range" (CaseService.row_msgs (snd r)))).
Proof.
  intros Hwf Hnd Hlon Hlat.
  destruct (minimal_map_df_index df Hwf Hlon Hlat) as (m & Hm & Hidx).
  destruct (table_display_index df) as (tbl & Htbl & Hidx_tbl).
  exists m, tbl. split; [exact Hm|]. split; [exact Htbl|].
  split; [exact Hidx_tbl|]. split; [exact Hidx|].
  assert (Hmem : forall r, In r (iterrows df) ->
            (In (fst r) (index m) <-> on_map (snd r) = true)).
  { intros r Hin. rewrite Hidx, in_map_iff. split.
    - intros (r' & Hfst & Hin'). apply filter_In in Hin'.
      destruct Hin' as [Hin' Hon].
      rewrite <- (index_iterrows df) in Hnd.
      now rewrite <- (NoDup_map_inj fst _ r' r Hnd Hin' Hin Hfst).
    - intros Hon. exists r. split; [reflexivity|].
      apply filter_In. now split. }
  assert (Htable : forall r, In r (iterrows df) -> In (fst r) (index tbl)).
  { intros r Hin. rewrite Hidx_tbl, <- (index_iterrows df). now apply in_map. }
  split; [exact Hmem|]. split.
  - intros r Hin Hmissing. split; [now apply Htable|].
    rewrite (Hmem r Hin). unfold on_map.
    destruct Hmissing as [Hna|Hna]; apply isna_not_numeric in Hna;
      rewrite Hna; [rewrite andb_false_r|]; discriminate.
  - intros r x y Hin Hx Hy Hnx Hny. split; [now apply Htable|]. split.
    + rewrite (Hmem r Hin). unfold on_map, numeric_present, notna_cell.
      rewrite Hx, Hy. simpl. now rewrite Hnx, Hny.
    + intros Hout. apply (row_msgs_flags (snd r)).
      rewrite Hx, Hy, coords_in_range_numbers, Hout. simpl.
      now rewrite Hnx, Hny.
Qed.

End MapTheorems.

Lemma NoDup_index_cases : NoDup (index cases).
Proof.
  unfold cases. simpl.
  repeat constructor; simpl; intuition discriminate.
Qed.

Lemma map_drops_only_missing_coordinates_witness :
  wf cases
  /\ NoDup (index cases)
  /\ exists m tbl,
       MapBuilder.minimal_map_df (H := Reference.pandas) cases = Ok m
       /\ CaseService.table_display cases = Ok tbl
       /\ index tbl = [0; 1; 2; 3]%Z
       /\ index m = [0; 1; 2]%Z.
Proof.
  split; [exact wf_cases|]. split; [exact NoDup_index_cases|].
  destruct (@map_drops_only_missing_coordinates Reference.pandas cases
              wf_cases NoDup_index_cases eq_refl eq_refl)
    as (m & tbl & Hm & Htbl & Hidx_tbl & Hidx & _).
  exists m, tbl. split; [exact Hm|]. split; [exact Htbl|].
  split; [exact Hidx_tbl|]. rewrite Hidx. reflexivity.
Defined.

(** C3 fails as stated: the record at latitude 91, longitude 10 is out of
    the geographic range and flagged so, and [minimal_map_df] keeps it, both
    when its cells are numbers and when they are the texts "91" and "10"
    that [normalize] turns into numbers. *)
Lemma out_of_range_record_stays_on_map :
  in_geographic_range 91 10 = false
  /\ CaseService.quality_issues (H := Reference.pandas) polar
     = [(0%Z, "lat/lon out of range")]
  /\ MapBuilder.minimal_map_df (H := Reference.pandas) polar
     = Ok (mkDataFrame [0]%Z
             [ ("longitude", [VFloat 10]); ("latitude", [VFloat 91]);
               ("name", [VStr "Polar Case"]) ])
  /\ (out <- CaseService.normalize (H := Reference.pandas) polar_text ;;
      tbl <- CaseService.table_display out ;;
      m <- MapBuilder.minimal_map_df (H := Reference.pandas) out ;;
      Ok (CaseService.quality_issues (H := Reference.pandas) out,
          index tbl, index m))
     = Ok ([(0%Z, "lat/lon out of range")], [0]%Z, [0]%Z).
Proof. repeat split; reflexivity. Qed.

(* ===================================================================== *)
(** ** Loading: [CSVRepository.load] and the top of [streamlit_app.py] *)
(* ===================================================================== *)

Lemma path_none (self : CSVRepository.t) (fs : FileSystem) :
  CSVRepository._path self fs = None <->
  exists_ fs (CSVRepository.preferred self) = false
  /\ exists_ fs (CSVRepository.fallback self) = false.
Proof.
  unfold CSVRepository._path.
  destruct (exists_ fs (CSVRepository.preferred self)),
           (exists_ fs (CSVRepository.fallback self));
    split; try discriminate; try tauto; intros [? ?]; discriminate.
Qed.

(** C7, as the code has it.  When the file [_path] selects exists and
    [pd.read_csv] raises on it, [load] raises that same exception: it reports
    nothing and returns nothing, and the script does not catch it, so the run
    ends with the exception and not with the "No CSV found" guidance.  That
    guidance is reached exactly when neither candidate path exists. *)
Theorem unreadable_csv_raises (self : CSVRepository.t) (fs : FileSystem)
    (path : Path) (e : exn) :
  CSVRepository._path self fs = Some path ->
  fs path = Unreadable e ->
  CSVRepository.load self fs = Raise e
  /\ load_and_validate self fs = Raise e
  /\ load_and_validate self fs <> Ok NoCsvFound
  /\ (forall self' fs',
        load_and_validate self' fs' = Ok NoCsvFound <->
        exists_ fs' (CSVRepository.preferred self') = false
        /\ exists_ fs' (CSVRepository.fallback self') = false).
Proof.
  intros Hpath Hfile.
  assert (Hload : CSVRepository.load self fs = Raise e).
  { unfold CSVRepository.load. rewrite Hpath. unfold read_csv.
    now rewrite Hfile. }
  split; [exact Hload|].
  assert (Hrun : load_and_validate self fs = Raise e)
    by (unfold load_and_validate; now rewrite Hload).
  split; [exact Hrun|]. split; [rewrite Hrun; discriminate|].
  intros self' fs'. rewrite <- path_none.
  unfold load_and_validate, CSVRepository.load.
  destruct (CSVRepository._path self' fs') as [p|].
  - split; [|discriminate]. unfold read_csv.
    destruct (fs' p) as [|e'|df']; cbn [bind]; try discriminate.
    destruct (list_truthy (CSVRepository.validate (CSVRepository.rename_columns df')));
      discriminate.
  - split; reflexivity.
Qed.

Lemma unreadable_csv_raises_witness :
  CSVRepository._path db broken_preferred = Some "data/genocides.csv"
  /\ CSVRepository.load db broken_preferred
     = Raise (ParserError "Error tokenizing data").
Proof.
  split; [reflexivity|].
  exact (proj1 (unreadable_csv_raises db broken_preferred "data/genocides.csv"
                  (ParserError "Error tokenizing data") eq_refl eq_refl)).
Defined.

(** C7 fails as stated: with the preferred file present and not delimited
    text, the exception of [pd.read_csv] leaves [load] and the script; the
    outcome is not the one of "no CSV found". *)
Lemma unparseable_csv_is_not_no_csv :
  exists_ broken_preferred (CSVRepository.preferred db) = true
  /\ CSVRepository.load db broken_preferred
     = Raise (ParserError "Error tokenizing data")
  /\ load_and_validate db broken_preferred
     = Raise (ParserError "Error tokenizing data")
  /\ load_and_validate db broken_preferred <> Ok NoCsvFound
  /\ load_and_validate db (fun _ => NoFile) = Ok NoCsvFound.
Proof. repeat split; try reflexivity. discriminate. Qed.

(* ===================================================================== *)
(** ** The year defaults of the sidebar *)
(* ===================================================================== *)

Lemma series_min_spec (l : list (option Z)) :
  forall acc,
    match fold_left (fun acc o =>
                       match acc, o with
                       | Some a, Some y => Some (Z.min a y)
                       | Some a, None => Some a
                       | None, _ => o
                       end) l acc with
    | Some m =>
        (acc = Some m \/ In (Some m) l)
        /\ (forall a, acc = Some a -> (m <= a)%Z)
        /\ (forall y, In (Some y) l -> (m <= y)%Z)
    | None => acc = None /\ forall y, ~ In (Some y) l
    end.
Proof.
  induction l as [|o l IH]; intros acc; cbn [fold_left].
  - destruct acc as [a|]; simpl.
    + repeat split; auto; [intros a' [= <-]; lia | contradiction].
    + split; auto.
  - specialize (IH (match acc, o with
                    | Some a, Some y => Some (Z.min a y)
                    | Some a, None => Some a
                    | None, _ => o
                    end)).
    destruct (fold_left _ l _) as [m|].
    + destruct IH as (Hatt & Hacc & Hall).
      destruct acc as [a|], o as [y|]; simpl.
      * specialize (Hacc _ eq_refl). repeat split.
        -- destruct Hatt as [[= Hm]|Hin]; [|now (right; right)].
           destruct (Z.min_spec a y) as [[_ Hmin]|[_ Hmin]];
             rewrite Hmin in Hm; subst m; [now left | right; now left].
        -- intros a' [= <-]. lia.
        -- intros y' [[= <-]|Hin]; [lia | now apply Hall].
      * repeat split.
        -- destruct Hatt as [Hm|Hin]; [now left | now (right; right)].
        -- exact Hacc.
        -- intros y' [Hy|Hin]; [discriminate | now apply Hall].
      * specialize (Hacc _ eq_refl). repeat split.
        -- destruct Hatt as [[= ->]|Hin]; right; [now left | now right].
        -- discriminate.
        -- intros y' [[= <-]|Hin]; [lia | now apply Hall].
      * repeat split.
        -- destruct Hatt as [Hm|Hin]; [discriminate | now (right; right)].
        -- discriminate.
        -- intros y' [Hy|Hin]; [discriminate | now apply Hall].
    + destruct IH as (Hacc & Hall).
      destruct acc as [a|], o as [y|]; try discriminate.
      split; [reflexivity|]. intros y [Hy|Hin]; [discriminate|].
      exact (Hall y Hin).
Qed.

Lemma series_max_spec (l : list (option Z)) :
  forall acc,
    match fold_left (fun acc o =>
                       match acc, o with
                       | Some a, Some y => Some (Z.max a y)
                       | Some a, None => Some a
                       | None, _ => o
                       end) l acc with
    | Some m =>
        (acc = Some m \/ In (Some m) l)
        /\ (forall a, acc = Some a -> (a <= m)%Z)
        /\ (forall y, In (Some y) l -> (y <= m)%Z)
    | None => acc = None /\ forall y, ~ In (Some y) l
    end.
Proof.
  induction l as [|o l IH]; intros acc; cbn [fold_left].
  - destruct acc as [a|]; simpl.
    + repeat split; auto; [intros a' [= <-]; lia | contradiction].
    + split; auto.
  - specialize (IH (match acc, o with
                    | Some a, Some y => Some (Z.max a y)
                    | Some a, None => Some a
                    | None, _ => o
                    end)).
    destruct (fold_left _ l _) as [m|].
    + destruct IH as (Hatt & Hacc & Hall).
      destruct acc as [a|], o as [y|]; simpl.
      * specialize (Hacc _ eq_refl). repeat split.
        -- destruct Hatt as [[= Hm]|Hin]; [|now (right; right)].
           destruct (Z.max_spec a y) as [[_ Hmax]|[_ Hmax]];
             rewrite Hmax in Hm; subst m; [right; now left | now left].
        -- intros a' [= <-]. lia.
        -- intros y' [[= <-]|Hin]; [lia | now apply Hall].
      * repeat split.
        -- destruct Hatt as [Hm|Hin]; [now left | now (right; right)].
        -- exact Hacc.
        -- intros y' [Hy|Hin]; [discriminate | now apply Hall].
      * specialize (Hacc _ eq_refl). repeat split.
        -- destruct Hatt as [[= ->]|Hin]; right; [now left | now right].
        -- discriminate.
        -- intros y' [[= <-]|Hin]; [lia | now apply Hall].
      * repeat split.
        -- destruct Hatt as [Hm|Hin]; [discriminate | now (right; right)].
        -- discriminate.
        -- intros y' [Hy|Hin]; [discriminate | now apply Hall].
    + destruct IH as (Hacc & Hall).
      destruct acc as [a|], o as [y|]; try discriminate.
      split; [reflexivity|]. intros y [Hy|Hin]; [discriminate|].
      exact (Hall y Hin).
Qed.

Section YearDefaults.
Context {P : Pandas}.

(** The defaults on a table that has records: the slider is given the
    smallest start year, not below 1900, and the largest start year, over
    the records that have a start date; when no record has one, [int()]
    raises on [nan]. *)
Lemma year_defaults_of_data (df : DataFrame) (col : list value) :
  empty df = false ->
  getitem df "start_date" = Ok col ->
  let years := dt_year (to_datetime col) in
  match series_min years, series_max years with
  | Some lo, Some hi =>
      default_year_range df = View.slider (Z.max 1900 lo) hi
      /\ In (Some lo) years /\ In (Some hi) years
      /\ (forall y, In (Some y) years -> (lo <= y <= hi)%Z)
  | _, _ =>
      (forall y, ~ In (Some y) years)
      /\ exists e, default_year_range df = Raise e
  end.
Proof.
  intros Hne Hget years.
  unfold default_year_range, yr_min, yr_max. rewrite Hne, Hget. cbn [negb bind].
  fold years. unfold series_min, series_max.
  pose proof (series_min_spec years None) as Hmin.
  pose proof (series_max_spec years None) as Hmax.
  destruct (fold_left _ years None) as [lo|];
    destruct (fold_left _ years None) as [hi|].
  - destruct Hmin as ([Hlo|Hlo] & _ & Hlow); [discriminate|].
    destruct Hmax as ([Hhi|Hhi] & _ & Hupp); [discriminate|].
    cbn [int_ bind]. unfold View.slider_bounds.
    pose proof (Hlow _ Hhi). replace (Z.max hi lo) with hi by lia.
    repeat split; auto.
  - destruct Hmax as [_ Hnone]. destruct Hmin as ([Hlo|Hlo] & _); [discriminate|].
    now apply Hnone in Hlo.
  - destruct Hmin as [_ Hnone]. split; [exact Hnone|]. cbn [int_ bind]. eauto.
  - destruct Hmin as [_ Hnone]. split; [exact Hnone|]. cbn [int_ bind]. eauto.
Qed.

(** C9, at the empty table.  When the table has no record, the application
    takes 1900 and the constant 2025 as the year defaults, and the slider
    starts at [1900, 2025], whatever the current year is; the prototype's
    line takes the current year. *)
Theorem empty_table_year_defaults (df : DataFrame) :
  empty df = true ->
  yr_min df = Ok 1900%Z
  /\ yr_max df = Ok 2025%Z
  /\ default_year_range df = Ok (1900, 2025)%Z
  /\ (forall now_year, prototype_yr_max now_year df = Ok now_year)
  /\ (forall now_year, now_year <> 2025%Z ->
                       default_year_range df <> Ok (1900, now_year)%Z).
Proof.
  intros Hempty.
  assert (Hmin : yr_min df = Ok 1900%Z) by (unfold yr_min; now rewrite Hempty).
  assert (Hmax : yr_max df = Ok 2025%Z) by (unfold yr_max; now rewrite Hempty).
  assert (Hrange : default_year_range df = Ok (1900, 2025)%Z)
    by (unfold default_year_range; now rewrite Hmin, Hmax).
  repeat split; auto.
  - intros now_year. unfold prototype_yr_max. now rewrite Hempty.
  - intros now_year Hnow. rewrite Hrange. intros [= Heq]. congruence.
Qed.

End YearDefaults.

Lemma empty_table_year_defaults_witness :
  empty header_only = true
  /\ default_year_range (H := Reference.pandas) header_only
     = Ok (1900, 2025)%Z
  /\ default_year_range (H := Reference.pandas) header_only
     <> Ok (1900, 2026)%Z.
Proof.
  split; [reflexivity|].
  destruct (@empty_table_year_defaults Reference.pandas header_only eq_refl)
    as (_ & _ & Hrange & _ & Hnot).
  split; [exact Hrange|]. apply Hnot. discriminate.
Defined.

(** The year defaults of the sample table: the record with the impossible
    date is ignored. *)
Example year_defaults_of_cases :
  default_year_range (H := Reference.pandas) cases = Ok (2023, 2025)%Z.
Proof. reflexivity. Qed.

(* ===================================================================== *)
(** ** More of [CaseService.normalize]: errors and cell types *)
(* ===================================================================== *)

Lemma str_in_replace (c c' : string) (vs : list value)
    (cols : list (string * list value)) :
  str_in c' (map fst (replace_column c vs cols))
  = (str_in c' (map fst cols) || String.eqb c' c)%bool.
Proof.
  unfold str_in. induction cols as [|[k old] cols IH]; simpl.
  - apply orb_comm.
  - destruct (String.eqb c k) eqn:E; simpl.
    + apply String.eqb_eq in E. subst k.
      destruct (String.eqb c' c); simpl; [reflexivity | now rewrite orb_false_r].
    + rewrite IH. now rewrite orb_assoc.
Qed.

Lemma has_column_setitem (df : DataFrame) (c c' : string) (vs : list value) :
  has_column (setitem df c vs) c' = (has_column df c' || String.eqb c' c)%bool.
Proof. unfold has_column, column_names, setitem. simpl. apply str_in_replace. Qed.

Lemma getitem_missing (df : DataFrame) (c : string) :
  has_column df c = false -> getitem df c = Raise (KeyError c).
Proof.
  intros Hc. destruct (getitem df c) as [col|e] eqn:Hget.
  - assert (has_column df c = true) by (apply has_column_getitem; eauto).
    congruence.
  - unfold getitem in *. destruct (lookup c (columns df)); congruence.
Qed.

Section NormalizeMore.
Context {P : Pandas}.

Lemma coerce_column_missing (c : string) (g : list value -> list value)
    (df : DataFrame) :
  has_column df c = false -> coerce_column c g df = Raise (KeyError c).
Proof.
  intros Hc. unfold coerce_column. now rewrite (getitem_missing df c Hc).
Qed.

Lemma coerce_column_present (c : string) (g : list value -> list value)
    (df : DataFrame) :
  has_column df c = true ->
  exists out,
    coerce_column c g df = Ok out
    /\ index out = index df
    /\ forall c', has_column out c' = has_column df c'.
Proof.
  intros Hc. pose proof Hc as Hc'. apply has_column_getitem in Hc'.
  destruct Hc' as [col Hget]. unfold coerce_column. rewrite Hget. cbn [bind].
  eexists. split; [reflexivity|]. split; [reflexivity|].
  intros c'. rewrite has_column_setitem.
  destruct (String.eqb c' c) eqn:E; [|apply orb_false_r].
  apply String.eqb_eq in E. subst c'. now rewrite Hc.
Qed.

Lemma coerce_column_produces (c : string) (g : list value -> list value)
    (df out : DataFrame) :
  coerce_column c g df = Ok out -> produced c g out.
Proof.
  unfold coerce_column.
  destruct (getitem df c) as [col|e]; cbn [bind]; [|discriminate].
  intros [= <-]. exists col. apply getitem_setitem_same.
Qed.

Lemma coerce_column_keeps_produced (c c' : string)
    (g g' : list value -> list value) (df out : DataFrame) :
  String.eqb c c' = false ->
  produced c g df -> coerce_column c' g' df = Ok out -> produced c g out.
Proof.
  intros Hne [col Hget]. unfold coerce_column.
  destruct (getitem df c') as [col'|e]; cbn [bind]; [|discriminate].
  intros [= <-]. exists col. now rewrite getitem_setitem_other.
Qed.

Ltac produce :=
  first
    [ eapply coerce_column_produces; eassumption
    | eapply coerce_column_keeps_produced; cycle 2;
      [ eassumption | reflexivity | produce ] ].

(** What the five columns hold after [normalize]. *)
Lemma normalize_produces (df out : DataFrame) :
  CaseService.normalize df = Ok out ->
  produced "latitude" to_numeric out
  /\ produced "longitude" to_numeric out
  /\ produced "est_deaths" to_numeric out
  /\ produced "start_date" coerced_dates out
  /\ produced "last_verified" coerced_dates out.
Proof.
  intros Hrun. apply normalize_returned in Hrun.
  destruct (coerce_column "latitude" to_numeric df) as [d1|] eqn:E1;
    cbn [bind] in Hrun; [|discriminate].
  destruct (coerce_column "longitude" to_numeric d1) as [d2|] eqn:E2;
    cbn [bind] in Hrun; [|discriminate].
  destruct (coerce_column "est_deaths" to_numeric d2) as [d3|] eqn:E3;
    cbn [bind] in Hrun; [|discriminate].
  destruct (coerce_column "start_date" coerced_dates d3)
    as [d4|] eqn:E4; cbn [bind] in Hrun; [|discriminate].
  repeat split; produce.
Qed.

(** [normalize] keeps the shape of a table it returns. *)
Lemma normalize_shape (df out : DataFrame) :
  CaseService.normalize df = Ok out ->
  index out = index df
  /\ (forall c, has_column out c = has_column df c)
  /\ (wf df -> wf out).
Proof.
  intros Hrun. apply normalize_returned in Hrun.
  assert (Hstep : forall c g d d',
            (forall s, List.length (g s) = List.length s) ->
            coerce_column c g d = Ok d' ->
            index d' = index d
            /\ (forall c', has_column d' c' = has_column d c')
            /\ (wf d -> wf d')).
  { intros c g d d' Hg Hd. unfold coerce_column in Hd.
    destruct (getitem d c) as [col|e] eqn:Hget; cbn [bind] in Hd; [|discriminate].
    injection Hd as <-. split; [reflexivity|]. split.
    - intros c'. rewrite has_column_setitem.
      destruct (String.eqb c' c) eqn:E; [|apply orb_false_r].
      apply String.eqb_eq in E. subst c'. rewrite orb_true_r. symmetry.
      apply has_column_getitem. eauto.
    - intros Hwf. exact (proj1 (setitem_facts d c col (g col) Hwf Hget (Hg col))). }
  destruct (coerce_column "latitude" to_numeric df) as [d1|] eqn:E1;
    cbn [bind] in Hrun; [|discriminate].
  destruct (coerce_column "longitude" to_numeric d1) as [d2|] eqn:E2;
    cbn [bind] in Hrun; [|discriminate].
  destruct (coerce_column "est_deaths" to_numeric d2) as [d3|] eqn:E3;
    cbn [bind] in Hrun; [|discriminate].
  destruct (coerce_column "start_date" coerced_dates d3)
    as [d4|] eqn:E4; cbn [bind] in Hrun; [|discriminate].
  destruct (Hstep _ _ _ _ to_numeric_length E1) as (I1 & C1 & W1).
  destruct (Hstep _ _ _ _ to_numeric_length E2) as (I2 & C2 & W2).
  destruct (Hstep _ _ _ _ to_numeric_length E3) as (I3 & C3 & W3).
  destruct (Hstep _ _ _ _ coerce_date_length E4) as (I4 & C4 & W4).
  destruct (Hstep _ _ _ _ coerce_date_length Hrun) as (I5 & C5 & W5).
  split; [congruence|]. split; [|tauto].
  intros c. now rewrite C5, C4, C3, C2, C1.
Qed.

Lemma to_numeric_floats (s : list value) :
  Forall (fun v => is_float_cell v = true) (to_numeric s).
Proof.
  unfold to_numeric. rewrite Forall_map. apply Forall_forall.
  intros [|f|str|d] _; reflexivity.
Qed.

Lemma coerce_date_dates (s : list value) :
  Forall (fun v => is_date_cell v = true) (coerced_dates s).
Proof.
  unfold coerced_dates, dt_date. rewrite Forall_map.
  apply Forall_forall. intros [d|] _; reflexivity.
Qed.

End NormalizeMore.

Ltac missing_step Hc :=
  rewrite (coerce_column_missing _ _ _ Hc); reflexivity.

Ltac present_step Hc d Hrun Hidx Hcols :=
  match goal with
  | |- context [coerce_column ?c ?g ?d0] =>
      let Hc' := fresh in
      assert (Hc' : has_column d0 c = true)
        by (repeat match goal with
                   | Hk : forall c', has_column _ c' = has_column _ c' |- _ =>
                       rewrite Hk
                   end; exact Hc);
      destruct (coerce_column_present c g d0 Hc') as (d & Hrun & Hidx & Hcols);
      rewrite Hrun; cbn [bind]; clear Hc'
  end.

Section NormalizeExtras.
Context {P : Pandas}.

(** X1.  [normalize] reads latitude, longitude, est_deaths, start_date and
    last_verified in that order, each under its own label, and coerces each
    before it reads the next.  It raises [KeyError] naming the first one the
    table lacks, unless that one is last_verified and the texts of
    start_date carry different UTC offsets: then [AttributeError] comes
    first.  With all five it raises [AttributeError] when start_date or
    last_verified has such texts, and otherwise returns a table with the
    input's index. *)
Theorem normalize_key_error (df : DataFrame) :
  unique_labels df ->
  match first_missing df COERCED_COLS with
  | Some c =>
      if (String.eqb c "last_verified" && mixed_column df "start_date")%bool
      then CaseService.normalize df = Raise NOT_DATETIMELIKE
      else CaseService.normalize df = Raise (KeyError c)
  | None =>
      if (mixed_column df "start_date" || mixed_column df "last_verified")%bool
      then CaseService.normalize df = Raise NOT_DATETIMELIKE
      else exists out, CaseService.normalize df = Ok out
                       /\ index out = index df
  end.
Proof.
  intros _.
  unfold first_missing, COERCED_COLS. rewrite normalize_steps. cbn [find].
  destruct (has_column df "latitude") eqn:H1; cbn [negb];
    [|cbn; missing_step H1].
  present_step H1 d1 E1 I1 C1.
  destruct (has_column df "longitude") eqn:H2; cbn [negb];
    [|cbn; rewrite <- C1 in H2; missing_step H2].
  present_step H2 d2 E2 I2 C2.
  destruct (has_column df "est_deaths") eqn:H3; cbn [negb];
    [|cbn; rewrite <- C1, <- C2 in H3; missing_step H3].
  present_step H3 d3 E3 I3 C3.
  assert (Hsd : mixed_column d3 "start_date" = mixed_column df "start_date").
  { rewrite (mixed_column_coerce "est_deaths" "start_date" _ _ _ eq_refl E3),
      (mixed_column_coerce "longitude" "start_date" _ _ _ eq_refl E2).
    exact (mixed_column_coerce "latitude" "start_date" _ _ _ eq_refl E1). }
  destruct (has_column df "start_date") eqn:H4; cbn [negb].
  - destruct (mixed_column df "start_date") eqn:Hmix1.
    + rewrite (coerce_date_column_mixed _ _ Hsd).
      destruct (has_column df "last_verified"); reflexivity.
    + rewrite (coerce_date_column_pure _ _ Hsd).
      present_step H4 d4 E4 I4 C4.
      assert (Hlv : mixed_column d4 "last_verified"
                    = mixed_column df "last_verified").
      { rewrite (mixed_column_coerce "start_date" "last_verified" _ _ _ eq_refl E4),
          (mixed_column_coerce "est_deaths" "last_verified" _ _ _ eq_refl E3),
          (mixed_column_coerce "longitude" "last_verified" _ _ _ eq_refl E2).
        exact (mixed_column_coerce "latitude" "last_verified" _ _ _ eq_refl E1). }
      destruct (has_column df "last_verified") eqn:H5; cbn [negb].
      * cbn [orb]. destruct (mixed_column df "last_verified") eqn:Hmix2.
        -- exact (coerce_date_column_mixed _ _ Hlv).
        -- rewrite (coerce_date_column_pure _ _ Hlv).
           present_step H5 d5 E5 I5 C5.
           exists d5. split; [reflexivity | congruence].
      * cbn. rewrite <- C1, <- C2, <- C3, <- C4 in H5.
        unfold coerce_date_column. now rewrite (getitem_missing _ _ H5).
  - cbn. rewrite <- C1, <- C2, <- C3 in H4.
    unfold coerce_date_column. now rewrite (getitem_missing _ _ H4).
Qed.

(** X2.  In a table that [normalize] returns, every latitude, longitude and
    est_deaths cell is a float ([nan] when the input was not a number) and
    every start_date and last_verified cell is a date or [NaT]: no text is
    left in the five columns. *)
Theorem normalize_cell_types (df out : DataFrame) :
  CaseService.normalize df = Ok out ->
  (forall c, In c ["latitude"; "longitude"; "est_deaths"] ->
     exists col, getitem out c = Ok col
                 /\ Forall (fun v => is_float_cell v = true) col)
  /\ (forall c, In c ["start_date"; "last_verified"] ->
        exists col, getitem out c = Ok col
                    /\ Forall (fun v => is_date_cell v = true) col).
Proof.
  intros Hrun.
  destruct (normalize_produces df out Hrun)
    as ([c1 H1] & [c2 H2] & [c3 H3] & [c4 H4] & [c5 H5]).
  split; intros c Hin; simpl in Hin.
  - destruct Hin as [<-|[<-|[<-|[]]]]; eexists; (split; [eassumption|]);
      apply to_numeric_floats.
  - destruct Hin as [<-|[<-|[]]]; eexists; (split; [eassumption|]);
      apply coerce_date_dates.
Qed.

End NormalizeExtras.

Lemma normalize_key_error_witness :
  unique_labels (drop_column two_time_zones "last_verified")
  /\ has_column (drop_column two_time_zones "last_verified") "last_verified"
     = false
  /\ CaseService.normalize (H := Reference.pandas)
       (drop_column two_time_zones "last_verified")
     = Raise (AttributeError "Can only use .dt accessor with datetimelike values")
  /\ CaseService.normalize (H := Reference.pandas)
       (drop_column cases "last_verified")
     = Raise (KeyError "last_verified").
Proof.
  assert (Hzones : unique_labels (drop_column two_time_zones "last_verified")).
  { unfold unique_labels, two_time_zones, cases. cbn.
    repeat (constructor; [cbn; intuition discriminate|]). constructor. }
  assert (Hcases : unique_labels (drop_column cases "last_verified")).
  { unfold unique_labels, cases. cbn.
    repeat (constructor; [cbn; intuition discriminate|]). constructor. }
  split; [exact Hzones|]. split; [reflexivity|]. split.
  - exact (@normalize_key_error Reference.pandas
             (drop_column two_time_zones "last_verified") Hzones).
  - exact (@normalize_key_error Reference.pandas
             (drop_column cases "last_verified") Hcases).
Defined.

Lemma normalize_cell_types_witness :
  exists out col,
    CaseService.normalize (H := Reference.pandas) cases = Ok out
    /\ getitem out "start_date" = Ok col
    /\ Forall (fun v => is_date_cell v = true) col.
Proof.
  destruct (CaseService.normalize (H := Reference.pandas) cases)
    as [out|e] eqn:Hrun; [|discriminate].
  destruct (proj2 (@normalize_cell_types Reference.pandas cases out Hrun)
              "start_date" (or_introl eq_refl)) as (col & Hcol & Hall).
  exists out, col. auto.
Defined.

(* ===================================================================== *)
(** ** Normalized tables: issues and the map frame *)
(* ===================================================================== *)

Lemma row_cell_in_column (df : DataFrame) (c : string) (col : list value)
    (item : Z * Series) :
  wf df -> getitem df c = Ok col -> In item (iterrows df) ->
  exists v, get (snd item) c = Some v /\ In v col.
Proof.
  intros Hwf Hget Hin. unfold getitem in Hget.
  destruct (lookup c (columns df)) as [col'|] eqn:Hl; [|discriminate].
  injection Hget as ->.
  pose proof (rows_of_column c _ _ _ Hwf Hl) as Hrows.
  fold (iterrows df) in Hrows.
  assert (Hcell : In (lookup c (snd item)) (map Some col))
    by (rewrite <- Hrows; apply (in_map (fun r => lookup c (snd r))); exact Hin).
  apply in_map_iff in Hcell. destruct Hcell as (v & Hv & Hvin).
  exists v. split; [symmetry; exact Hv | exact Hvin].
Qed.

Lemma lookup_not_in {A : Type} (c : string) (l : list (string * A)) :
  ~ In c (map fst l) -> lookup c l = None.
Proof.
  induction l as [|[k v] l IH]; simpl; [reflexivity|].
  intros Hnot. destruct (String.eqb c k) eqn:E.
  - apply String.eqb_eq in E. subst. exfalso. apply Hnot. now left.
  - apply IH. intro Hin. apply Hnot. now right.
Qed.

Lemma str_in_In (c : string) (l : list string) :
  str_in c l = true <-> In c l.
Proof.
  unfold str_in. rewrite existsb_exists. split.
  - intros (x & Hin & Heq). apply String.eqb_eq in Heq. now subst.
  - intros Hin. exists c. split; [exact Hin | apply String.eqb_refl].
Qed.

Lemma getitem_list_names (df : DataFrame) (names : list string) :
  (forall c, In c names -> has_column df c = true) ->
  exists cols,
    getitem_list df names = Ok (mkDataFrame (index df) cols)
    /\ map fst cols = names
    /\ (forall c, In c names -> lookup c cols = lookup c (columns df))
    /\ (wf df ->
        Forall (fun col => List.length (snd col) = List.length (index df)) cols).
Proof.
  unfold getitem_list. induction names as [|c names IH]; intros Hall.
  - exists []. simpl. repeat split; [contradiction | constructor].
  - destruct IH as (cols & Hrun & Hnames & Hlook & Hwf);
      [intros c' Hin; apply Hall; now right|].
    assert (Hc : has_column df c = true) by (apply Hall; now left).
    apply has_column_getitem in Hc. destruct Hc as [col Hget].
    exists ((c, col) :: cols). cbn [mapM]. rewrite Hget. cbn [bind].
    destruct (mapM (fun c0 => col0 <- getitem df c0 ;; Ok (c0, col0)) names)
      as [cols'|e]; cbn [bind] in *; [|discriminate].
    injection Hrun as <-. split; [reflexivity|]. split; [simpl; congruence|].
    split.
    + intros c' Hin. cbn [lookup].
      destruct (String.eqb c' c) eqn:E.
      * apply String.eqb_eq in E. subst c'. unfold getitem in Hget.
        destruct (lookup c (columns df)); congruence.
      * destruct Hin as [->|Hin]; [now rewrite String.eqb_refl in E|].
        now apply Hlook.
    + intros Hwfdf. constructor; [|now apply Hwf].
      simpl. exact (getitem_length df c col Hwfdf Hget).
Qed.

Lemma mask_and_left {A : Type} (Q : A -> Prop) (m1 : list bool) :
  forall (m2 : list bool) (l : list A),
    Forall Q (mask_select m1 l) ->
    Forall Q (mask_select (series_and m1 m2) l).
Proof.
  induction m1 as [|b1 m1 IH]; intros [|b2 m2] [|x l] Hall; simpl in *;
    try constructor.
  destruct b1; simpl in *.
  - inversion Hall; subst. destruct b2; [constructor|]; auto.
  - auto.
Qed.

Lemma mask_and_right {A : Type} (Q : A -> Prop) (m1 : list bool) :
  forall (m2 : list bool) (l : list A),
    Forall Q (mask_select m2 l) ->
    Forall Q (mask_select (series_and m1 m2) l).
Proof.
  induction m1 as [|b1 m1 IH]; intros [|b2 m2] [|x l] Hall; simpl in *;
    try constructor.
  destruct b2; simpl in *.
  - inversion Hall; subst. destruct b1; simpl; [constructor|]; auto.
  - rewrite andb_false_r. auto.
Qed.

Lemma mask_self {A : Type} (f : A -> bool) (l : list A) :
  Forall (fun x => f x = true) (mask_select (map f l) l).
Proof.
  rewrite mask_select_map_self. apply Forall_forall.
  intros x Hin. apply filter_In in Hin. tauto.
Qed.

Lemma filter_length_all {A : Type} (f : A -> bool) (l : list A) :
  (List.length (List.filter f l) <= List.length l)%nat
  /\ (List.length (List.filter f l) = List.length l <->
      forall x, In x l -> f x = true).
Proof.
  induction l as [|x l [IHle IHeq]]; simpl.
  - split; [lia|]. split; [contradiction | reflexivity].
  - destruct (f x) eqn:E; simpl.
    + split; [lia|]. split.
      * intros Hlen y [<-|Hin]; [exact E|]. apply IHeq; [lia | exact Hin].
      * intros Hall. f_equal. apply IHeq. auto.
    + split; [lia|]. split; [lia|].
      intros Hall. specialize (Hall x (or_introl eq_refl)). congruence.
Qed.

Section MapMore.
Context {P : Pandas}.

(** Every run of [minimal_map_df]. *)
Lemma minimal_map_df_run (df : DataFrame) :
  (has_column df "longitude" = false ->
   MapBuilder.minimal_map_df df = Raise (KeyError "longitude"))
  /\ (has_column df "longitude" = true ->
      has_column df "latitude" = false ->
      MapBuilder.minimal_map_df df = Raise (KeyError "latitude"))
  /\ (has_column df "longitude" = true ->
      has_column df "latitude" = true ->
      exists lon lat cols,
        getitem df "longitude" = Ok lon
        /\ getitem df "latitude" = Ok lat
        /\ map fst cols = List.filter (has_column df) MAP_COLS
        /\ (wf df ->
            Forall (fun col => List.length (snd col) = List.length (index df))
                   cols)
        /\ let present :=
             series_and
               (series_and (map (fun _ => true) (index df))
                           (map notna_cell (to_numeric lon)))
               (map notna_cell (to_numeric lat)) in
           MapBuilder.minimal_map_df df
           = Ok (getitem_mask
                   (setitem (setitem (mkDataFrame (index df) cols)
                                     "longitude" (to_numeric lon))
                            "latitude" (to_numeric lat))
                   present)).
Proof.
  unfold MapBuilder.minimal_map_df, copy.
  fold MAP_COLS.
  set (keep := List.filter (has_column df) MAP_COLS).
  assert (Hkeep : forall c, In c keep -> has_column df c = true)
    by (intros c Hin; apply filter_In in Hin; tauto).
  destruct (getitem_list_names df keep Hkeep) as (cols & Hrun & Hnames & Hlook & Hwf).
  rewrite Hrun. cbn [bind].
  assert (Hgone : forall c, has_column df c = false ->
            getitem (mkDataFrame (index df) cols) c = Raise (KeyError c)).
  { intros c Hc. unfold getitem. cbn [columns]. rewrite lookup_not_in; [reflexivity|].
    rewrite Hnames. intro Hin. apply Hkeep in Hin. congruence. }
  assert (Hthere : forall c col, In c MAP_COLS -> getitem df c = Ok col ->
            getitem (mkDataFrame (index df) cols) c = Ok col).
  { intros c col Hin Hget. unfold getitem in *. cbn [columns].
    rewrite Hlook; [exact Hget|]. apply filter_In. split; [exact Hin|].
    apply has_column_getitem. exists col. exact Hget. }
  split; [|split].
  - intros Hlon. now rewrite (Hgone _ Hlon).
  - intros Hlon Hlat. apply has_column_getitem in Hlon.
    destruct Hlon as [lon Hlon].
    rewrite (Hthere "longitude" lon ltac:(simpl; tauto) Hlon). cbn [bind].
    rewrite getitem_setitem_other by reflexivity.
    now rewrite (Hgone _ Hlat).
  - intros Hlon Hlat. apply has_column_getitem in Hlon, Hlat.
    destruct Hlon as [lon Hlon], Hlat as [lat Hlat].
    exists lon, lat, cols. split; [exact Hlon|]. split; [exact Hlat|].
    split; [exact Hnames|]. split; [exact Hwf|]. cbv zeta.
    rewrite (Hthere "longitude" lon ltac:(simpl; tauto) Hlon). cbn [bind].
    rewrite getitem_setitem_other by reflexivity.
    rewrite (Hthere "latitude" lat ltac:(simpl; tauto) Hlat). cbn [bind].
    unfold dropna. cbn [mapM].
    rewrite getitem_setitem_other by reflexivity.
    rewrite !getitem_setitem_same. cbn [bind fold_left]. reflexivity.
Qed.

Lemma notna_to_numeric_number (v : value) :
  notna_cell (to_numeric_scalar v) = true ->
  is_number_cell (to_numeric_scalar v) = true.
Proof. destruct v; simpl; unfold notna_cell; simpl; auto. Qed.

Lemma present_numbers (s : list value) :
  Forall (fun v => is_number_cell v = true)
         (mask_select (map notna_cell (map to_numeric_scalar s))
                      (map to_numeric_scalar s)).
Proof.
  rewrite mask_select_map_self. apply Forall_forall. intros v Hin.
  apply filter_In in Hin. destruct Hin as [Hin Hv].
  apply in_map_iff in Hin. destruct Hin as (v0 & <- & _).
  now apply notna_to_numeric_number.
Qed.

End MapMore.

Section MapExtras.
Context {P : Pandas}.

(** X3.  [minimal_map_df] needs the two coordinate columns and nothing
    else: without a longitude column it raises [KeyError('longitude')], with
    it and without a latitude column [KeyError('latitude')], and with both
    it returns a frame, whichever of color, tooltip and name the input
    has. *)
Theorem minimal_map_df_key_error (df : DataFrame) :
  match first_missing df ["longitude"; "latitude"] with
  | Some c => MapBuilder.minimal_map_df df = Raise (KeyError c)
  | None => exists m, MapBuilder.minimal_map_df df = Ok m
                      /\ column_names m = List.filter (has_column df) MAP_COLS
  end.
Proof.
  destruct (minimal_map_df_run df) as (Hno_lon & Hno_lat & Hboth).
  unfold first_missing. cbn [find].
  destruct (has_column df "longitude") eqn:Hlon; cbn [negb]; [|auto].
  destruct (has_column df "latitude") eqn:Hlat; cbn [negb]; [|auto].
  destruct (Hboth eq_refl eq_refl)
    as (lon & lat & cols & Hglon & Hglat & Hnames & _ & Hrun).
  cbv zeta in Hrun. eexists. split; [exact Hrun|].
  rewrite column_names_getitem_mask. unfold column_names, setitem. cbn [columns].
  assert (Hlon' : exists old, lookup "longitude" cols = Some old).
  { apply str_in_lookup. rewrite Hnames. apply str_in_In. apply filter_In.
    split; [simpl; tauto | exact Hlon]. }
  assert (Hlat' : exists old, lookup "latitude" cols = Some old).
  { apply str_in_lookup. rewrite Hnames. apply str_in_In. apply filter_In.
    split; [simpl; tauto | exact Hlat]. }
  destruct Hlon' as [old1 Hold1], Hlat' as [old2 Hold2].
  rewrite (replace_keeps_names "latitude" _ old2).
  - rewrite (replace_keeps_names "longitude" _ old1 _ Hold1). exact Hnames.
  - rewrite lookup_replace_other by reflexivity. exact Hold2.
Qed.

(** X4.  Every frame [minimal_map_df] returns is plottable: each longitude
    and latitude cell is a number that is present (a float, not [nan]), the
    columns are as long as the index, and the row labels are row labels of
    the input, in the input's order: the index is the input's index with
    the labels of the dropped rows taken out, nothing moved. *)
Theorem minimal_map_df_coordinates_present (df m : DataFrame) :
  wf df ->
  MapBuilder.minimal_map_df df = Ok m ->
  wf m
  /\ (exists lon lat,
        getitem m "longitude" = Ok lon
        /\ getitem m "latitude" = Ok lat
        /\ Forall (fun v => is_number_cell v = true) lon
        /\ Forall (fun v => is_number_cell v = true) lat)
  /\ (exists keep,
        List.length keep = List.length (index df)
        /\ index m = mask_select keep (index df)
        /\ index m
           = map fst (List.filter (fun r => on_map (snd r)) (iterrows df)))
  /\ (forall i, In i (index m) -> In i (index df))
  /\ (NoDup (index df) -> NoDup (index m)).
Proof.
  intros Hwf Hrun.
  assert (Hidx : index m
                 = map fst (List.filter (fun r => on_map (snd r)) (iterrows df))).
  { destruct (has_column df "longitude") eqn:Hlon0;
      [|rewrite (proj1 (minimal_map_df_run df) Hlon0) in Hrun; discriminate].
    destruct (has_column df "latitude") eqn:Hlat0;
      [|rewrite (proj1 (proj2 (minimal_map_df_run df)) Hlon0 Hlat0) in Hrun;
        discriminate].
    destruct (minimal_map_df_index df Hwf Hlon0 Hlat0) as (m' & Hm' & Hidx').
    rewrite Hm' in Hrun. injection Hrun as <-. exact Hidx'. }
  destruct (minimal_map_df_run df) as (Hno_lon & Hno_lat & Hboth).
  destruct (has_column df "longitude") eqn:Hlon;
    [|rewrite (Hno_lon eq_refl) in Hrun; discriminate].
  destruct (has_column df "latitude") eqn:Hlat;
    [|rewrite (Hno_lat eq_refl eq_refl) in Hrun; discriminate].
  destruct (Hboth eq_refl eq_refl)
    as (lon & lat & cols & Hglon & Hglat & Hnames & Hcols & Hrun').
  cbv zeta in Hrun'. rewrite Hrun' in Hrun. injection Hrun as <-.
  clear Hno_lon Hno_lat Hboth Hrun'.
  pose proof (getitem_length df _ _ Hwf Hglon) as Hlen_lon.
  pose proof (getitem_length df _ _ Hwf Hglat) as Hlen_lat.
  split; [|split; [|split; [|split]]].
  - apply wf_getitem_mask. unfold wf, setitem. cbn [index columns].
    apply Forall_replace;
      [intros k; cbn [snd]; unfold to_numeric; now rewrite length_map|].
    apply Forall_replace;
      [intros k; cbn [snd]; unfold to_numeric; now rewrite length_map|].
    now apply Hcols.
  - eexists. eexists. rewrite !getitem_getitem_mask.
    rewrite getitem_setitem_other by reflexivity.
    rewrite !getitem_setitem_same. cbn [bind].
    split; [reflexivity|]. split; [reflexivity|]. split.
    + apply mask_and_left, mask_and_right. apply present_numbers.
    + apply mask_and_right. apply present_numbers.
  - eexists. split; [|split; [cbn [index getitem_mask setitem]; reflexivity
                               | exact Hidx]].
    rewrite !series_and_length, !length_map.
    unfold to_numeric. rewrite !length_map, Hlen_lon, Hlen_lat. lia.
  - intros i Hin. cbn [index getitem_mask setitem] in Hin.
    eapply mask_select_In; eassumption.
  - intros Hnd. cbn [index getitem_mask setitem]. now apply mask_select_NoDup.
Qed.

End MapExtras.

Lemma minimal_map_df_coordinates_present_witness :
  wf cases
  /\ exists m lon,
       MapBuilder.minimal_map_df (H := Reference.pandas) cases = Ok m
       /\ getitem m "longitude" = Ok lon
       /\ Forall (fun v => is_number_cell v = true) lon.
Proof.
  split; [exact wf_cases|].
  destruct (MapBuilder.minimal_map_df (H := Reference.pandas) cases)
    as [m|e] eqn:Hrun; [|discriminate].
  destruct (@minimal_map_df_coordinates_present Reference.pandas cases m
              wf_cases Hrun) as (_ & (lon & lat & Hlon & _ & Hall & _) & _).
  exists m, lon. auto.
Defined.

Section NormalizedTables.
Context {P : Pandas}.

(** The coordinates of a row of a normalized table are floats. *)
Lemma normalized_row_coordinates (df out : DataFrame) (item : Z * Series) :
  wf df -> CaseService.normalize df = Ok out -> In item (iterrows out) ->
  exists x y,
    get (snd item) "latitude" = Some (VFloat x)
    /\ get (snd item) "longitude" = Some (VFloat y).
Proof.
  intros Hwf Hrun Hin.
  destruct (normalize_shape df out Hrun) as (_ & _ & Hwfo).
  destruct (normalize_produces df out Hrun) as ([c1 H1] & [c2 H2] & _).
  destruct (row_cell_in_column out _ _ item (Hwfo Hwf) H1 Hin) as (v1 & Hv1 & Hin1).
  destruct (row_cell_in_column out _ _ item (Hwfo Hwf) H2 Hin) as (v2 & Hv2 & Hin2).
  pose proof (to_numeric_floats c1) as F1. pose proof (to_numeric_floats c2) as F2.
  rewrite Forall_forall in F1, F2.
  specialize (F1 _ Hin1). specialize (F2 _ Hin2).
  destruct v1 as [|x|?|?]; try discriminate.
  destruct v2 as [|y|?|?]; try discriminate.
  exists x, y. auto.
Qed.

(** X5.  On a normalized table [quality_issues] never reports "lat/lon
    invalid type": each row's coordinates are floats, "lat/lon missing or
    invalid" is reported exactly when one of them is [nan], and "lat/lon out
    of range" exactly when both are present and outside latitude -90..90 or
    longitude -180..180. *)
Theorem normalized_coordinate_flags (df out : DataFrame) :
  wf df ->
  CaseService.normalize df = Ok out ->
  forall item, In item (iterrows out) ->
    exists x y,
      get (snd item) "latitude" = Some (VFloat x)
      /\ get (snd item) "longitude" = Some (VFloat y)
      /\ ~ In "lat/lon invalid type" (CaseService.row_msgs (snd item))
      /\ (In "lat/lon missing or invalid" (CaseService.row_msgs (snd item)) <->
          is_nan x = true \/ is_nan y = true)
      /\ (In "lat/lon out of range" (CaseService.row_msgs (snd item)) <->
          is_nan x = false /\ is_nan y = false
          /\ in_geographic_range x y = false).
Proof.
  intros Hwf Hrun item Hin.
  destruct (normalized_row_coordinates df out item Hwf Hrun Hin)
    as (x & y & Hx & Hy).
  exists x, y. split; [exact Hx|]. split; [exact Hy|].
  destruct (row_msgs_flags (snd item)) as (Hmiss & Hout & Hinv & _).
  rewrite Hx, Hy, coords_in_range_numbers in *. cbn [isna] in *.
  split; [|split].
  - rewrite Hinv. intros (_ & _ & e & He). discriminate.
  - exact Hmiss.
  - rewrite Hout. split.
    + intros (Hnx & Hny & [= Hr]). auto.
    + intros (Hnx & Hny & ->). auto.
Qed.

(** X6.  On a normalized table the map and the issue list agree: the rows
    [minimal_map_df] drops are exactly the rows that [quality_issues] reports
    with "lat/lon missing or invalid". *)
Theorem map_drops_the_flagged_rows (df out : DataFrame) :
  wf df ->
  CaseService.normalize df = Ok out ->
  exists m,
    MapBuilder.minimal_map_df out = Ok m
    /\ index m
       = map fst (List.filter (fun r => negb (coordinate_missing (snd r)))
                              (iterrows out))
    /\ forall item, In item (iterrows out) ->
         (coordinate_missing (snd item) = true <->
          In "lat/lon missing or invalid" (CaseService.row_msgs (snd item))).
Proof.
  intros Hwf Hrun.
  destruct (normalize_shape df out Hrun) as (_ & _ & Hwfo).
  destruct (normalize_produces df out Hrun) as ([c1 H1] & [c2 H2] & _).
  assert (Hlon : has_column out "longitude" = true)
    by (apply has_column_getitem; eauto).
  assert (Hlat : has_column out "latitude" = true)
    by (apply has_column_getitem; eauto).
  destruct (minimal_map_df_index out (Hwfo Hwf) Hlon Hlat) as (m & Hm & Hidx).
  exists m. split; [exact Hm|]. split.
  - rewrite Hidx. f_equal. apply filter_ext_in. intros item Hin.
    destruct (normalized_row_coordinates df out item Hwf Hrun Hin)
      as (x & y & Hx & Hy).
    unfold on_map, coordinate_missing, numeric_present, notna_cell.
    rewrite Hx, Hy. cbn [to_numeric_scalar isna].
    destruct (is_nan x), (is_nan y); reflexivity.
  - intros item Hin. unfold coordinate_missing.
    rewrite orb_true_iff. symmetry. apply (row_msgs_flags (snd item)).
Qed.

End NormalizedTables.

Lemma normalized_coordinate_flags_witness :
  wf cases
  /\ exists out,
       CaseService.normalize (H := Reference.pandas) cases = Ok out
       /\ forall item, In item (iterrows out) ->
            ~ In "lat/lon invalid type"
                 (CaseService.row_msgs (H := Reference.pandas) (snd item)).
Proof.
  split; [exact wf_cases|].
  destruct (CaseService.normalize (H := Reference.pandas) cases)
    as [out|e] eqn:Hrun; [|discriminate].
  exists out. split; [reflexivity|]. intros item Hin.
  destruct (@normalized_coordinate_flags Reference.pandas cases out
              wf_cases Hrun item Hin) as (x & y & _ & _ & Hnot & _).
  exact Hnot.
Defined.

Lemma map_drops_the_flagged_rows_witness :
  wf cases
  /\ exists out m,
       CaseService.normalize (H := Reference.pandas) cases = Ok out
       /\ MapBuilder.minimal_map_df (H := Reference.pandas) out = Ok m
       /\ index m = [0; 1; 2]%Z
       /\ CaseService.quality_issues (H := Reference.pandas) out
          = [ (2%Z, "lat/lon out of range; missing sources");
              (3%Z, "lat/lon missing or invalid") ].
Proof.
  split; [exact wf_cases|].
  destruct (CaseService.normalize (H := Reference.pandas) cases)
    as [out|e] eqn:Hrun; [|discriminate].
  destruct (@map_drops_the_flagged_rows Reference.pandas cases out
              wf_cases Hrun) as (m & Hm & Hidx & _).
  exists out, m. split; [reflexivity|]. split; [exact Hm|].
  injection Hrun as <-. split; [rewrite Hidx|]; reflexivity.
Defined.

Section ShapeExtras.
Context {P : Pandas}.

(** X7.  [minimal_map_df] never adds a row: the frame it returns has at
    most as many rows as the input, and as many exactly when every row has
    both coordinates as numbers after coercion. *)
Theorem minimal_map_df_row_count (df : DataFrame) :
  wf df ->
  has_column df "longitude" = true ->
  has_column df "latitude" = true ->
  exists m,
    MapBuilder.minimal_map_df df = Ok m
    /\ (List.length (index m) <= List.length (index df))%nat
    /\ (List.length (index m) = List.length (index df) <->
        forall item, In item (iterrows df) -> on_map (snd item) = true).
Proof.
  intros Hwf Hlon Hlat.
  destruct (minimal_map_df_index df Hwf Hlon Hlat) as (m & Hm & Hidx).
  exists m. split; [exact Hm|].
  rewrite Hidx, length_map, <- (length_iterrows df).
  apply (filter_length_all (fun r => on_map (snd r))).
Qed.

(** X8.  [table_display] never raises, whatever columns the table has: it
    returns the table's display columns, in the display order, each with the
    cells it had, over the same index; every other column is gone. *)
Theorem table_display_columns (df : DataFrame) :
  exists tbl,
    CaseService.table_display df = Ok tbl
    /\ index tbl = index df
    /\ column_names tbl = List.filter (has_column df) DISPLAY_COLS
    /\ (forall c, has_column tbl c = true -> getitem tbl c = getitem df c)
    /\ (forall c, ~ In c DISPLAY_COLS -> has_column tbl c = false)
    /\ (wf df -> wf tbl).
Proof.
  unfold CaseService.table_display. fold DISPLAY_COLS.
  set (have := List.filter (has_column df) DISPLAY_COLS).
  assert (Hhave : forall c, In c have -> has_column df c = true)
    by (intros c Hin; apply filter_In in Hin; tauto).
  destruct (getitem_list_names df have Hhave) as (cols & Hrun & Hnames & Hlook & Hwf).
  eexists. split; [exact Hrun|]. split; [reflexivity|].
  split; [exact Hnames|]. split; [|split].
  - intros c Hc. unfold has_column, column_names in Hc. cbn [columns] in Hc.
    rewrite Hnames in Hc. apply str_in_In in Hc.
    unfold getitem. cbn [columns]. now rewrite (Hlook c Hc).
  - intros c Hnot. unfold has_column, column_names. cbn [columns].
    rewrite Hnames. destruct (str_in c have) eqn:E; [|reflexivity].
    apply str_in_In in E. apply filter_In in E. tauto.
  - intros Hwfdf. unfold wf. cbn [columns index]. now apply Hwf.
Qed.

End ShapeExtras.

Lemma minimal_map_df_row_count_witness :
  wf cases
  /\ exists m,
       MapBuilder.minimal_map_df (H := Reference.pandas) cases = Ok m
       /\ (List.length (index m) <= 4)%nat.
Proof.
  split; [exact wf_cases|].
  destruct (@minimal_map_df_row_count Reference.pandas cases wf_cases
              eq_refl eq_refl) as (m & Hm & Hle & _).
  exists m. split; [exact Hm | exact Hle].
Defined.

(* ===================================================================== *)
(** ** More of [CaseService.filter]: errors and the year range *)
(* ===================================================================== *)

Section FilterMore.
Context {P : Pandas}.





End FilterMore.

Lemma filter_none {A : Type} (f : A -> bool) (l : list A) :
  (forall x, In x l -> f x = false) -> List.filter f l = [].
Proof.
  induction l as [|x l IH]; simpl; intros Hall; [reflexivity|].
  rewrite (Hall x (or_introl eq_refl)). apply IH. auto.
Qed.

Section FilterExtras.
Context {P : Pandas}.




End FilterExtras.



(* ===================================================================== *)
(** ** [colorize], [tooltipify], [Case] and [to_cases] *)
(* ===================================================================== *)

Lemma Ok_inj {A : Type} (a b : A) : Ok a = Ok b -> a = b.
Proof. now intros [= ->]. Qed.

Lemma str_append_assoc (a b c : string) :
  ((a ++ b) ++ c)%string = (a ++ (b ++ c))%string.
Proof. induction a as [|x a IH]; simpl; [reflexivity | now rewrite IH]. Qed.

Lemma radd_map {A : Type} (text : string) (f : A -> string) (l : list A) :
  radd text (map f l) = map (fun x => (text ++ f x)%string) l.
Proof. unfold radd. now rewrite map_map. Qed.

Lemma add_text_map {A : Type} (text : string) (f : A -> string) (l : list A) :
  add_text (map f l) text = map (fun x => (f x ++ text)%string) l.
Proof. unfold add_text. now rewrite map_map. Qed.

Lemma add_map {A : Type} (f g : A -> string) (l : list A) :
  add (map f l) (map g l) = map (fun x => (f x ++ g x)%string) l.
Proof. induction l as [|x l IH]; simpl; [reflexivity | now rewrite IH]. Qed.

Lemma mapM_Forall2 {A B : Type} (f : A -> Result B) (l : list A) :
  forall ys, mapM f l = Ok ys -> Forall2 (fun x y => f x = Ok y) l ys.
Proof.
  induction l as [|x l IH]; simpl; intros ys Hrun.
  - injection Hrun as <-. constructor.
  - destruct (f x) as [y|e] eqn:Hx; cbn [bind] in Hrun; [|discriminate].
    destruct (mapM f l) as [ys'|e]; cbn [bind] in Hrun; [|discriminate].
    injection Hrun as <-. constructor; auto.
Qed.

Lemma mapM_all_ok {A B : Type} (f : A -> Result B) (l : list A) :
  (forall x, In x l -> exists y, f x = Ok y) ->
  exists ys, mapM f l = Ok ys /\ List.length ys = List.length l.
Proof.
  induction l as [|x l IH]; simpl; intros Hall.
  - exists []. auto.
  - destruct (Hall x (or_introl eq_refl)) as [y Hy].
    destruct IH as (ys & Hys & Hlen); [auto|].
    exists (y :: ys). rewrite Hy, Hys. cbn [bind]. simpl. auto.
Qed.

Lemma lookup_drop_other {A : Type} (c c' : string) (l : list (string * A)) :
  String.eqb c' c = false ->
  lookup c' (List.filter (fun col => negb (String.eqb (fst col) c)) l)
  = lookup c' l.
Proof.
  intros Hne. induction l as [|[k v] l IH]; simpl; [reflexivity|].
  destruct (String.eqb k c) eqn:E; simpl.
  - apply String.eqb_eq in E. subst k. now rewrite Hne.
  - now rewrite IH.
Qed.

Section PresentationFacts.
Context {P : Pandas}.

Lemma astype_str_rows (df : DataFrame) (c : string) (col : list value) :
  wf df -> getitem df c = Ok col ->
  astype_str col = map (fun r => field_text (snd r) c) (iterrows df).
Proof.
  intros Hwf Hget. unfold getitem in Hget.
  destruct (lookup c (columns df)) as [col'|] eqn:Hl; [|discriminate].
  injection Hget as ->.
  pose proof (rows_of_column c _ _ _ Hwf Hl) as Hrows.
  fold (iterrows df) in Hrows.
  apply (f_equal (map (fun o => str_value (match o with
                                           | Some v => v
                                           | None => VStr ""
                                           end)))) in Hrows.
  rewrite !map_map in Hrows. unfold astype_str. symmetry. exact Hrows.
Qed.

(** The tooltip column, row by row. *)
Lemma tooltipify_rows (df out : DataFrame) :
  wf df ->
  CaseService.tooltipify df = Ok out ->
  out = setitem df "tooltip"
          (map (fun r => VStr (row_tooltip (snd r))) (iterrows df)).
Proof.
  intros Hwf Hrun. unfold CaseService.tooltipify, copy in Hrun.
  destruct (getitem df "name") as [c1|] eqn:H1; cbn [bind] in Hrun; [|discriminate].
  destruct (getitem df "country") as [c2|] eqn:H2; cbn [bind] in Hrun; [|discriminate].
  destruct (getitem df "region") as [c3|] eqn:H3; cbn [bind] in Hrun; [|discriminate].
  destruct (getitem df "status") as [c4|] eqn:H4; cbn [bind] in Hrun; [|discriminate].
  destruct (getitem df "targeted_group") as [c5|] eqn:H5; cbn [bind] in Hrun; [|discriminate].
  destruct (getitem df "perpetrators") as [c6|] eqn:H6; cbn [bind] in Hrun; [|discriminate].
  destruct (getitem df "start_date") as [c7|] eqn:H7; cbn [bind] in Hrun; [|discriminate].
  destruct (getitem df "last_verified") as [c8|] eqn:H8; cbn [bind] in Hrun; [|discriminate].
  apply Ok_inj in Hrun. subst out. f_equal.
  rewrite (astype_str_rows df _ _ Hwf H1), (astype_str_rows df _ _ Hwf H2),
    (astype_str_rows df _ _ Hwf H3), (astype_str_rows df _ _ Hwf H4),
    (astype_str_rows df _ _ Hwf H5), (astype_str_rows df _ _ Hwf H6),
    (astype_str_rows df _ _ Hwf H7), (astype_str_rows df _ _ Hwf H8).
  rewrite radd_map.
  repeat first [ rewrite add_text_map | rewrite add_map ].
  rewrite map_map. apply map_ext. intros [i row]. cbn [snd]. f_equal.
  unfold row_tooltip. now rewrite !str_append_assoc.
Qed.

Lemma case_tooltip (row : Series) (c : Case.t) :
  CSVRepository.case_of_row row = Ok c ->
  Case.tooltip_html c = row_tooltip row
  /\ Case.sources c = field_text row "sources"
  /\ Case.id c = field_text row "id".
Proof.
  unfold CSVRepository.case_of_row.
  destruct (py_float (get_default row "latitude" (VFloat nan))) as [x|];
    cbn [bind]; [|discriminate].
  destruct (py_float (get_default row "longitude" (VFloat nan))) as [y|];
    cbn [bind]; [|discriminate].
  match goal with
  | |- bind ?m _ = _ -> _ => destruct m as [e|]; cbn [bind]; [|discriminate]
  end.
  intros [= <-]. repeat split.
Qed.

Lemma status_color_cases (s : string) :
  (status_color s = [220; 20; 60]%Z <-> lower s = "ongoing")
  /\ (status_color s = [255; 140; 0]%Z <-> lower s = "escalating")
  /\ (status_color s = [255; 215; 0]%Z <-> lower s = "at-risk")
  /\ (status_color s = DEFAULT_COLOR <->
      lower s <> "ongoing" /\ lower s <> "escalating" /\ lower s <> "at-risk").
Proof.
  unfold status_color, STATUS_COLOR, DEFAULT_COLOR. cbn [dict_get].
  destruct (String.eqb_spec (lower s) "ongoing") as [->|H1];
    [repeat split; intros; try discriminate; try reflexivity;
     try tauto; intuition congruence|].
  destruct (String.eqb_spec (lower s) "escalating") as [->|H2];
    [repeat split; intros; try discriminate; try reflexivity;
     try tauto; intuition congruence|].
  destruct (String.eqb_spec (lower s) "at-risk") as [->|H3];
    [repeat split; intros; try discriminate; try reflexivity;
     try tauto; intuition congruence|].
  repeat split; intros; try discriminate; try tauto.
Qed.

End PresentationFacts.

Lemma Forall2_map_right {A B : Type} (g : A -> B) (l : list A) :
  Forall2 (fun x y => y = g x) l (map g l).
Proof. induction l; simpl; constructor; auto. Qed.

Ltac read_column df c :=
  let Hc := fresh "Hc" in
  destruct (has_column df c) eqn:Hc; cbn [negb];
  [ let col := fresh "col" in
    let Hget := fresh "Hget" in
    destruct (proj1 (has_column_getitem df c) Hc) as [col Hget];
    rewrite Hget; cbn [bind]
  | rewrite (getitem_missing df c Hc); reflexivity ].

Section PresentationExtras.
Context {P : Pandas}.

Lemma tooltipify_key_error (df : DataFrame) :
  match first_missing df TOOLTIP_COLS with
  | Some c => CaseService.tooltipify df = Raise (KeyError c)
  | None => exists out, CaseService.tooltipify df = Ok out
  end.
Proof.
  unfold first_missing, TOOLTIP_COLS, CaseService.tooltipify, copy. cbn [find].
  read_column df "name". read_column df "country". read_column df "region".
  read_column df "status". read_column df "targeted_group".
  read_column df "perpetrators". read_column df "start_date".
  read_column df "last_verified".
  eexists. reflexivity.
Qed.

(** X12.  [colorize] needs the status column ([KeyError('status')]
    without it) and gives every row one of four fixed colors, chosen by the
    lower-cased text of its status: crimson for "ongoing", dark orange for
    "escalating", gold for "at-risk" in any letter case, and cornflower blue
    for every other status, a missing one ([nan]) included.  The other
    columns and the index are the input's. *)
Theorem colorize_colors (df : DataFrame) :
  (has_column df "status" = false ->
   CaseService.colorize df = Raise (KeyError "status"))
  /\ (forall status, getitem df "status" = Ok status ->
        exists cf,
          CaseService.colorize df = Ok cf
          /\ index (base cf) = index df
          /\ (forall c, String.eqb c "color" = false ->
                        getitem (base cf) c = getitem df c)
          /\ List.length (color cf) = List.length status
          /\ Forall2 (fun v rgb => rgb = status_color (str_value v))
                     status (color cf))
  /\ (forall s,
        (status_color s = [220; 20; 60]%Z <-> lower s = "ongoing")
        /\ (status_color s = [255; 140; 0]%Z <-> lower s = "escalating")
        /\ (status_color s = [255; 215; 0]%Z <-> lower s = "at-risk")
        /\ (status_color s = DEFAULT_COLOR <->
            lower s <> "ongoing" /\ lower s <> "escalating"
            /\ lower s <> "at-risk"))
  /\ (forall s1 s2, lower s1 = lower s2 -> status_color s1 = status_color s2)
  /\ (forall f, is_nan f = true ->
                status_color (str_value (VFloat f)) = DEFAULT_COLOR).
Proof.
  split; [|split; [|split; [|split]]].
  - intros Hc. unfold CaseService.colorize, copy.
    now rewrite (getitem_missing df "status" Hc).
  - intros status Hget. unfold CaseService.colorize, copy. rewrite Hget.
    cbn [bind]. eexists. split; [reflexivity|]. cbn [base color].
    split; [reflexivity|]. split; [|split].
    + intros c Hne. unfold getitem, drop_column. cbn [columns].
      now rewrite lookup_drop_other.
    + unfold str_lower, astype_str. now rewrite !length_map.
    + unfold str_lower, astype_str. rewrite !map_map.
      apply (Forall2_map_right (fun v => status_color (str_value v))).
  - apply status_color_cases.
  - intros s1 s2 Heq. unfold status_color. now rewrite Heq.
  - intros f Hnan. cbn [str_value]. rewrite Hnan. reflexivity.
Qed.

(** X13.  [tooltipify] reads name, country, region, status, targeted_group,
    perpetrators, start_date and last_verified in that order and raises
    [KeyError] naming the first one the table lacks.  Otherwise it returns
    the input with one column, tooltip, added or replaced: the cell of each
    row is the text assembled from that row's own eight fields, and every
    other column and the index are unchanged. *)
Theorem tooltipify_tooltips (df : DataFrame) :
  wf df ->
  match first_missing df TOOLTIP_COLS with
  | Some c => CaseService.tooltipify df = Raise (KeyError c)
  | None =>
      exists out,
        CaseService.tooltipify df = Ok out
        /\ index out = index df
        /\ getitem out "tooltip"
           = Ok (map (fun r => VStr (row_tooltip (snd r))) (iterrows df))
        /\ (forall c, String.eqb c "tooltip" = false ->
                      getitem out c = getitem df c)
        /\ wf out
  end.
Proof.
  intros Hwf. pose proof (tooltipify_key_error df) as Hrun.
  destruct (first_missing df TOOLTIP_COLS) as [c|]; [exact Hrun|].
  destruct Hrun as [out Hrun]. exists out. split; [exact Hrun|].
  rewrite (tooltipify_rows df out Hwf Hrun).
  split; [reflexivity|]. split; [apply getitem_setitem_same|]. split.
  - intros c Hne. now apply getitem_setitem_other.
  - unfold wf, setitem. cbn [index columns]. apply Forall_replace; [|exact Hwf].
    intros k. cbn [snd]. rewrite length_map. apply length_iterrows.
Qed.

(** X14.  The two tooltips of the repository agree: on a table where both
    run, the tooltip column that [tooltipify] writes holds, row by row, the
    [tooltip_html] of the [Case] that [to_cases] makes of that row. *)
Theorem tooltip_html_matches_tooltipify (df out : DataFrame)
    (cs : list Case.t) :
  wf df ->
  CaseService.tooltipify df = Ok out ->
  CSVRepository.to_cases df = Ok cs ->
  getitem out "tooltip" = Ok (map (fun c => VStr (Case.tooltip_html c)) cs).
Proof.
  intros Hwf Hrun Hcases. rewrite (tooltipify_rows df out Hwf Hrun).
  rewrite getitem_setitem_same. f_equal.
  unfold CSVRepository.to_cases in Hcases. apply mapM_Forall2 in Hcases.
  induction Hcases as [|item c rows cs' Hc _ IH]; simpl; [reflexivity|].
  rewrite IH. now rewrite (proj1 (case_tooltip _ _ Hc)).
Qed.

(** X15.  On a normalized table [to_cases] raises nothing: it yields one
    [Case] for each row, in row order, with the row's coordinates; and a
    record whose est_deaths is blank ([nan] after [normalize]) gets
    [est_deaths = nan], not [None]. *)
Theorem to_cases_after_normalize (df out : DataFrame) :
  wf df ->
  CaseService.normalize df = Ok out ->
  exists cs,
    CSVRepository.to_cases out = Ok cs
    /\ List.length cs = List.length (index df)
    /\ Forall2
         (fun item c =>
            exists x y e,
              get (snd item) "latitude" = Some (VFloat x)
              /\ get (snd item) "longitude" = Some (VFloat y)
              /\ get (snd item) "est_deaths" = Some (VFloat e)
              /\ Case.latitude c = x
              /\ Case.longitude c = y
              /\ (is_nan e = true -> Case.est_deaths c = Some e))
         (iterrows out) cs.
Proof.
  intros Hwf Hrun.
  destruct (normalize_shape df out Hrun) as (Hidx & _ & Hwfo).
  destruct (normalize_produces df out Hrun) as (_ & _ & [c3 H3] & _).
  assert (Hrow : forall item, In item (iterrows out) ->
            exists x y e,
              get (snd item) "latitude" = Some (VFloat x)
              /\ get (snd item) "longitude" = Some (VFloat y)
              /\ get (snd item) "est_deaths" = Some (VFloat e)).
  { intros item Hin.
    destruct (normalized_row_coordinates df out item Hwf Hrun Hin)
      as (x & y & Hx & Hy).
    destruct (row_cell_in_column out _ _ item (Hwfo Hwf) H3 Hin)
      as (v & Hv & Hvin).
    pose proof (to_numeric_floats c3) as F. rewrite Forall_forall in F.
    specialize (F _ Hvin). destruct v as [|e|?|?]; try discriminate.
    exists x, y, e. auto. }
  assert (Hcase : forall (item : Z * Series) x y e,
            get (snd item) "latitude" = Some (VFloat x) ->
            get (snd item) "longitude" = Some (VFloat y) ->
            get (snd item) "est_deaths" = Some (VFloat e) ->
            exists c, CSVRepository.case_of_row (snd item) = Ok c
                      /\ Case.latitude c = x /\ Case.longitude c = y
                      /\ (is_nan e = true -> Case.est_deaths c = Some e)).
  { intros item x y e Hx Hy He.
    unfold CSVRepository.case_of_row, get_default, get.
    unfold get in Hx, Hy, He. rewrite Hx, Hy, He. cbn [py_float bind str_value].
    destruct (is_nan e) eqn:Hnan.
    - assert (Hs : (strip "nan" =? "")%string = false) by reflexivity.
      rewrite Hs. cbn [negb bind]. eexists. repeat split.
    - destruct (negb (strip (repr_float e) =? "")%string); cbn [bind];
        eexists; repeat split; discriminate. }
  assert (Hall : forall item, In item (iterrows out) ->
            exists c, CSVRepository.case_of_row (snd item) = Ok c).
  { intros item Hin. destruct (Hrow item Hin) as (x & y & e & Hx & Hy & He).
    destruct (Hcase item x y e Hx Hy He) as (c & Hc & _). eauto. }
  destruct (mapM_all_ok (fun item => CSVRepository.case_of_row (snd item))
              (iterrows out) Hall) as (cs & Hcs & Hlen).
  exists cs. split; [exact Hcs|].
  split; [now rewrite Hlen, length_iterrows, Hidx|].
  apply mapM_Forall2 in Hcs.
  assert (Hgen : forall rows cs0,
            Forall2 (fun item c => CSVRepository.case_of_row (snd item) = Ok c)
                    rows cs0 ->
            (forall item, In item rows -> In item (iterrows out)) ->
            Forall2
              (fun item c =>
                 exists x y e,
                   get (snd item) "latitude" = Some (VFloat x)
                   /\ get (snd item) "longitude" = Some (VFloat y)
                   /\ get (snd item) "est_deaths" = Some (VFloat e)
                   /\ Case.latitude c = x
                   /\ Case.longitude c = y
                   /\ (is_nan e = true -> Case.est_deaths c = Some e))
              rows cs0).
  { intros rows cs0 Hall2. induction Hall2 as [|item c rows' cs' Hc _ IH];
      intros Hin; constructor.
    - destruct (Hrow item (Hin item (or_introl eq_refl)))
        as (x & y & e & Hx & Hy & He).
      destruct (Hcase item x y e Hx Hy He) as (c' & Hc' & Hlat & Hlon & Hest).
      rewrite Hc in Hc'. apply Ok_inj in Hc'. subst c'.
      exists x, y, e. auto 10.
    - apply IH. intros item' Hin'. apply Hin. now right. }
  apply Hgen; auto.
Qed.

End PresentationExtras.

Lemma tooltipify_tooltips_witness :
  wf polar_text
  /\ exists out,
       CaseService.tooltipify (H := Reference.pandas) polar_text
       = Raise (KeyError "country")
       /\ CaseService.tooltipify (H := Reference.pandas) dated_cases = Ok out
       /\ index out = [0; 1; 2]%Z.
Proof.
  assert (Hwf : wf polar_text) by (unfold wf, polar_text; simpl; repeat constructor).
  split; [exact Hwf|].
  pose proof (@tooltipify_tooltips Reference.pandas polar_text Hwf) as Hmissing.
  destruct (@tooltipify_tooltips Reference.pandas dated_cases wf_dated_cases)
    as (out & Hrun & Hidx & _).
  exists out. split; [exact Hmissing|]. split; [exact Hrun | exact Hidx].
Defined.

Lemma tooltip_html_matches_tooltipify_witness :
  wf dated_cases
  /\ exists out cs,
       CaseService.tooltipify (H := Reference.pandas) dated_cases = Ok out
       /\ CSVRepository.to_cases (H := Reference.pandas) dated_cases = Ok cs
       /\ getitem out "tooltip"
          = Ok (map (fun c => VStr (Case.tooltip_html c)) cs)
       /\ List.length cs = 3%nat.
Proof.
  split; [exact wf_dated_cases|].
  destruct (CaseService.tooltipify (H := Reference.pandas) dated_cases)
    as [out|e] eqn:Hrun; [|discriminate].
  destruct (CSVRepository.to_cases (H := Reference.pandas) dated_cases)
    as [cs|e] eqn:Hcs; [|discriminate].
  exists out, cs. split; [reflexivity|]. split; [reflexivity|].
  split; [exact (@tooltip_html_matches_tooltipify Reference.pandas dated_cases
                   out cs wf_dated_cases Hrun Hcs)|].
  apply Ok_inj in Hcs. subst cs. reflexivity.
Defined.

Lemma to_cases_after_normalize_witness :
  wf cases
  /\ exists out cs,
       CaseService.normalize (H := Reference.pandas) cases = Ok out
       /\ CSVRepository.to_cases (H := Reference.pandas) out = Ok cs
       /\ map Case.est_deaths cs = [Some 1200; Some nan; Some 15; Some nan]%float
       /\ CSVRepository.to_cases (H := Reference.pandas) raw_text_latitude
          = Raise (ValueError "could not convert string to float").
Proof.
  split; [exact wf_cases|].
  destruct (CaseService.normalize (H := Reference.pandas) cases)
    as [out|e] eqn:Hrun; [|discriminate].
  destruct (@to_cases_after_normalize Reference.pandas cases out wf_cases Hrun)
    as (cs & Hcs & _).
  exists out, cs. split; [reflexivity|]. split; [exact Hcs|].
  apply Ok_inj in Hrun. subst out. vm_compute in Hcs. apply Ok_inj in Hcs.
  subst cs. split; reflexivity.
Defined.

(* ===================================================================== *)
(** ** [View.sources_panel] *)
(* ===================================================================== *)

Lemma lstrip_idempotent (s : string) : lstrip (lstrip s) = lstrip s.
Proof.
  induction s as [|a s IH]; simpl; [reflexivity|].
  destruct (is_space a) eqn:E; [exact IH|]. simpl. now rewrite E.
Qed.

Lemma rstrip_idempotent (s : string) : rstrip (rstrip s) = rstrip s.
Proof.
  induction s as [|a s IH]; [reflexivity|]. cbn [rstrip].
  destruct (rstrip s) as [|b r] eqn:Hr.
  - destruct (is_space a) eqn:E; cbn [rstrip]; [reflexivity | now rewrite E].
  - remember (String b r) as t eqn:Ht. cbn [rstrip]. rewrite IH.
    subst t. reflexivity.
Qed.

Lemma rstrip_lstrip_fixed (t : string) :
  rstrip t = t -> rstrip (lstrip t) = lstrip t.
Proof.
  induction t as [|a t IH]; simpl; [reflexivity|].
  intros Hfix. destruct (is_space a) eqn:E.
  - apply IH. destruct (rstrip t) as [|b r] eqn:Hr.
    + discriminate.
    + now injection Hfix.
  - simpl. rewrite E. exact Hfix.
Qed.

Lemma strip_idempotent (s : string) : strip (strip s) = strip s.
Proof.
  unfold strip.
  rewrite (rstrip_lstrip_fixed (rstrip s) (rstrip_idempotent s)).
  apply lstrip_idempotent.
Qed.

Lemma rstrip_empty (s : string) : rstrip s = "" -> all_space s = true.
Proof.
  induction s as [|a s IH]; simpl; [reflexivity|].
  destruct (rstrip s) as [|b r]; [|discriminate].
  destruct (is_space a); [|discriminate]. intros _. now rewrite IH.
Qed.

Lemma lstrip_empty (s : string) : lstrip s = "" -> all_space s = true.
Proof.
  induction s as [|a s IH]; simpl; [reflexivity|].
  destruct (is_space a); [|discriminate]. exact IH.
Qed.

Lemma strip_empty (s : string) : strip s = "" <-> all_space s = true.
Proof.
  split; [|apply strip_all_space].
  unfold strip. intros Hs. apply lstrip_empty in Hs.
  apply rstrip_all_space in Hs. rewrite rstrip_idempotent in Hs.
  now apply rstrip_empty.
Qed.




Lemma source_links_blank (sources : string) :
  all_space sources = true -> View.source_links sources = [].
Proof.
  intros Hblank. unfold View.source_links.
  assert (Hall : Forall (fun piece => all_space piece = true) (split ";" sources)).
  { clear -Hblank. induction sources as [|a s IH]; simpl.
    - repeat constructor.
    - simpl in Hblank. apply andb_true_iff in Hblank. destruct Hblank as [Ha Hs].
      specialize (IH Hs).
      destruct (Ascii.eqb a ";"); [constructor; [reflexivity | exact IH]|].
      destruct (split ";" s) as [|piece rest];
        [repeat constructor; simpl; now rewrite Ha|].
      inversion IH; subst. constructor; [|assumption]. simpl.
      now rewrite Ha. }
  induction Hall as [|piece rest Hp _ IH]; [reflexivity|].
  cbn [flat_map]. rewrite IH, (strip_all_space piece Hp). reflexivity.
Qed.

Lemma source_links_markdown (sources : string) (e : View.element) :
  In e (View.source_links sources) -> exists text, e = View.Markdown text.
Proof.
  unfold View.source_links. intros Hin. apply in_flat_map in Hin.
  destruct Hin as (piece & _ & He).
  destruct (negb (str_truthy (strip piece))); [contradiction|].
  destruct He as [<-|[]]. eauto.
Qed.

Section SourcesExtras.
Context {P : Pandas}.


End SourcesExtras.

Lemma has_column_row (df : DataFrame) (c : string) (item : Z * Series) :
  wf df -> has_column df c = true -> In item (iterrows df) ->
  exists v, get (snd item) c = Some v.
Proof.
  intros Hwf Hc Hin. apply has_column_getitem in Hc. destruct Hc as [col Hget].
  destruct (row_cell_in_column df c col item Hwf Hget Hin) as (v & Hv & _).
  eauto.
Qed.

Lemma first_row_lacks (df : DataFrame) (c : string) :
  has_column df c = false ->
  forall item, In item (iterrows df) -> get (snd item) c = None.
Proof.
  unfold has_column, column_names, iterrows, get. intros Hc.
  assert (Hgen : forall idx cols item,
            str_in c (map fst cols) = false ->
            In item (rows_of idx cols) -> lookup c (snd item) = None).
  { induction idx as [|i idx IH]; intros cols item Hnone Hin; simpl in Hin;
      [contradiction|].
    destruct Hin as [<-|Hin].
    - simpl. unfold heads. rewrite lookup_map_snd.
      destruct (lookup c cols) eqn:Hl; [|reflexivity].
      assert (str_in c (map fst cols) = true) by (apply str_in_lookup; eauto).
      congruence.
    - apply (IH (tails cols)); [|exact Hin].
      unfold tails. rewrite map_map. simpl. exact Hnone. }
  intros item Hin. eapply Hgen; eassumption.
Qed.

Section PanelExtras.
Context {P : Pandas}.

(** X17.  [sources_panel] on a table without rows writes the one notice
    "No cases match the current filters."; on a table with rows it needs the
    name column ([KeyError('name')] without it) and writes one expander for
    each row, in row order, titled with the row's name.  In the expander of
    a row whose sources cell is absent ([nan]) the first line is the link
    "- [nan](nan)"; a row whose sources text is blank gets no link; the
    summary is written exactly when its text is not blank. *)
Theorem sources_panel_expanders (df : DataFrame) :
  (empty df = true ->
   View.sources_panel df
   = Ok [View.Info "No cases match the current filters."])
  /\ (empty df = false -> has_column df "name" = false ->
      View.sources_panel df = Raise (KeyError "name"))
  /\ (empty df = false -> has_column df "name" = true -> wf df ->
      exists ws,
        View.sources_panel df = Ok ws
        /\ List.length ws = List.length (index df)
        /\ Forall2
             (fun item w =>
                exists name body,
                  get (snd item) "name" = Some name
                  /\ w = View.Expander
                           (str_value name ++ " " ++ EM_DASH ++ " Sources")%string
                           body
                  /\ (forall f, get (snd item) "sources" = Some (VFloat f) ->
                                is_nan f = true ->
                                exists rest,
                                  body = View.Markdown "- [nan](nan)" :: rest)
                  /\ (all_space (field_text (snd item) "sources") = true ->
                      forall text, ~ In (View.Markdown text) body)
                  /\ (In (View.Write (get_default (snd item) "summary" (VStr "")))
                         body <->
                      all_space (field_text (snd item) "summary") = false))
             (iterrows df) ws).
Proof.
  unfold View.sources_panel. split; [|split].
  - now intros ->.
  - intros Hne Hname. rewrite Hne.
    pose proof (first_row_lacks df "name" Hname) as Hrows.
    unfold empty in Hne. unfold iterrows in *.
    destruct (index df) as [|i idx]; [discriminate|].
    pose proof (Hrows (i, heads (columns df)) (or_introl eq_refl)) as Hr.
    cbn [snd] in Hr. cbn [rows_of mapM snd]. rewrite Hr. reflexivity.
  - intros Hne Hname Hwf. rewrite Hne.
    set (body_of := fun item : Z * Series =>
           let row := snd item in
           name <- match get row "name" with
                   | Some v => Ok v
                   | None => Raise (KeyError "name")
                   end ;;
           let links :=
             View.source_links (str_value (get_default row "sources" (VStr ""))) in
           let summary :=
             if str_truthy (strip (str_value (get_default row "summary" (VStr ""))))
             then [View.Write (get_default row "summary" (VStr ""))]
             else [] in
           Ok (View.Expander (str_value name ++ " " ++ EM_DASH ++ " Sources")%string
                             (links ++ summary))).
    assert (Hall : forall item, In item (iterrows df) ->
              exists w, body_of item = Ok w).
    { intros item Hin.
      destruct (has_column_row df "name" item Hwf Hname Hin) as [v Hv].
      unfold body_of. cbv zeta. rewrite Hv. cbn [bind]. eauto. }
    destruct (mapM_all_ok body_of (iterrows df) Hall) as (ws & Hws & Hlen).
    exists ws. split; [exact Hws|].
    split; [now rewrite Hlen, length_iterrows|].
    apply mapM_Forall2 in Hws.
    eapply Forall2_impl; [|exact Hws].
    intros item w Hw. unfold body_of in Hw. cbv zeta in Hw.
    destruct (get (snd item) "name") as [name|] eqn:Hn; cbn [bind] in Hw;
      [|discriminate].
    apply Ok_inj in Hw. subst w. exists name. eexists.
    split; [reflexivity|]. split; [reflexivity|]. split; [|split].
    + intros f Hsrc Hnan. unfold get_default. unfold get in Hsrc.
      rewrite Hsrc. cbn [str_value]. rewrite Hnan. eexists. reflexivity.
    + intros Hblank text Hin. apply in_app_or in Hin.
      unfold field_text in Hblank.
      rewrite (source_links_blank _ Hblank) in Hin.
      destruct Hin as [[]|Hin].
      destruct (str_truthy _) in Hin; [|contradiction].
      destruct Hin as [Hin|[]]. discriminate.
    + unfold field_text. rewrite in_app_iff. split.
      * intros [Hin|Hin].
        -- apply source_links_markdown in Hin. destruct Hin as [t Ht].
           discriminate.
        -- destruct (str_truthy (strip _)) eqn:Ht in Hin; [|contradiction].
           destruct (all_space _) eqn:Hsp; [|reflexivity].
           apply strip_all_space in Hsp. rewrite Hsp in Ht. discriminate.
      * intros Hsp. right.
        destruct (str_truthy (strip _)) eqn:Ht; [now left|].
        apply str_truthy_false, strip_empty in Ht. congruence.
Qed.

End PanelExtras.

(* ===================================================================== *)
(** ** The sidebar options and the first view *)
(* ===================================================================== *)

Lemma insert_sorted_In (x y : string) (l : list string) :
  In y (insert_sorted x l) <-> y = x \/ In y l.
Proof.
  induction l as [|z l IH]; simpl; [intuition|].
  destruct (String.leb x z); simpl; [intuition|].
  rewrite IH. intuition.
Qed.

Lemma sorted_In (y : string) (l : list string) : In y (sorted l) <-> In y l.
Proof.
  induction l as [|x l IH]; simpl; [reflexivity|].
  rewrite insert_sorted_In, IH. intuition.
Qed.

Lemma insert_sorted_ascending (x : string) (l : list string) :
  ascending l -> ascending (insert_sorted x l).
Proof.
  induction l as [|z l IH]; simpl; [auto|].
  intros [Hhd Htl]. destruct (String.leb x z) eqn:E.
  - simpl. auto.
  - assert (Hzx : String.leb z x = true)
      by (destruct (String.leb_total x z); congruence).
    specialize (IH Htl). split; [|exact IH].
    destruct l as [|w l]; simpl; [exact Hzx|].
    destruct (String.leb x w); [exact Hzx | exact Hhd].
Qed.

Lemma sorted_ascending (l : list string) : ascending (sorted l).
Proof.
  induction l as [|x l IH]; simpl; [exact I|].
  now apply insert_sorted_ascending.
Qed.

Lemma insert_sorted_NoDup (x : string) (l : list string) :
  ~ In x l -> NoDup l -> NoDup (insert_sorted x l).
Proof.
  induction l as [|z l IH]; simpl; intros Hnot Hnd.
  - repeat constructor. auto.
  - destruct (String.leb x z).
    + constructor; [simpl; exact Hnot | exact Hnd].
    + inversion Hnd as [|? ? Hz Hnd']; subst. constructor.
      * rewrite insert_sorted_In. intros [->|Hin]; [|contradiction].
        apply Hnot. now left.
      * apply IH; [|exact Hnd']. intro Hin. apply Hnot. now right.
Qed.

Lemma sorted_NoDup (l : list string) : NoDup l -> NoDup (sorted l).
Proof.
  induction l as [|x l IH]; simpl; intros Hnd; [constructor|].
  inversion Hnd; subst. apply insert_sorted_NoDup; [|auto].
  now rewrite sorted_In.
Qed.

Lemma unique_In (y : string) (l : list string) : In y (unique l) <-> In y l.
Proof.
  induction l as [|x l IH]; simpl; [reflexivity|].
  rewrite filter_In, IH. destruct (String.eqb_spec y x) as [->|Hne]; simpl.
  - intuition.
  - intuition congruence.
Qed.

Lemma unique_NoDup (l : list string) : NoDup (unique l).
Proof.
  induction l as [|x l IH]; simpl; constructor.
  - rewrite filter_In. intros [_ Hx]. now rewrite String.eqb_refl in Hx.
  - now apply NoDup_filter.
Qed.

Section OptionsFacts.
Context {P : Pandas}.

Lemma options_of_spec (col : list value) :
  ascending (options_of col)
  /\ NoDup (options_of col)
  /\ (forall s, In s (options_of col) <-> offered col s).
Proof.
  unfold options_of. split; [apply sorted_ascending|]. split.
  - apply sorted_NoDup, NoDup_filter, unique_NoDup.
  - intros s. rewrite sorted_In, filter_In, unique_In.
    unfold astype_str, series_dropna, offered. rewrite in_map_iff. split.
    + intros [(v & Hv & Hin) Hs]. apply filter_In in Hin. split.
      * intros ->. discriminate.
      * exists v. tauto.
    + intros [Hs (v & Hin & Hna & Hv)]. split.
      * exists v. split; [exact Hv|]. apply filter_In. tauto.
      * destruct s; [congruence | reflexivity].
Qed.

End OptionsFacts.

Section OptionsExtras.
Context {P : Pandas}.

(** X18.  The options of the two sidebar selects: [regions] and [statuses]
    raise [KeyError] without their column; otherwise each returns the texts
    of the column's present cells, without the empty text, each once and in
    ascending order.  A missing cell ([nan]) offers nothing. *)
Theorem sidebar_options (df : DataFrame) :
  (has_column df "region" = false -> regions df = Raise (KeyError "region"))
  /\ (has_column df "status" = false -> statuses df = Raise (KeyError "status"))
  /\ (forall col, getitem df "region" = Ok col ->
        exists opts,
          regions df = Ok opts
          /\ ascending opts /\ NoDup opts
          /\ forall s, In s opts <-> offered col s)
  /\ (forall col, getitem df "status" = Ok col ->
        exists opts,
          statuses df = Ok opts
          /\ ascending opts /\ NoDup opts
          /\ forall s, In s opts <-> offered col s).
Proof.
  unfold regions, statuses. repeat split.
  - intros Hc. now rewrite (getitem_missing df _ Hc).
  - intros Hc. now rewrite (getitem_missing df _ Hc).
  - intros col ->. cbn [bind]. eexists. split; [reflexivity|].
    apply options_of_spec.
  - intros col ->. cbn [bind]. eexists. split; [reflexivity|].
    apply options_of_spec.
Qed.

End OptionsExtras.

Section FirstView.
Context {P : Pandas}.

(** The years pandas reads in a column of dates and [NaT]. *)
Lemma typed_years (sd : list value) :
  Forall (fun v => is_date_cell v = true) sd ->
  (forall d, In (VDate d) sd -> In (Some (year d)) (dt_year (to_datetime sd)))
  /\ (forall y, In (Some y) (dt_year (to_datetime sd)) ->
                exists d, In (VDate d) sd /\ year d = y).
Proof.
  intros Htyped. unfold dt_year, to_datetime. rewrite map_map. split.
  - intros d Hin. apply in_map_iff. exists (VDate d). split; [reflexivity | exact Hin].
  - intros y Hin. apply in_map_iff in Hin. destruct Hin as (v & Hv & Hin).
    rewrite Forall_forall in Htyped. specialize (Htyped v Hin).
    destruct v as [|f|s|d]; try discriminate.
    exists d. split; [exact Hin|]. simpl in Hv. congruence.
Qed.

Lemma offered_passes (c : string) (opts : list string) (col : list value)
    (row : Series) (v : value) :
  (forall s, In s opts <-> offered col s) ->
  In v col -> get row c = Some v ->
  notna_cell v = true -> str_value v <> "" ->
  member_or_all c opts row = true.
Proof.
  intros Hopts Hin Hget Hna Hne. unfold member_or_all.
  destruct opts as [|o opts]; [reflexivity|].
  rewrite Hget. cbn [option_map]. apply str_in_In. apply Hopts.
  split; [exact Hne|]. exists v. auto.
Qed.

(** The rows [filter] returns for the offered regions and statuses. *)
Lemma offered_filter_rows (df : DataFrame) (rcol scol sd : list value)
    (a b : Z) :
  wf df ->
  getitem df "region" = Ok rcol ->
  getitem df "status" = Ok scol ->
  getitem df "start_date" = Ok sd ->
  Forall (fun v => is_date_cell v = true) sd ->
  exists out,
    CaseService.filter df (options_of rcol) (options_of scol) a b = Ok out
    /\ (forall item d r s, In item (iterrows df) ->
          get (snd item) "start_date" = Some (VDate d) ->
          (a <= year d <= b)%Z ->
          get (snd item) "region" = Some r ->
          notna_cell r = true -> str_value r <> "" ->
          get (snd item) "status" = Some s ->
          notna_cell s = true -> str_value s <> "" ->
          In item (iterrows out))
    /\ (forall item, In item (iterrows out) ->
          In item (iterrows df)
          /\ exists d, get (snd item) "start_date" = Some (VDate d)
                       /\ (a <= year d <= b)%Z).
Proof.
  intros Hwf Hrcol Hscol Hsd Htyped.
  destruct (options_of_spec rcol) as (_ & _ & Hropts).
  destruct (options_of_spec scol) as (_ & _ & Hsopts).
  assert (Hreg : has_column df "region" = true)
    by (apply has_column_getitem; eauto).
  assert (Hsta : has_column df "status" = true)
    by (apply has_column_getitem; eauto).
  assert (Hsdcol : has_column df "start_date" = true)
    by (apply has_column_getitem; eauto).
  destruct (filter_rows df (options_of rcol) (options_of scol) a b
              Hwf Hreg Hsta Hsdcol) as (out & Hrun & _ & Hrows).
  exists out. split; [exact Hrun|]. split.
  - intros item d r s Hin Hdate Hyear Hr Hrna Hrne Hs Hsna Hsne.
    rewrite Hrows. apply filter_In. split; [exact Hin|].
    unfold passes. rewrite !andb_true_iff. split; [split|].
    + destruct (row_cell_in_column df "region" rcol item Hwf Hrcol Hin)
        as (v & Hv & Hvin).
      rewrite Hr in Hv. injection Hv as <-.
      exact (offered_passes "region" _ rcol (snd item) r Hropts Hvin Hr Hrna Hrne).
    + destruct (row_cell_in_column df "status" scol item Hwf Hscol Hin)
        as (v & Hv & Hvin).
      rewrite Hs in Hv. injection Hv as <-.
      exact (offered_passes "status" _ scol (snd item) s Hsopts Hvin Hs Hsna Hsne).
    + unfold passes_year, start_year. rewrite Hdate. cbn.
      apply andb_true_iff. rewrite !Z.leb_le. lia.
  - intros item Hin. rewrite Hrows in Hin. apply filter_In in Hin.
    destruct Hin as [Hin Hpass]. split; [exact Hin|].
    unfold passes in Hpass. rewrite !andb_true_iff in Hpass.
    destruct Hpass as [_ Hyear]. unfold passes_year, start_year in Hyear.
    destruct (row_cell_in_column df "start_date" sd item Hwf Hsd Hin)
      as (v & Hv & Hvin).
    rewrite Hv in Hyear. rewrite Forall_forall in Htyped.
    specialize (Htyped v Hvin).
    destruct v as [|f|t|d]; try discriminate.
    exists d. split; [exact Hv|]. cbn in Hyear.
    apply andb_true_iff in Hyear. rewrite !Z.leb_le in Hyear. lia.
Qed.

(** X19.  The first view, with the sidebar untouched, on a normalized table
    (start dates are dates or [NaT]) that has rows.  If no row has a start
    date the script raises on [int(nan)].  Otherwise, with [lo] and [hi] the
    smallest and the largest start year, the slider is given
    [max(1900, lo)] and [hi]: when the two are equal (every dated record is
    from one year from 1900 on, or the latest is from 1900) [st.slider]
    refuses them and the script raises; when every record is from before
    1900 the slider swaps them and the view shows the years [hi..1900];
    otherwise it shows the years [max(1900, lo)..hi].  The rows shown are
    rows of the table with a start date in those years, and every such row
    with a region and a status (present and not empty) is shown. *)
Theorem first_view_rows (df : DataFrame) (sd : list value) :
  wf df ->
  has_column df "region" = true ->
  has_column df "status" = true ->
  getitem df "start_date" = Ok sd ->
  Forall (fun v => is_date_cell v = true) sd ->
  empty df = false ->
  match series_min (dt_year (to_datetime sd)),
        series_max (dt_year (to_datetime sd)) with
  | Some lo, Some hi =>
      (exists d, In (VDate d) sd /\ year d = lo)
      /\ (exists d, In (VDate d) sd /\ year d = hi)
      /\ (forall d, In (VDate d) sd -> (lo <= year d <= hi)%Z)
      /\ if (Z.max 1900 lo =? hi)%Z
         then exists msg, first_view df = Raise (StreamlitAPIException msg)
         else
           exists out,
             first_view df = Ok out
             /\ (forall item d r s, In item (iterrows df) ->
                   get (snd item) "start_date" = Some (VDate d) ->
                   (fst (first_years lo hi) <= year d
                    <= snd (first_years lo hi))%Z ->
                   get (snd item) "region" = Some r ->
                   notna_cell r = true -> str_value r <> "" ->
                   get (snd item) "status" = Some s ->
                   notna_cell s = true -> str_value s <> "" ->
                   In item (iterrows out))
             /\ (forall item, In item (iterrows out) ->
                   In item (iterrows df)
                   /\ exists d, get (snd item) "start_date" = Some (VDate d)
                                /\ (fst (first_years lo hi) <= year d
                                    <= snd (first_years lo hi))%Z)
  | _, _ =>
      (forall d, ~ In (VDate d) sd)
      /\ exists msg, first_view df = Raise (ValueError msg)
  end.
Proof.
  intros Hwf Hreg Hsta Hsd Htyped Hne.
  destruct (typed_years sd Htyped) as [Hyear_in Hyear_of].
  pose proof (proj1 (has_column_getitem df "region") Hreg) as [rcol Hrcol].
  pose proof (proj1 (has_column_getitem df "status") Hsta) as [scol Hscol].
  assert (Hregions : regions df = Ok (options_of rcol))
    by (unfold regions; rewrite Hrcol; reflexivity).
  assert (Hstatuses : statuses df = Ok (options_of scol))
    by (unfold statuses; rewrite Hscol; reflexivity).
  assert (Hmin : yr_min df = int_ (series_min (dt_year (to_datetime sd))))
    by (unfold yr_min; rewrite Hne, Hsd; reflexivity).
  assert (Hmax : yr_max df = int_ (series_max (dt_year (to_datetime sd))))
    by (unfold yr_max; rewrite Hne, Hsd; reflexivity).
  pose proof (series_min_spec (dt_year (to_datetime sd)) None) as Hlo.
  pose proof (series_max_spec (dt_year (to_datetime sd)) None) as Hhi.
  fold (series_min (dt_year (to_datetime sd))) in Hlo.
  fold (series_max (dt_year (to_datetime sd))) in Hhi.
  unfold first_view. rewrite Hregions, Hstatuses, Hmin, Hmax. cbn [bind].
  destruct (series_min (dt_year (to_datetime sd))) as [lo|].
  - destruct Hlo as ([Hl|Hl] & _ & Hlow); [discriminate|].
    destruct (series_max (dt_year (to_datetime sd))) as [hi|];
      [|destruct Hhi as [_ Hn]; now apply Hn in Hl].
    destruct Hhi as ([Hh|Hh] & _ & Hupp); [discriminate|].
    pose proof (Hlow _ Hh) as Hle.
    split; [exact (Hyear_of lo Hl)|]. split; [exact (Hyear_of hi Hh)|].
    split.
    { intros d Hd. pose proof (Hyear_in d Hd) as Hy.
      split; [exact (Hlow _ Hy) | exact (Hupp _ Hy)]. }
    cbn [int_ bind]. unfold View.sidebar_filters, View.slider_bounds.
    replace (Z.max hi lo) with hi by lia. unfold View.slider.
    destruct (Z.max 1900 lo =? hi)%Z eqn:Heq; cbn [bind]; [eauto|].
    apply Z.eqb_neq in Heq. unfold first_years.
    destruct (hi <? Z.max 1900 lo)%Z eqn:Hrev; cbn [bind].
    + apply Z.ltb_lt in Hrev.
      assert (Hold : (hi <? 1900)%Z = true) by (apply Z.ltb_lt; lia).
      rewrite Hold. cbn [fst snd].
      replace (Z.max 1900 lo) with 1900%Z by lia.
      exact (offered_filter_rows df rcol scol sd hi 1900%Z
               Hwf Hrcol Hscol Hsd Htyped).
    + apply Z.ltb_ge in Hrev.
      assert (Hnew : (hi <? 1900)%Z = false) by (apply Z.ltb_ge; lia).
      rewrite Hnew. cbn [fst snd].
      exact (offered_filter_rows df rcol scol sd (Z.max 1900 lo) hi
               Hwf Hrcol Hscol Hsd Htyped).
  - destruct Hlo as [_ Hnone]. split.
    + intros d Hd. exact (Hnone _ (Hyear_in d Hd)).
    + cbn [int_ bind]. eauto.
Qed.

End FirstView.

Lemma wf_single_case : wf single_case.
Proof. unfold wf, single_case, cases. simpl. repeat constructor. Qed.

Lemma first_view_rows_witness :
  exists df,
    CaseService.normalize (H := Reference.pandas) single_case = Ok df
    /\ wf df
    /\ index df = [0]%Z
    /\ first_view (H := Reference.pandas) df
       = Raise (StreamlitAPIException
                  "Slider `min_value` must be less than the `max_value`.").
Proof.
  destruct (CaseService.normalize (H := Reference.pandas) single_case)
    as [df|e] eqn:Hrun; [|discriminate].
  vm_compute in Hrun. apply Ok_inj in Hrun. subst df.
  match goal with
  | |- exists df, Ok ?d = _ /\ _ =>
      exists d;
      assert (Hwf : wf d) by (unfold wf; simpl; repeat constructor);
      destruct (getitem d "start_date") as [sd|e] eqn:Hsd; [|discriminate];
      vm_compute in Hsd; apply Ok_inj in Hsd; subst sd;
      pose proof (@first_view_rows Reference.pandas d _ Hwf eq_refl eq_refl
                    eq_refl ltac:(repeat constructor) eq_refl) as Hview
  end.
  cbn in Hview. destruct Hview as (_ & _ & _ & msg & Hview).
  split; [reflexivity|]. split; [exact Hwf|]. split; [reflexivity|].
  rewrite Hview. vm_compute in Hview. injection Hview as <-. reflexivity.
Defined.

(* ===================================================================== *)
(** ** The deck and its layers *)
(* ===================================================================== *)

(** X20.  The deck the script charts: the OpenStreetMap tile layer comes
    first and only when there is no Mapbox token ([None] and the empty string
    alike), then the scatterplot layer, then the text layer only when labels
    are asked for and the map frame is not empty.  The map style and the
    Mapbox key are set exactly when there is a token, and every layer other
    than the tiles draws the map frame that was passed. *)
Theorem final_deck_layers (map_token : option string) (df_map : DataFrame)
    (show_labels : bool) :
  let token := MapBuilder.mapbox_token (MapBuilder.__init__ map_token) in
  let d := final_deck map_token df_map show_labels in
  (token = "" <-> map_token = None \/ map_token = Some "")
  /\ map MapBuilder.layer_type (MapBuilder.layers d)
     = (if str_truthy token then [] else ["TileLayer"])
       ++ ["ScatterplotLayer"]
       ++ (if (show_labels && negb (empty df_map))%bool
           then ["TextLayer"] else [])
  /\ (MapBuilder.map_style d = None <-> token = "")
  /\ MapBuilder.mapbox_api_key d
     = (if str_truthy token then Some token else None)
  /\ (forall l, In l (MapBuilder.layers d) ->
        MapBuilder.data l = MapBuilder.Frame df_map
        \/ MapBuilder.layer_type l = "TileLayer").
Proof.
  unfold final_deck, MapBuilder.build_layers, MapBuilder.deck,
    MapBuilder.__init__.
  destruct map_token as [[|a t]|], show_labels, (empty df_map);
    cbn; (split; [split; [intros E; try discriminate E; auto
                         | intros [E|E]; try discriminate E; reflexivity]|]);
    (split; [reflexivity|]);
    (split; [split; intros E; try discriminate E; reflexivity|]);
    (split; [reflexivity|]);
    intros l Hin; repeat (destruct Hin as [<-|Hin]; [cbn; auto|]);
    contradiction.
Qed.

(* ===================================================================== *)
(** ** [CSVRepository.load]: the header row *)
(* ===================================================================== *)

Lemma is_space_lower_char (a : ascii) : is_space (lower_char a) = is_space a.
Proof. destruct a as [[] [] [] [] [] [] [] []]; reflexivity. Qed.

Lemma lower_char_idempotent (a : ascii) :
  lower_char (lower_char a) = lower_char a.
Proof. destruct a as [[] [] [] [] [] [] [] []]; reflexivity. Qed.

Lemma lower_idempotent (s : string) : lower (lower s) = lower s.
Proof.
  induction s as [|a s IH]; simpl; [reflexivity|].
  now rewrite lower_char_idempotent, IH.
Qed.

Lemma lstrip_lower (s : string) : lstrip (lower s) = lower (lstrip s).
Proof.
  induction s as [|a s IH]; simpl; [reflexivity|].
  rewrite is_space_lower_char. now destruct (is_space a).
Qed.

Lemma rstrip_lower (s : string) : rstrip (lower s) = lower (rstrip s).
Proof.
  induction s as [|a s IH]; simpl; [reflexivity|].
  rewrite IH. destruct (rstrip s) as [|b r]; simpl; [|reflexivity].
  rewrite is_space_lower_char. now destruct (is_space a).
Qed.

Lemma strip_lower (s : string) : strip (lower s) = lower (strip s).
Proof. unfold strip. now rewrite rstrip_lower, lstrip_lower. Qed.

(** A header that [load] wrote is left as it is by [strip] and by [lower]. *)
Lemma header_settled (h : string) :
  strip (lower (strip h)) = lower (strip h)
  /\ lower (lower (strip h)) = lower (strip h).
Proof.
  split; [|apply lower_idempotent].
  now rewrite strip_lower, strip_idempotent.
Qed.

Lemma column_names_rename (raw : DataFrame) :
  column_names (CSVRepository.rename_columns raw)
  = map (fun h => lower (strip h)) (column_names raw).
Proof.
  unfold column_names, CSVRepository.rename_columns. simpl.
  rewrite !map_map. reflexivity.
Qed.

Lemma rename_columns_settled (raw : DataFrame) :
  CSVRepository.rename_columns (CSVRepository.rename_columns raw)
  = CSVRepository.rename_columns raw.
Proof.
  unfold CSVRepository.rename_columns. simpl. f_equal.
  rewrite map_map. apply map_ext. intros [h col]. simpl.
  now rewrite (proj1 (header_settled h)), lower_idempotent.
Qed.

(** X21.  A table that [load] returns is the table [pd.read_csv] read from
    the selected path, with the same index and the same cells; each header
    is the file's header trimmed and in lower case, so loading it again
    would change nothing, and [validate] reports a required column as
    missing exactly when no header of the file, trimmed and lower-cased,
    equals it. *)
Theorem load_headers (self : CSVRepository.t) (fs : FileSystem)
    (df : DataFrame) :
  CSVRepository.load self fs = Ok (Some df) ->
  exists path raw,
    CSVRepository._path self fs = Some path
    /\ fs path = Csv raw
    /\ index df = index raw
    /\ map snd (columns df) = map snd (columns raw)
    /\ column_names df = map (fun h => lower (strip h)) (column_names raw)
    /\ Forall (fun h => strip h = h /\ lower h = h) (column_names df)
    /\ CSVRepository.rename_columns df = df
    /\ (forall c, In c (CSVRepository.validate df) <->
          In c REQUIRED_COLS
          /\ forall h, In h (column_names raw) -> lower (strip h) <> c).
Proof.
  unfold CSVRepository.load, read_csv. intros Hrun.
  destruct (CSVRepository._path self fs) as [path|]; [|discriminate].
  destruct (fs path) as [|e|raw] eqn:Hfile; cbn [bind] in Hrun;
    try discriminate.
  apply Ok_inj in Hrun. injection Hrun as <-.
  exists path, raw. split; [reflexivity|]. split; [exact Hfile|].
  split; [reflexivity|].
  split; [unfold CSVRepository.rename_columns; simpl; now rewrite map_map|].
  split; [apply column_names_rename|].
  split.
  - rewrite column_names_rename. apply Forall_forall. intros h Hin.
    apply in_map_iff in Hin. destruct Hin as (h0 & <- & _).
    apply header_settled.
  - split; [apply rename_columns_settled|].
    intros c. unfold CSVRepository.validate. rewrite filter_In.
    unfold has_column. rewrite column_names_rename. split.
    + intros [Hreq Hmiss]. split; [exact Hreq|]. intros h Hin Heq.
      apply negb_true_iff in Hmiss.
      assert (Hc : str_in c (map (fun h => lower (strip h)) (column_names raw))
                   = true)
        by (apply str_in_In; apply in_map_iff; eauto).
      congruence.
    + intros [Hreq Hnone]. split; [exact Hreq|]. apply negb_true_iff.
      destruct (str_in c (map (fun h => lower (strip h)) (column_names raw)))
        eqn:Hc; [|reflexivity].
      apply str_in_In in Hc. apply in_map_iff in Hc.
      destruct Hc as (h & Heq & Hin). now apply Hnone in Hin.
Qed.

Lemma load_headers_witness :
  exists df,
    CSVRepository.load db capital_headers = Ok (Some df)
    /\ column_names df = ["name"; "latitude"]
    /\ CSVRepository.rename_columns df = df.
Proof.
  destruct (CSVRepository.load db capital_headers) as [[df|]|e] eqn:Hrun;
    try discriminate.
  destruct (load_headers db capital_headers df Hrun)
    as (path & raw & Hpath & Hfile & _ & _ & Hnames & _ & Hfix & _).
  exists df. split; [reflexivity|]. split; [|exact Hfix].
  apply Ok_inj in Hrun. injection Hrun as <-. reflexivity.
Defined.

(* ===================================================================== *)
(** ** From validation to the page *)
(* ===================================================================== *)

Lemma has_column_drop_column (df : DataFrame) (c c' : string) :
  String.eqb c' c = false ->
  has_column (drop_column df c) c' = has_column df c'.
Proof.
  intros Hne. unfold has_column, column_names, drop_column, str_in. simpl.
  induction (columns df) as [|[k v] l IH]; simpl; [reflexivity|].
  destruct (String.eqb k c) eqn:E; simpl.
  - apply String.eqb_eq in E. subst k. rewrite Hne. exact IH.
  - now rewrite IH.
Qed.

Lemma wf_drop_column (df : DataFrame) (c : string) :
  wf df -> wf (drop_column df c).
Proof.
  unfold wf, drop_column. simpl. intros Hwf. apply Forall_forall.
  intros col Hin. apply filter_In in Hin. rewrite Forall_forall in Hwf.
  now apply Hwf.
Qed.

Lemma wf_setitem (df : DataFrame) (c : string) (vs : list value) :
  wf df -> List.length vs = List.length (index df) -> wf (setitem df c vs).
Proof.
  intros Hwf Hlen. unfold wf, setitem. simpl.
  apply Forall_replace; [|exact Hwf]. intros k. exact Hlen.
Qed.

Section Pipeline.
Context {P : Pandas}.

(** [filter] keeps the shape of a table it can read. *)
Lemma filter_shape (df : DataFrame) (R S : list string) (a b : Z) :
  wf df ->
  has_column df "region" = true ->
  has_column df "status" = true ->
  has_column df "start_date" = true ->
  exists out,
    CaseService.filter df R S a b = Ok out
    /\ wf out
    /\ forall c, has_column out c = has_column df c.
Proof.
  intros Hwf Hreg Hsta Hsd. unfold CaseService.filter, copy.
  destruct (selection_stage df "region" R Hwf Hreg)
    as (fdf1 & -> & Hwf1 & Hcols1 & _).
  cbn [bind].
  assert (Hsta1 : has_column fdf1 "status" = true) by now rewrite Hcols1.
  destruct (selection_stage fdf1 "status" S Hwf1 Hsta1)
    as (fdf2 & -> & Hwf2 & Hcols2 & _).
  cbn [bind].
  assert (Hsd2 : has_column fdf2 "start_date" = true)
    by now rewrite Hcols2, Hcols1.
  apply has_column_getitem in Hsd2. destruct Hsd2 as [col Hget].
  rewrite Hget. cbn [bind].
  eexists. split; [reflexivity|]. split; [now apply wf_getitem_mask|].
  intros c. now rewrite has_column_getitem_mask, Hcols2, Hcols1.
Qed.

Lemma sources_panel_runs (df : DataFrame) :
  wf df -> has_column df "name" = true ->
  exists ws, View.sources_panel df = Ok ws.
Proof.
  intros Hwf Hname. unfold View.sources_panel.
  destruct (empty df); [eauto|].
  match goal with
  | |- exists ws, mapM ?f ?l = Ok ws =>
      destruct (mapM_all_ok f l) as (ws & Hws & _); [|eauto]
  end.
  intros item Hin.
  destruct (has_column_row df "name" item Hwf Hname Hin) as [v Hv].
  cbn beta. rewrite Hv. cbn [bind]. eauto.
Qed.

(** X22.  Validation guards every later column read.  For a table that
    [validate] accepts, [normalize] raises no [KeyError]; and once it has
    returned, whatever the sidebar selects, [filter], [colorize],
    [tooltipify], [minimal_map_df], [table_display] and [sources_panel] all
    return, in the order the script calls them.  The table that reaches the
    page still has every required column, and the tooltip column besides. *)
Theorem validated_pipeline_runs (df : DataFrame) (R S : list string)
    (a b : Z) :
  wf df ->
  CSVRepository.validate df = [] ->
  (forall c, CaseService.normalize df <> Raise (KeyError c))
  /\ forall n,
       CaseService.normalize df = Ok n ->
       exists f cf t m tbl ws,
         CaseService.filter n R S a b = Ok f
         /\ CaseService.colorize f = Ok cf
         /\ CaseService.tooltipify (base cf) = Ok t
         /\ MapBuilder.minimal_map_df t = Ok m
         /\ CaseService.table_display t = Ok tbl
         /\ View.sources_panel t = Ok ws
         /\ CSVRepository.validate t = []
         /\ has_column t "tooltip" = true
         /\ List.length (color cf) = List.length (index t).
Proof.
  intros Hwf Hvalid.
  assert (Hreq : forall c, In c REQUIRED_COLS -> has_column df c = true)
    by (intros c; apply validated_has_column; exact Hvalid).
  (* normalize *)
  split.
  { intros c. pose proof (normalize_outcome df Hwf) as Hrun.
    destruct (mixed_column df "start_date" || mixed_column df "last_verified")%bool.
    - rewrite Hrun; [discriminate|].
      intros c' Hin. apply Hreq. unfold COERCED_COLS, REQUIRED_COLS in *.
      simpl in *. intuition.
    - destruct Hrun as (out & -> & _); [|discriminate].
      intros c' Hin. apply Hreq. unfold COERCED_COLS, REQUIRED_COLS in *.
      simpl in *. intuition. }
  intros n Hn.
  destruct (normalize_shape df n Hn) as (_ & Hcn & Hwfn).
  specialize (Hwfn Hwf).
  (* filter *)
  destruct (filter_shape n R S a b Hwfn) as (f & Hf & Hwff & Hcf);
    try (rewrite Hcn; apply Hreq; simpl; auto 10).
  (* colorize *)
  assert (Hstatus : has_column f "status" = true)
    by (rewrite Hcf, Hcn; apply Hreq; simpl; auto 10).
  apply has_column_getitem in Hstatus. destruct Hstatus as [status Hstatus].
  assert (Hcolor : CaseService.colorize f
                   = Ok (mkColored (drop_column f "color")
                           (map (fun s => dict_get STATUS_COLOR s DEFAULT_COLOR)
                                (str_lower (astype_str status)))))
    by (unfold CaseService.colorize, copy; rewrite Hstatus; reflexivity).
  set (cf := mkColored (drop_column f "color")
               (map (fun s => dict_get STATUS_COLOR s DEFAULT_COLOR)
                    (str_lower (astype_str status)))) in *.
  assert (Hwfb : wf (base cf)) by (apply wf_drop_column; exact Hwff).
  assert (Hcb : forall c, In c REQUIRED_COLS -> has_column (base cf) c = true).
  { intros c Hin. unfold cf. cbn [base].
    rewrite has_column_drop_column, Hcf, Hcn; [now apply Hreq|].
    unfold REQUIRED_COLS in Hin. simpl in Hin.
    repeat (destruct Hin as [<-|Hin]; [reflexivity|]). contradiction. }
  (* tooltipify *)
  pose proof (tooltipify_key_error (base cf)) as Htip.
  assert (Hnone : first_missing (base cf) TOOLTIP_COLS = None).
  { unfold first_missing, TOOLTIP_COLS. cbn [find].
    repeat (rewrite Hcb by (simpl; auto 14); cbn [negb]). reflexivity. }
  rewrite Hnone in Htip. destruct Htip as [t Ht].
  pose proof (tooltipify_rows (base cf) t Hwfb Ht) as Hshape.
  assert (Hwft : wf t).
  { rewrite Hshape. apply wf_setitem; [exact Hwfb|].
    rewrite length_map. apply length_iterrows. }
  assert (Hct : forall c, In c REQUIRED_COLS -> has_column t c = true).
  { intros c Hin. rewrite Hshape, has_column_setitem, (Hcb c Hin). reflexivity. }
  (* minimal_map_df *)
  destruct (minimal_map_df_run t) as (_ & _ & Hmap).
  destruct Hmap as (lon & lat & cols & _ & _ & _ & _ & Hm);
    try (apply Hct; simpl; auto 10).
  cbv zeta in Hm.
  (* table_display, sources_panel *)
  destruct (table_display_index t) as (tbl & Htbl & _).
  destruct (sources_panel_runs t Hwft) as [ws Hws];
    [apply Hct; simpl; auto|].
  exists f, cf, t. do 3 eexists.
  split; [exact Hf|]. split; [exact Hcolor|].
  split; [exact Ht|]. split; [exact Hm|]. split; [exact Htbl|].
  split; [exact Hws|]. split.
  - unfold CSVRepository.validate. apply filter_none. intros c Hin.
    now rewrite (Hct c Hin).
  - split.
    + rewrite Hshape, has_column_setitem. apply orb_true_r.
    + rewrite Hshape. unfold cf. cbn [color base setitem index drop_column].
      unfold str_lower, astype_str. rewrite !length_map.
      exact (getitem_length f "status" status Hwff Hstatus).
Qed.

End Pipeline.

Lemma validated_pipeline_runs_witness :
  wf cases
  /\ CSVRepository.validate cases = []
  /\ exists n f cf t m,
       CaseService.normalize (H := Reference.pandas) cases = Ok n
       /\ CaseService.filter (H := Reference.pandas) n ["Asia"] [] 2000 2030
          = Ok f
       /\ CaseService.colorize (H := Reference.pandas) f = Ok cf
       /\ CaseService.tooltipify (H := Reference.pandas) (base cf) = Ok t
       /\ MapBuilder.minimal_map_df (H := Reference.pandas) t = Ok m
       /\ index f = [1; 2]%Z
       /\ color cf = [[255; 140; 0]; [220; 20; 60]]%Z
       /\ index m = [1; 2]%Z.
Proof.
  split; [exact wf_cases|]. split; [reflexivity|].
  destruct (CaseService.normalize (H := Reference.pandas) cases)
    as [n|e] eqn:Hn; [|discriminate].
  destruct (proj2 (@validated_pipeline_runs Reference.pandas cases ["Asia"] []
                     2000%Z 2030%Z wf_cases eq_refl) n Hn)
    as (f & cf & t & m & tbl & ws & Hf & Hcf & Ht & Hm & _).
  exists n, f, cf, t, m.
  split; [reflexivity|]. split; [exact Hf|]. split; [exact Hcf|].
  split; [exact Ht|]. split; [exact Hm|].
  vm_compute in Hn. apply Ok_inj in Hn. subst n.
  vm_compute in Hf. apply Ok_inj in Hf. subst f.
  vm_compute in Hcf. apply Ok_inj in Hcf. subst cf.
  vm_compute in Ht. apply Ok_inj in Ht. subst t.
  vm_compute in Hm. apply Ok_inj in Hm. subst m.
  repeat split; reflexivity.
Defined.

(* ===================================================================== *)
(** ** The prototype's [load_csv] and the classes *)
(* ===================================================================== *)

Lemma wf_rename_columns (df : DataFrame) :
  wf df -> wf (CSVRepository.rename_columns df).
Proof.
  unfold wf, CSVRepository.rename_columns. simpl. intros Hwf.
  rewrite Forall_map. exact Hwf.
Qed.

Section PrototypeAgreement.
Context {P : Pandas}.

Lemma prototype_row_msgs_numbers (row : Series) (x y : float) :
  get row "latitude" = Some (VFloat x) ->
  get row "longitude" = Some (VFloat y) ->
  Prototype.row_msgs row = CaseService.row_msgs row.
Proof.
  intros Hx Hy.
  unfold Prototype.row_msgs, CaseService.row_msgs, Prototype.coordinate.
  rewrite Hx, Hy, coords_in_range_numbers. unfold notna_cell.
  cbn [isna py_float]. unfold in_geographic_range.
  destruct (is_nan x), (is_nan y); cbn [negb bind orb]; try reflexivity.
  destruct ((PrimFloat.leb (-90) x && PrimFloat.leb x 90)
            && (PrimFloat.leb (-180) y && PrimFloat.leb y 180))%bool;
    reflexivity.
Qed.

Lemma prototype_loop_run (rows : list (Z * Series)) :
  forall problems,
    fold_left (fun problems (item : Z * Series) =>
                 let '(idx, row) := item in
                 let msgs := Prototype.row_msgs row in
                 if list_truthy msgs
                 then problems ++ [(idx, join "; " msgs)]
                 else problems)
              rows problems
    = problems
      ++ map (fun item => (fst item, join "; " (Prototype.row_msgs (snd item))))
             (List.filter (fun item => list_truthy (Prototype.row_msgs (snd item)))
                          rows).
Proof.
  induction rows as [|[idx row] rows IH]; intros problems; simpl.
  - now rewrite app_nil_r.
  - rewrite IH. destruct (list_truthy (Prototype.row_msgs row)); simpl.
    + now rewrite <- app_assoc.
    + reflexivity.
Qed.

(** On a table [normalize] returned, the prototype's loop and
    [quality_issues] find the same problems. *)
Lemma row_checks_normalized (df out : DataFrame) :
  wf df -> CaseService.normalize df = Ok out ->
  Prototype.row_checks out = CaseService.quality_issues out.
Proof.
  intros Hwf Hrun. unfold Prototype.row_checks.
  rewrite prototype_loop_run, quality_issues_rows. cbn [app].
  assert (Hrow : forall item, In item (iterrows out) ->
            Prototype.row_msgs (snd item) = CaseService.row_msgs (snd item)).
  { intros item Hin.
    destruct (normalized_row_coordinates df out item Hwf Hrun Hin)
      as (x & y & Hx & Hy).
    exact (prototype_row_msgs_numbers (snd item) x y Hx Hy). }
  rewrite (filter_ext_in _ has_issue).
  - apply map_ext_in. intros item Hin. apply filter_In in Hin.
    unfold issue_of. now rewrite (Hrow item (proj1 Hin)).
  - intros item Hin. unfold has_issue. now rewrite (Hrow item Hin).
Qed.

(** The type cleaning of [load_csv] is [normalize]. *)
Lemma type_cleaning_normalize (df : DataFrame) :
  (lat <- getitem df "latitude" ;;
   let df := setitem df "latitude" (to_numeric lat) in
   lon <- getitem df "longitude" ;;
   let df := setitem df "longitude" (to_numeric lon) in
   deaths <- getitem df "est_deaths" ;;
   let df := setitem df "est_deaths" (to_numeric deaths) in
   sd <- getitem df "start_date" ;;
   sd <- Prototype._coerce_date sd ;;
   let df := setitem df "start_date" sd in
   lv <- getitem df "last_verified" ;;
   lv <- Prototype._coerce_date lv ;;
   let df := setitem df "last_verified" lv in
   let problems := Prototype.row_checks df in
   Ok ((if list_truthy problems then [Prototype.QualityIssues problems]
        else []),
       Some df))
  = (out <- CaseService.normalize df ;;
     Ok ((if list_truthy (Prototype.row_checks out)
          then [Prototype.QualityIssues (Prototype.row_checks out)]
          else []),
         Some out)).
Proof.
  unfold CaseService.normalize, copy, Prototype._coerce_date,
    CaseService._coerce_date.
  repeat match goal with
         | |- context [getitem ?d ?c] =>
             destruct (getitem d c); cbn [bind]; try reflexivity
         | |- context [to_datetime_dt ?col] =>
             destruct (to_datetime_dt col); cbn [bind]; try reflexivity
         end.
Qed.

(** X23.  The classes compute what the prototype's [load_csv] computed.
    Given the prototype's two paths, loading and validating with
    [CSVRepository] and then [normalize] and [quality_issues] ends as
    [load_csv] does: the same exception of [pd.read_csv]; [None] when neither
    file exists; the same list of missing columns (after which the
    prototype returns an empty [pd.DataFrame()] and goes on, where the
    script of the classes stops); the same exception when the type cleaning
    raises; and otherwise the same cleaned table and the same problems,
    shown only when there are some. *)
Theorem prototype_load_csv_agrees (fs : FileSystem) :
  (forall p df, fs p = Csv df -> wf df) ->
  let db :=
    CSVRepository.__init__ Prototype.PREFERRED_PATH Prototype.FALLBACK_PATH in
  match load_and_validate db fs with
  | Raise e => Prototype.load_csv fs = Raise e
  | Ok NoCsvFound => Prototype.load_csv fs = Ok ([], None)
  | Ok (MissingRequiredColumns missing) =>
      exists path,
        CSVRepository._path db fs = Some path
        /\ Prototype.load_csv fs
           = Ok ([Prototype.MissingColumns path missing],
                 Some (mkDataFrame [] []))
  | Ok (Validated df) =>
      match CaseService.normalize df with
      | Ok out =>
          Prototype.load_csv fs
          = Ok ((if list_truthy (CaseService.quality_issues out)
                 then [Prototype.QualityIssues (CaseService.quality_issues out)]
                 else []),
                Some out)
      | Raise e => Prototype.load_csv fs = Raise e
      end
  end.
Proof.
  intros Hfiles db. subst db.
  unfold load_and_validate, CSVRepository.load, CSVRepository._path,
    Prototype.load_csv.
  cbn [CSVRepository.preferred CSVRepository.fallback].
  remember (if exists_ fs Prototype.PREFERRED_PATH
            then Some Prototype.PREFERRED_PATH
            else if exists_ fs Prototype.FALLBACK_PATH
                 then Some Prototype.FALLBACK_PATH else None) as chosen.
  destruct chosen as [path|]; [|reflexivity].
  unfold read_csv. destruct (fs path) as [|e|raw] eqn:Hfile; cbn [bind];
    try reflexivity.
  unfold CSVRepository.validate.
  set (df := CSVRepository.rename_columns raw).
  destruct (List.filter (fun c => negb (has_column df c)) REQUIRED_COLS)
    as [|c missing] eqn:Hmissing; cbn [list_truthy].
  - assert (Hwf : wf df)
      by (apply wf_rename_columns; exact (Hfiles path raw Hfile)).
    rewrite type_cleaning_normalize.
    destruct (CaseService.normalize df) as [out|e] eqn:Hout; cbn [bind];
      [|reflexivity].
    now rewrite (row_checks_normalized df out Hwf Hout).
  - exists path. split; reflexivity.
Qed.

End PrototypeAgreement.

Lemma prototype_load_csv_agrees_witness :
  (forall p df, cases_in_fallback p = Csv df -> wf df)
  /\ exists out,
       Prototype.load_csv (H := Reference.pandas) cases_in_fallback
       = Ok ([Prototype.QualityIssues
                [(2, "lat/lon out of range; missing sources");
                 (3, "lat/lon missing or invalid")]%Z],
             Some out)
       /\ CaseService.normalize (H := Reference.pandas) cases = Ok out.
Proof.
  assert (Hfiles : forall p df, cases_in_fallback p = Csv df -> wf df).
  { intros p df. unfold cases_in_fallback.
    destruct (String.eqb p "genocides.csv"); [|discriminate].
    intros [= <-]. exact wf_cases. }
  split; [exact Hfiles|].
  pose proof (@prototype_load_csv_agrees Reference.pandas cases_in_fallback
                Hfiles) as Hagree.
  cbv zeta in Hagree.
  change (load_and_validate
            (CSVRepository.__init__ Prototype.PREFERRED_PATH
               Prototype.FALLBACK_PATH) cases_in_fallback)
    with (Ok (Validated cases)) in Hagree.
  destruct (CaseService.normalize (H := Reference.pandas) cases)
    as [out|e] eqn:Hout; [|discriminate].
  exists out. split; [|reflexivity].
  rewrite Hagree. vm_compute in Hout. apply Ok_inj in Hout. subst out.
  reflexivity.
Defined.
